(** * Productivity dashboard: the normalise / filter / aggregate pipeline

    A shallow embedding of [appdashboard.py].  A pandas frame is an ordered
    collection of rows over a list of column names.  The frames live in a
    heap of objects: the script hands the frames of the session state to
    [procesar_y_graficar] by reference, and an assignment to a column
    changes the object it is applied to.  What the script puts on the page
    (messages, the metric, the tables) is the outcome of a view;  drawing
    is left out.

    The first part holds the model, the second its properties: how each
    stage of the view runs on the heap, what [value_counts] and the
    percentages satisfy, and the properties of the views themselves. *)

From Stdlib Require Import ZArith QArith Qround Qabs Qpower Lqa Ascii.
From Stdlib Require SpecFloat.
From Stdlib Require OrderedTypeEx.
From stdpp Require Import base option list gmap strings sorting.

Local Open Scope Z_scope.

(** ** Cells *)

(** A value held by a frame: a missing value, a text, a parsed
    [datetime64] instant (nanoseconds since the epoch), the missing
    instant, and a calendar date (days since the epoch), which is what
    [.dt.date] and [datetime.date] yield. *)
Inductive cell : Type :=
  | NaN
  | Str (s : string)
  | Timestamp (ns : Z)
  | NaT
  | Date (d : Z).

#[global] Instance cell_eq_dec : EqDecision cell.
Proof. solve_decision. Defined.

Definition isna (c : cell) : bool :=
  match c with
  | NaN | NaT => true
  | _ => false
  end.

Definition notna (c : cell) : bool := negb (isna c).

(** The order pandas sorts group keys by.  Columns are homogeneous in the
    script (dates with dates, names with names); across kinds the order
    follows the constructors. *)
Definition cell_rank (c : cell) : Z :=
  match c with
  | Date _ => 0
  | Timestamp _ => 1
  | Str _ => 2
  | NaT => 3
  | NaN => 4
  end.

Definition cell_ltb (a b : cell) : bool :=
  match a, b with
  | Date x, Date y => x <? y
  | Timestamp x, Timestamp y => x <? y
  | Str x, Str y => String.ltb x y
  | _, _ => cell_rank a <? cell_rank b
  end.

Fixpoint key_ltb (k1 k2 : list cell) : bool :=
  match k1, k2 with
  | [], _ :: _ => true
  | a :: k1', b :: k2' =>
      if cell_ltb a b then true
      else if cell_ltb b a then false
      else key_ltb k1' k2'
  | _, _ => false
  end.

(** ** Series: the values of one column, in row order *)

Definition isin (s : list cell) (values : list string) : list bool :=
  fmap (λ c, bool_decide (c ∈ fmap Str values)) s.

Definition nanos_per_day : Z := 86400000000000.

(** [Series.dt.date]: the calendar date of an instant. *)
Definition date_of (c : cell) : cell :=
  match c with
  | Timestamp ns => Date (ns / nanos_per_day)
  | _ => NaT
  end.

Definition dt_date (s : list cell) : list cell := fmap date_of s.

(** Comparison of a series of dates with a [datetime.date]; a missing
    value compares false. *)
Definition series_ge (s : list cell) (d : Z) : list bool :=
  fmap (λ c, match c with Date x => d <=? x | _ => false end) s.

Definition series_le (s : list cell) (d : Z) : list bool :=
  fmap (λ c, match c with Date x => x <=? d | _ => false end) s.

Definition mask_and (m1 m2 : list bool) : list bool := zip_with andb m1 m2.

(** Selection of the positions a boolean mask marks. *)
Fixpoint boolean_index {A} (mask : list bool) (l : list A) : list A :=
  match mask, l with
  | b :: mask', x :: l' =>
      if b then x :: boolean_index mask' l' else boolean_index mask' l'
  | _, _ => []
  end.

(** ** Grouping *)

Section grouping.
Context {A : Type} `{EqDecision A}.

(** Distinct values in order of first appearance ([unique]). *)
Fixpoint unique (l : list A) : list A :=
  match l with
  | [] => []
  | x :: l' => x :: filter (λ y, y ≠ x) (unique l')
  end.

Definition count (x : A) (l : list A) : nat :=
  length (filter (λ y, y = x) l).

(** Insertion sort that keeps the order of the elements neither of
    which goes before the other. *)
Fixpoint insert_sorted (before : A → A → bool) (x : A) (l : list A) : list A :=
  match l with
  | [] => [x]
  | y :: l' =>
      if before y x then y :: insert_sorted before x l' else x :: y :: l'
  end.

Definition stable_sort (before : A → A → bool) (l : list A) : list A :=
  foldr (insert_sorted before) [] l.
End grouping.

(** [Series.value_counts()]: missing values are left out, the distinct
    values are counted, and the lines are sorted by descending count.
    pandas sorts them with [sort_values], which promises no order among
    the lines of equal count; the model takes the order a stable sort
    leaves, that of first appearance, which is one of the orders pandas
    may give.  No theorem below rests on the order among equal counts;
    only the tables computed on the examples show it. *)
Definition count_desc (a b : cell * nat) : bool := Nat.ltb b.2 a.2.

Definition value_counts (s : list cell) : list (cell * nat) :=
  let vals := filter (λ c, notna c = true) s in
  stable_sort count_desc (fmap (λ u, (u, count u vals)) (unique vals)).

(** ** Percentages *)

Local Open Scope Q_scope.

(** Rounding to the nearest integer, halves to the even neighbour. *)
Definition round_half_even (q : Q) : Z :=
  let f := Qfloor q in
  match Qcompare (q - inject_Z f) (1 # 2) with
  | Lt => f
  | Gt => (f + 1)%Z
  | Eq => if Z.even f then f else (f + 1)%Z
  end.

(** *** Double precision

    The percentages are computed by numpy on [float64].  A [float64]
    that is a number is a rational, and each operation gives the
    [float64] nearest to the exact result, halves to the even
    significand.  The numbers of this computation lie between [2^-63]
    and [10^4], far inside the range of the exponent, so the exponent is
    left unbounded: no overflow, no subnormal number. *)

(** The position of the leading bit of a positive rational: the [e]
    with [2^e <= q < 2^(e+1)]. *)
Definition ilog2 (q : Q) : Z :=
  let k := (Z.log2 (Qnum q) - Z.log2 (Zpos (Qden q)))%Z in
  if Qle_bool (2 ^ k) q then k else (k - 1)%Z.

(** The nearest number with a significand of 53 bits. *)
Definition binary64 (q : Q) : Q :=
  if Qeq_bool q 0 then 0
  else
    let ulp := 2 ^ (ilog2 (Qabs q) - 52) in
    inject_Z (round_half_even (q / ulp)) * ulp.

(** [/] and [*] of [float64], the conversion of an [int64], and
    [numpy.rint]. *)
Definition fdiv (a b : Q) : Q := binary64 (a / b).
Definition fmul (a b : Q) : Q := binary64 (a * b).
Definition of_int64 (n : Z) : Q := binary64 (inject_Z n).
Definition rint (q : Q) : Q := inject_Z (round_half_even q).

(** [round(2)]: numpy multiplies by [10**2], takes [rint] and divides by
    [10**2]. *)
Definition round2 (q : Q) : Q := fdiv (rint (fmul q 100)) 100.

(** [(n / total * 100).round(2)] for two counts. *)
Definition porcentaje (n total : nat) : Q :=
  round2 (fmul (fdiv (of_int64 (Z.of_nat n)) (of_int64 (Z.of_nat total))) 100).

Definition Qsum (l : list Q) : Q := foldr Qplus 0 l.

Definition conteo_sum (counts : list (cell * nat)) : nat :=
  sum_list_with snd counts.

(** [counts['%'] = (counts['Conteo'] / counts['Conteo'].sum() * 100).round(2)] *)
Definition with_pct (counts : list (cell * nat)) : list (cell * nat * Q) :=
  fmap (λ r, (r.1, r.2, porcentaje r.2 (conteo_sum counts))) counts.

(** The same computation with the operations of the standard library's
    specification of IEEE 754 arithmetic, on 53 bits of significand and
    the exponents of binary64, to compare the two on examples. *)
Module IEEE754.
Import SpecFloat.

Definition prec : Z := 53.
Definition emax : Z := 1024.

Definition to_Q (x : spec_float) : Q :=
  match x with
  | S754_finite s m e => (if s then -1 else 1) * inject_Z (Zpos m) * 2 ^ e
  | _ => 0
  end.

Definition of_Z (n : Z) : spec_float := binary_normalize prec emax n 0 false.

(** [rint] of a number between 0 and [2^52]. *)
Definition rint (x : spec_float) : spec_float :=
  SFsub prec emax (SFadd prec emax x (of_Z (2 ^ 52))) (of_Z (2 ^ 52)).

Definition round2 (x : spec_float) : spec_float :=
  SFdiv prec emax (rint (SFmul prec emax x (of_Z 100))) (of_Z 100).

Definition porcentaje (n total : nat) : spec_float :=
  round2 (SFmul prec emax
            (SFdiv prec emax (of_Z (Z.of_nat n)) (of_Z (Z.of_nat total)))
            (of_Z 100)).
End IEEE754.

Local Close Scope Q_scope.

(** ** Frames *)

(** A row maps column names to cells; a frame is its column names and its
    rows, in order. *)
Record DataFrame : Type := mkDataFrame {
  columns : list string;
  rows : list (gmap string cell)
}.

#[global] Instance DataFrame_eq_dec : EqDecision DataFrame.
Proof. solve_decision. Defined.

Definition get (r : gmap string cell) (c : string) : cell :=
  default NaN (r !! c).

Definition column (d : DataFrame) (c : string) : list cell :=
  fmap (λ r, get r c) (rows d).

(** [df.empty]: one of the two axes has length zero. *)
Definition empty (d : DataFrame) : bool :=
  match rows d, columns d with
  | _ :: _, _ :: _ => false
  | _, _ => true
  end.

Definition add_column (cols : list string) (c : string) : list string :=
  if bool_decide (c ∈ cols) then cols else cols ++ [c].

(** [df[c] = s] for a series [s] that has one value per row. *)
Definition assign (d : DataFrame) (c : string) (s : list cell) : DataFrame :=
  {| columns := add_column (columns d) c;
     rows := zip_with (λ r v, <[c := v]> r) (rows d) s |}.

(** [df[c] = v] for a single value [v]. *)
Definition assign_scalar (d : DataFrame) (c : string) (v : cell) : DataFrame :=
  {| columns := add_column (columns d) c;
     rows := fmap (λ r, <[c := v]> r) (rows d) |}.

(** [df[mask]] *)
Definition take (d : DataFrame) (mask : list bool) : DataFrame :=
  {| columns := columns d; rows := boolean_index mask (rows d) |}.

(** [df.dropna(subset=[c])] *)
Definition dropna_subset (d : DataFrame) (c : string) : DataFrame :=
  {| columns := columns d;
     rows := filter (λ r, notna (get r c) = true) (rows d) |}.

(** [pd.concat(frames, ignore_index=True)]: the columns are those of the
    frames in order of appearance, the rows follow each other in the
    order of the frames, and a row has a missing value in a column its
    frame lacks. *)
Definition union_columns (frames : list DataFrame) : list string :=
  foldl (λ acc d, acc ++ filter (λ c, c ∉ acc) (columns d)) [] frames.

Definition reindex (cols : list string) (r : gmap string cell) : gmap string cell :=
  list_to_map (fmap (λ c, (c, get r c)) cols).

Definition concat_frames (frames : list DataFrame) : DataFrame :=
  let cols := union_columns frames in
  {| columns := cols;
     rows := concat (fmap (λ d, fmap (reindex cols) (rows d)) frames) |}.

(** [df.groupby(by).size()]: rows with a missing key are left out, and
    the groups come sorted by key. *)
Definition group_keys (d : DataFrame) (by_ : list string) : list (list cell) :=
  filter (λ k, Forall (λ c, notna c = true) k)
         (fmap (λ r, fmap (get r) by_) (rows d)).

Definition size_by (d : DataFrame) (by_ : list string) : list (list cell * nat) :=
  let ks := group_keys d by_ in
  fmap (λ k, (k, count k ks)) (stable_sort key_ltb (unique ks)).

(** ** The heap of frames *)

(** Python names refer to frame objects.  A location is a position in
    the heap; an operation that builds a frame allocates a fresh one and
    an assignment to a column updates the object in place. *)
Abbreviation loc := nat.

(** The exceptions of a run.  [Dangling] is a location outside the heap;
    no Python name refers to one, the model raises it to keep [deref]
    total.  [WriteError] is any exception of a write to the disk. *)
Inductive exn : Type :=
  | KeyError (k : string)
  | Dangling
  | WriteError.

Inductive result (A : Type) : Type :=
  | Ok (a : A)
  | Raise (e : exn).
Arguments Ok {A} a.
Arguments Raise {A} e.

Definition M (A : Type) : Type := list DataFrame → result A * list DataFrame.

#[global] Instance M_ret : MRet M := λ A a h, (Ok a, h).
#[global] Instance M_bind : MBind M := λ A B f m h,
  match m h with
  | (Ok a, h') => f a h'
  | (Raise e, h') => (Raise e, h')
  end.

Definition raise {A} (e : exn) : M A := λ h, (Raise e, h).

Definition new (d : DataFrame) : M loc := λ h, (Ok (length h), h ++ [d]).

Definition deref (l : loc) : M DataFrame := λ h,
  match h !! l with
  | Some d => (Ok d, h)
  | None => (Raise Dangling, h)
  end.

Definition store (l : loc) (d : DataFrame) : M unit := λ h, (Ok (), <[l := d]> h).

(** [df[c]]: raises [KeyError] when the frame has no such column. *)
Definition getitem (df : loc) (c : string) : M (list cell) :=
  d ← deref df;
  if bool_decide (c ∈ columns d) then mret (column d c) else raise (KeyError c).

Definition setitem (df : loc) (c : string) (s : list cell) : M unit :=
  d ← deref df; store df (assign d c s).

Definition setitem_scalar (df : loc) (c : string) (v : cell) : M unit :=
  d ← deref df; store df (assign_scalar d c v).

Definition getitem_mask (df : loc) (mask : list bool) : M loc :=
  d ← deref df; new (take d mask).

Definition dropna (df : loc) (c : string) : M loc :=
  d ← deref df; new (dropna_subset d c).

Definition copy (df : loc) : M loc :=
  d ← deref df; new d.

Fixpoint deref_all (ls : list loc) : M (list DataFrame) :=
  match ls with
  | [] => mret []
  | l :: ls' => d ← deref l; ds ← deref_all ls'; mret (d :: ds)
  end.

Definition pd_concat (ls : list loc) : M loc :=
  ds ← deref_all ls; new (concat_frames ds).

Definition groupby_size (df : loc) (by_ : list string) : M (list (list cell * nat)) :=
  d ← deref df;
  match list_find (λ c, c ∉ columns d) by_ with
  | Some (_, c) => raise (KeyError c)
  | None => mret (size_by d by_)
  end.

(** ** Filters of the side bar *)

Record filtros : Type := mkFiltros {
  tipo_legalizacion : list string;
  sel_usuarios : list string;
  start_date : Z;
  end_date : Z
}.

(** ** What a view shows *)

(** The tables of the two modes (lines 116-151): the ranking [counts]
    with its columns [Usuario], [Conteo] and [%], and the comparison with
    the daily counts [evol], built only when the frame has a date column,
    and the summary [resumen_sel]. *)
Inductive vista : Type :=
  | General (counts : list (cell * nat * Q))
  | Comparativo (evol : option (list (list cell * nat)))
                (resumen_sel : list (cell * nat)).

(** What [procesar_y_graficar] and the tabs put on the page: the message
    of line 87, the warning of line 110, the metric of line 114 followed
    by the tables of a mode, and the message of line 171. *)
Inductive outcome : Type :=
  | NoHayDatosCargados
  | SinDatosConFiltros
  | TotalRegistros (n : nat) (v : vista)
  | SincronizaLosDatos.

(** Readings of the two tables of the comparison: the total the summary
    gives for an operator, and the sum of the daily counts the time
    series gives for it (the operator is the second component of a key). *)
Definition total_realizado (resumen_sel : list (cell * nat)) (u : cell) : nat :=
  sum_list_with snd (filter (λ r, r.1 = u) resumen_sel).

Definition cuenta_en_evol (evol : list (list cell * nat)) (u : cell) : nat :=
  sum_list_with snd (filter (λ e, e.1 !! 1%nat = Some u) evol).

Section pipeline.
(** [pd.to_datetime(s, errors='coerce')] is not part of the script: the
    parser is a parameter.  pandas settles one format for a column, so
    the parser is given the column and the position of the value; [None]
    stands for a value that does not parse. *)
Variable to_datetime : list cell → nat → option Z.

Definition pd_to_datetime (s : list cell) : list cell :=
  imap (λ i _, from_option Timestamp NaT (to_datetime s i)) s.

Variable f : filtros.

Definition es_filtro_activo : bool :=
  bool_decide ("Todos" ∉ sel_usuarios f) && (0 <? length (sel_usuarios f))%nat.

Definition resolve_col_u (d : DataFrame) : string :=
  if bool_decide ("USUARIO" ∈ columns d) then "USUARIO" else "Usuario".

Definition resolve_col_f (d : DataFrame) : option string :=
  snd <$> list_find (λ c, c ∈ columns d)
                    ["FECHA_REAL"; "FECHA_FACTURA"; "FECHA"; "Fecha"].

(** Lines 95-96 *)
Definition filtro_de_tipo (es_legalizacion : bool) (d0 : DataFrame) (df : loc) : M loc :=
  if es_legalizacion && bool_decide ("Tipo_Leg" ∈ columns d0) then
    s ← getitem df "Tipo_Leg";
    getitem_mask df (isin s (tipo_legalizacion f))
  else mret df.

(** Lines 99-102 *)
Definition filtro_de_fecha (col_f : option string) (df : loc) : M loc :=
  match col_f with
  | Some c =>
      s ← getitem df c;
      setitem df c (pd_to_datetime s);;
      df ← dropna df c;
      s1 ← getitem df c;
      s2 ← getitem df c;
      getitem_mask df (mask_and (series_ge (dt_date s1) (start_date f))
                                (series_le (dt_date s2) (end_date f)))
  | None => mret df
  end.

(** Lines 105-107 *)
Definition filtro_de_usuario (col_u : string) (df : loc) : M loc :=
  if es_filtro_activo then
    s ← getitem df col_u;
    getitem_mask df (isin s (sel_usuarios f))
  else mret df.

(** Lines 116-151 *)
Definition modo_general (col_u : string) (df : loc) : M vista :=
  s ← getitem df col_u;
  let counts := value_counts s in
  mret (General (with_pct counts)).

Definition modo_comparativo (col_u : string) (col_f : option string) (df : loc) : M vista :=
  evol ← match col_f with
         | Some c =>
             s ← getitem df c;
             setitem df "Dia_Evolucion" (dt_date s);;
             e ← groupby_size df ["Dia_Evolucion"; col_u];
             mret (Some e)
         | None => mret None
         end;
  s ← getitem df col_u;
  mret (Comparativo evol (value_counts s)).

(** Lines 85-151: the view of one frame. *)
Definition procesar_y_graficar (df : option loc) (es_legalizacion : bool) : M outcome :=
  match df with
  | None => mret NoHayDatosCargados
  | Some df =>
      d0 ← deref df;
      if empty d0 then mret NoHayDatosCargados
      else
        let col_u := resolve_col_u d0 in
        let col_f := resolve_col_f d0 in
        df ← filtro_de_tipo es_legalizacion d0 df;
        df ← filtro_de_fecha col_f df;
        df ← filtro_de_usuario col_u df;
        d ← deref df;
        if empty d then mret SinDatosConFiltros
        else
          v ← (if negb es_filtro_activo then modo_general col_u df
               else modo_comparativo col_u col_f df);
          mret (TotalRegistros (length (rows d)) v)
  end.

(** ** The three tabs *)

Record session_state : Type := mkSession {
  df_ppl : option loc;
  df_convenios : option loc;
  df_rips : option loc;
  df_facturacion : option loc
}.

(** Lines 158-166: the frames of the two kinds of legalisation, each a
    copy labelled with its kind. *)
Definition list_leg (st : session_state) : M (list loc) :=
  l1 ← match df_ppl st with
       | Some p =>
           d_p ← copy p;
           setitem_scalar d_p "Tipo_Leg" (Str "PPL");;
           mret [d_p]
       | None => mret []
       end;
  match df_convenios st with
  | Some c =>
      d_c ← copy c;
      setitem_scalar d_c "Tipo_Leg" (Str "Convenios");;
      mret (l1 ++ [d_c])
  | None => mret l1
  end.

Definition tab_leg (st : session_state) : M outcome :=
  ls ← list_leg st;
  match ls with
  | [] => mret SincronizaLosDatos
  | _ :: _ => m ← pd_concat ls; procesar_y_graficar (Some m) true
  end.

Definition tab_rips (st : session_state) : M outcome :=
  procesar_y_graficar (df_rips st) false.

Definition tab_fact (st : session_state) : M outcome :=
  procesar_y_graficar (df_facturacion st) false.

(** The script runs the three tabs one after the other; an exception
    in one of them ends the run. *)
Definition tabs (st : session_state) : M (outcome * outcome * outcome) :=
  o1 ← tab_leg st;
  o2 ← tab_rips st;
  o3 ← tab_fact st;
  mret (o1, o2, o3).
(** ** The frame each stage leaves *)

(** The value of the frame [df] names after each of the three stages,
    as a function of the value it named before.  The lemmas on the
    stages below show that these are the frames the stages build. *)
Definition tras_filtro_de_tipo (es_legalizacion : bool) (d : DataFrame) : DataFrame :=
  if es_legalizacion && bool_decide ("Tipo_Leg" ∈ columns d)
  then take d (isin (column d "Tipo_Leg") (tipo_legalizacion f))
  else d.

Definition fechas_convertidas (c : string) (d : DataFrame) : DataFrame :=
  assign d c (pd_to_datetime (column d c)).

Definition en_rango (c : string) (d : DataFrame) : list bool :=
  mask_and (series_ge (dt_date (column d c)) (start_date f))
           (series_le (dt_date (column d c)) (end_date f)).

Definition tras_filtro_de_fecha (col_f : option string) (d : DataFrame) : DataFrame :=
  match col_f with
  | Some c =>
      let d2 := dropna_subset (fechas_convertidas c d) c in
      take d2 (en_rango c d2)
  | None => d
  end.

Definition tras_filtro_de_usuario (col_u : string) (d : DataFrame) : DataFrame :=
  if es_filtro_activo
  then take d (isin (column d col_u) (sel_usuarios f))
  else d.

Definition filtrado (es_legalizacion : bool) (d : DataFrame) : DataFrame :=
  tras_filtro_de_usuario (resolve_col_u d)
    (tras_filtro_de_fecha (resolve_col_f d)
       (tras_filtro_de_tipo es_legalizacion d)).

Definition con_dia_evolucion (c : string) (d : DataFrame) : DataFrame :=
  assign d "Dia_Evolucion" (dt_date (column d c)).

(** The tables of a view over the filtered frame [d]. *)
Definition vista_de (col_u : string) (col_f : option string) (d : DataFrame) : vista :=
  if negb es_filtro_activo
  then General (with_pct (value_counts (column d col_u)))
  else Comparativo
         (match col_f with
          | Some c => Some (size_by (con_dia_evolucion c d) ["Dia_Evolucion"; col_u])
          | None => None
          end)
         (value_counts (column match col_f with
                               | Some c => con_dia_evolucion c d
                               | None => d
                               end col_u)).
(** What a view over the stored frame [d] shows or raises, and the
    value the stored object holds afterwards. *)
Definition resultado (es_legalizacion : bool) (d : DataFrame) : result outcome :=
  let col_u := resolve_col_u d in
  let fd := filtrado es_legalizacion d in
  if es_filtro_activo && bool_decide (col_u ∉ columns d)
  then Raise (KeyError col_u)
  else if empty fd then Ok SinDatosConFiltros
  else if bool_decide (col_u ∈ columns d)
  then Ok (TotalRegistros (length (rows fd))
                          (vista_de col_u (resolve_col_f d) fd))
  else Raise (KeyError col_u).

Definition almacenado (es_legalizacion : bool) (d : DataFrame) : DataFrame :=
  if es_legalizacion && bool_decide ("Tipo_Leg" ∈ columns d) then d
  else match resolve_col_f d with
       | Some c => fechas_convertidas c d
       | None => d
       end.
(** ** The date filter as the specification words it *)

(** A record whose date value fails to parse is dropped; a record that
    parses is kept when its calendar date lies between the start and
    the end of the range, both included.  A kept record holds the
    parsed instant in its date column. *)
Definition date_filter_spec (c : string) (d : DataFrame) : list (gmap string cell) :=
  omap id
    (imap (λ i r,
             t ← to_datetime (column d c) i;
             if bool_decide (start_date f ≤ t / nanos_per_day ≤ end_date f)
             then Some (<[c := Timestamp t]> r)
             else None)
          (rows d)).
End pipeline.

(** ** Notions the properties are stated with *)

(** A count that is not below the next one. *)
Definition por_conteo_desc (a b : cell * nat) : Prop := (b.2 ≤ a.2)%nat.

(** A parsed instant whose calendar date lies in the range of the
    filters. *)
Definition in_range_cell (f : filtros) (v : cell) : bool :=
  match v with
  | Timestamp t =>
      (start_date f <=? t / nanos_per_day) && (t / nanos_per_day <=? end_date f)
  | _ => false
  end.

(** The percentage of a count before rounding. *)
Definition pct_exact (total : Q) (n : nat) : Q :=
  (inject_Z (Z.of_nat n) / total * 100)%Q.

(** Half a unit in the last place of 1: the relative error of one
    operation on doubles. *)
Definition eps : Q := (1 # 9007199254740992)%Q.

(** The pairs of counts [n <= total <= m], and whether the percentage of
    the model is the one the IEEE 754 operations give. *)
Definition pares (m : nat) : list (nat * nat) :=
  total ← seq 1 m; n ← seq 1 total; [(n, total)].

Definition coincide (n total : nat) : bool :=
  Qeq_bool (IEEE754.to_Q (IEEE754.porcentaje n total)) (porcentaje n total).

(** ** A parser for the examples *)

(** Dates written [YYYY-MM-DD]; every other text fails to parse.  It
    stands for [pd.to_datetime] in the examples below. *)
Module IsoDate.
Definition digit (a : ascii) : option Z :=
  let n := Z.of_nat (nat_of_ascii a) - 48 in
  if (0 <=? n) && (n <=? 9) then Some n else None.

Definition number (ds : list ascii) : option Z :=
  foldl (λ acc a, n ← acc; k ← digit a; Some (10 * n + k)) (Some 0) ds.

(** Days between the first of January 1970 and a day of the Gregorian
    calendar. *)
Definition days_from_civil (y m d : Z) : Z :=
  let y' := if m <=? 2 then y - 1 else y in
  let era := y' / 400 in
  let yoe := y' - era * 400 in
  let doy := (153 * (if 2 <? m then m - 3 else m + 9) + 2) / 5 + d - 1 in
  let doe := yoe * 365 + yoe / 4 - yoe / 100 + doy in
  era * 146097 + doe - 719468.

Definition parse (c : cell) : option Z :=
  match c with
  | Str s =>
      match String.list_ascii_of_string s with
      | [y1; y2; y3; y4; "-"%char; m1; m2; "-"%char; d1; d2] =>
          y ← number [y1; y2; y3; y4];
          m ← number [m1; m2];
          d ← number [d1; d2];
          if (1 <=? m) && (m <=? 12) && (1 <=? d) && (d <=? 31)
          then Some (days_from_civil y m d * nanos_per_day)
          else None
      | _ => None
      end
  | Timestamp ns => Some ns
  | _ => None
  end.

Definition to_datetime (s : list cell) (i : nat) : option Z :=
  c ← s !! i; parse c.
End IsoDate.

(** Construction of a frame from its column names and its lines. *)
Definition frame_of (cols : list string) (lines : list (list cell)) : DataFrame :=
  {| columns := cols;
     rows := fmap (λ l, list_to_map (zip cols l)) lines |}.

(** ** Frames and filters of the examples *)

(** The range of the examples runs from the 15th to the 16th of January
    2024, days 19737 and 19738 of the epoch. *)
Definition todos : filtros :=
  {| tipo_legalizacion := ["PPL"; "Convenios"];
     sel_usuarios := ["Todos"];
     start_date := 19737;
     end_date := 19738 |}.

Definition solo_ana : filtros :=
  {| tipo_legalizacion := ["PPL"; "Convenios"];
     sel_usuarios := ["Ana"];
     start_date := 19737;
     end_date := 19738 |}.

Definition solo_ppl : filtros :=
  {| tipo_legalizacion := ["PPL"];
     sel_usuarios := ["Todos"];
     start_date := 19737;
     end_date := 19738 |}.

Definition rango_invertido : filtros :=
  {| tipo_legalizacion := ["PPL"; "Convenios"];
     sel_usuarios := ["Todos"];
     start_date := 19738;
     end_date := 19737 |}.

Definition rips_ejemplo : DataFrame :=
  frame_of ["Usuario"; "FECHA"]
    [[Str "Ana"; Str "2024-01-15"];
     [Str "Ana"; Str "2024-01-16"];
     [Str "Beto"; Str "2024-01-16"];
     [Str "Beto"; Str "2024-01-17"];
     [Str "Beto"; Str "sin fecha"]].

Definition beto_y_ana : DataFrame :=
  frame_of ["Usuario"] [[Str "Beto"]; [Str "Ana"]].

Definition ana_y_anonimo : DataFrame :=
  frame_of ["Usuario"] [[Str "Ana"]; [NaN]].

Definition ana_una_beto_dos : DataFrame :=
  frame_of ["Usuario"] [[Str "Ana"]; [Str "Beto"]; [Str "Beto"]].

(** 160 records, 23 of them Ana's. *)
Definition ana_23_de_160 : DataFrame :=
  frame_of ["Usuario"] (replicate 23 [Str "Ana"] ++ replicate 137 [Str "Beto"]).

Definition sin_usuario : DataFrame :=
  frame_of ["Nombre"; "FECHA"] [[Str "Ana"; Str "2024-01-15"]].

Definition ppl_ejemplo : DataFrame :=
  frame_of ["USUARIO"; "FECHA"]
    [[Str "Ana"; Str "2024-01-15"]; [Str "Beto"; Str "2024-01-16"]].

Definition convenios_ejemplo : DataFrame :=
  frame_of ["USUARIO"; "Convenio"]
    [[Str "Carla"; Str "C-1"]].

(** The two of them united as the first tab unites them. *)
Definition legalizaciones_ejemplo : DataFrame :=
  concat_frames [assign_scalar ppl_ejemplo "Tipo_Leg" (Str "PPL");
                 assign_scalar convenios_ejemplo "Tipo_Leg" (Str "Convenios")].

(** ** The operators offered in the side bar *)

(** Lines 71-76, one turn of the loop: the distinct operators of a
    stored frame, missing values left out; a frame that is not loaded or
    has no operator column gives none. *)
Definition facturadores_de (df_temp : option loc) : M (list cell) :=
  match df_temp with
  | None => mret []
  | Some l =>
      d ← deref l;
      let col_u := resolve_col_u d in
      if bool_decide (col_u ∈ columns d) then
        s ← getitem l col_u;
        mret (unique (filter (λ v, notna v = true) s))
      else mret []
  end.

Definition facturadores_total (st : session_state) : M (list cell) :=
  a ← facturadores_de (df_ppl st);
  b ← facturadores_de (df_convenios st);
  c ← facturadores_de (df_rips st);
  d ← facturadores_de (df_facturacion st);
  mret (a ++ b ++ c ++ d).

(** [sorted]: values of one kind come in ascending order; values of two
    kinds do not compare, which is a [TypeError], here [None]. *)
Definition py_sorted (l : list cell) : option (list cell) :=
  match l with
  | [] => Some []
  | x :: _ =>
      if forallb (λ y, cell_rank y =? cell_rank x) l
      then Some (stable_sort cell_ltb l)
      else None
  end.

(** Line 78: [['Todos'] + sorted(list(set(facturadores_total)))]. *)
Definition opciones_facturador (st : session_state) : M (option (list cell)) :=
  t ← facturadores_total st;
  mret ((λ l, Str "Todos" :: l) <$> py_sorted (unique t)).

(** The frames the session holds. *)
Definition almacenados (st : session_state) : list loc :=
  omap id [df_ppl st; df_convenios st; df_rips st; df_facturacion st].

(** The operators of a frame that has its operator column. *)
Definition operadores (d : DataFrame) : list cell :=
  if bool_decide (resolve_col_u d ∈ columns d)
  then filter (λ v, notna v = true) (column d (resolve_col_u d))
  else [].

(** ** Fetching the sheets and the cache on disk *)

Definition GSHEET_URL_BASE : string :=
  "https://docs.google.com/spreadsheets/d/1FzDU1Bz_Cp5Rr0-YjFWdMmOv8G-Re_Uh2IB8wWimfks/edit?gid=0#gid=0".

Definition PERSISTED_DATA_DIR : string := "persisted_data".

(** [os.path.join] of a directory and a file name. *)
Definition path_join (dir name : string) : string := dir +:+ "/" +:+ name.

(** Lines 18-23, in the order of the dictionary. *)
Definition FILES : list (string * string) :=
  [("PPL", path_join PERSISTED_DATA_DIR "df_ppl.parquet");
   ("Convenios", path_join PERSISTED_DATA_DIR "df_convenios.parquet");
   ("RIPS", path_join PERSISTED_DATA_DIR "df_rips.parquet");
   ("Facturacion", path_join PERSISTED_DATA_DIR "df_facturacion.parquet")].

(** [FILES[k]] *)
Definition FILES_getitem (k : string) : M string :=
  match list_find (λ kv, kv.1 = k) FILES with
  | Some (_, kv) => mret kv.2
  | None => raise (KeyError k)
  end.

(** [str.lower], on the letters of ASCII. *)
Definition lower_ascii (a : ascii) : ascii :=
  let n := nat_of_ascii a in
  if (65 <=? n)%nat && (n <=? 90)%nat then ascii_of_nat (n + 32) else a.

Fixpoint lower (s : string) : string :=
  match s with
  | EmptyString => EmptyString
  | String a s' => String (lower_ascii a) (lower s')
  end.

(** [getattr(st.session_state, name)] for the four frames of the
    session; [None] is the [AttributeError] of any other name. *)
Definition getattr (st : session_state) (name : string) : option (option loc) :=
  if String.eqb name "df_ppl" then Some (df_ppl st)
  else if String.eqb name "df_convenios" then Some (df_convenios st)
  else if String.eqb name "df_rips" then Some (df_rips st)
  else if String.eqb name "df_facturacion" then Some (df_facturacion st)
  else None.

Section cache.
(** [pd.read_csv] of a URL is the world outside: [None] is any exception
    it raises.  [DataFrame.astype(str)] is a parameter as well, and so is
    whether [to_parquet] completes: [false] is any exception of the
    write, which nothing catches.  A file of the cache holds the frame
    [to_parquet] was given, and [read_parquet] gives it back;
    [os.path.exists] is the presence of the file. *)
Variable read_csv : string → option DataFrame.
Variable astype_str : DataFrame → DataFrame.
Variable to_parquet : DataFrame → string → bool.

(** Lines 27-31 *)
Definition load_sheet (sheet_name : string) : M (option loc) :=
  match read_csv (GSHEET_URL_BASE +:+ sheet_name) with
  | Some d => l ← new d; mret (Some l)
  | None => mret None
  end.

(** Lines 34-36 *)
Definition save_local (fs : gmap string DataFrame) (df : option loc)
    (filepath : string) : M (gmap string DataFrame) :=
  match df with
  | Some l =>
      d ← deref l;
      if negb (empty d) then
        if to_parquet (astype_str d) filepath
        then mret (<[filepath := astype_str d]> fs)
        else raise WriteError
      else mret fs
  | None => mret fs
  end.

(** Lines 39-40 *)
Definition load_local (fs : gmap string DataFrame) (filepath : string) : M (option loc) :=
  match fs !! filepath with
  | Some d => l ← new d; mret (Some l)
  | None => mret None
  end.

(** Lines 44-49, the first run of a session. *)
Definition inicializar (fs : gmap string DataFrame) : M session_state :=
  p1 ← FILES_getitem "PPL"; a ← load_local fs p1;
  p2 ← FILES_getitem "Convenios"; b ← load_local fs p2;
  p3 ← FILES_getitem "RIPS"; c ← load_local fs p3;
  p4 ← FILES_getitem "Facturacion"; d ← load_local fs p4;
  mret (mkSession a b c d).

(** Lines 59-60: the loop over [FILES.items()]. *)
Fixpoint guardar (st : session_state) (items : list (string * string))
    (fs : gmap string DataFrame) : M (option (gmap string DataFrame)) :=
  match items with
  | [] => mret (Some fs)
  | (k, v) :: items' =>
      match getattr st ("df_" +:+ lower k) with
      | Some df => fs' ← save_local fs df v; guardar st items' fs'
      | None => mret None
      end
  end.

(** Lines 53-61, the button of the side bar: the four sheets are fetched
    and then saved. *)
Definition sincronizar (fs : gmap string DataFrame)
    : M (session_state * option (gmap string DataFrame)) :=
  a ← load_sheet "PPL";
  b ← load_sheet "Convenios";
  c ← load_sheet "RIPS";
  d ← load_sheet "Facturacion";
  let st := mkSession a b c d in
  fs' ← guardar st FILES fs;
  mret (st, fs').

(** The frame of the session after [load_sheet] of one source. *)
Definition cargada (h' : list DataFrame) (sheet : string) (df : option loc) : Prop :=
  match read_csv (GSHEET_URL_BASE +:+ sheet) with
  | Some d => ∃ l, df = Some l ∧ h' !! l = Some d
  | None => df = None
  end.

(** Whether [save_local] of the frame [df] names completes, and the
    cache it leaves when it does. *)
Definition escribible (h : list DataFrame) (df : option loc) (path : string) : bool :=
  match df ≫= (λ l, h !! l) with
  | Some d => empty d || to_parquet (astype_str d) path
  | None => true
  end.

Definition guardado (h : list DataFrame) (df : option loc) (path : string)
    (fs : gmap string DataFrame) : gmap string DataFrame :=
  match df ≫= (λ l, h !! l) with
  | Some d => if empty d then fs else <[path := astype_str d]> fs
  | None => fs
  end.

(** What a synchronisation that completes leaves of one source: the
    frame of the session and the file of the cache. *)
Definition sincronizada (h' : list DataFrame) (fs fs' : gmap string DataFrame)
    (sheet path : string) (df : option loc) : Prop :=
  match read_csv (GSHEET_URL_BASE +:+ sheet) with
  | None => df = None ∧ fs' !! path = fs !! path
  | Some d =>
      (∃ l, df = Some l ∧ h' !! l = Some d)
      ∧ if empty d then fs' !! path = fs !! path
        else to_parquet (astype_str d) path = true
             ∧ fs' !! path = Some (astype_str d)
  end.

(** The write that makes a synchronisation raise. *)
Definition escritura_fallida : Prop :=
  ∃ k v d, (k, v) ∈ FILES
           ∧ read_csv (GSHEET_URL_BASE +:+ k) = Some d
           ∧ empty d = false
           ∧ to_parquet (astype_str d) v = false.

(** What the first run of a session finds of one source. *)
Definition restaurada (h' : list DataFrame) (fs : gmap string DataFrame)
    (path : string) (df : option loc) : Prop :=
  match fs !! path with
  | None => df = None
  | Some d => ∃ l, df = Some l ∧ h' !! l = Some d
  end.

(** What the first run of a session finds of one source after a
    synchronisation over the cache [fs]. *)
Definition recuperada (h' : list DataFrame) (fs : gmap string DataFrame)
    (sheet path : string) (df : option loc) : Prop :=
  match read_csv (GSHEET_URL_BASE +:+ sheet) with
  | Some d =>
      if empty d then restaurada h' fs path df
      else ∃ l, df = Some l ∧ h' !! l = Some (astype_str d)
  | None => restaurada h' fs path df
  end.
End cache.

(** ** The synchronisations of the examples *)

(** A sheet that has its header and no record. *)
Definition sin_filas : DataFrame := frame_of ["USUARIO"] [].

(** The PPL sheet is fetched, the sheet of the agreements comes empty and
    the other two fail; the cache holds a RIPS file of an earlier day. *)
Definition read_csv_ejemplo (url : string) : option DataFrame :=
  if String.eqb url (GSHEET_URL_BASE +:+ "PPL") then Some ppl_ejemplo
  else if String.eqb url (GSHEET_URL_BASE +:+ "Convenios") then Some sin_filas
  else None.

Definition cache_ejemplo : gmap string DataFrame :=
  {[ path_join PERSISTED_DATA_DIR "df_rips.parquet" := rips_ejemplo ]}.

(** The PPL sheet comes without operator column. *)
Definition read_csv_sin_usuario (url : string) : option DataFrame :=
  if String.eqb url (GSHEET_URL_BASE +:+ "PPL") then Some sin_usuario else None.

(** * Properties *)

(** ** Running the heap monad *)

Lemma run_bind {A B} (m : M A) (k : A → M B) h :
  (m ≫= k) h =
  match m h with
  | (Ok a, h') => k a h'
  | (Raise e, h') => (Raise e, h')
  end.
Proof. reflexivity. Qed.

Lemma run_ret {A} (a : A) h : (mret a : M A) h = (Ok a, h).
Proof. reflexivity. Qed.

Lemma lookup_snoc {A} (h : list A) (x : A) : (h ++ [x]) !! length h = Some x.
Proof. by rewrite lookup_app_r, Nat.sub_diag by lia. Qed.

Lemma lookup_snoc_old {A} (h : list A) (x y : A) l :
  h !! l = Some y → (h ++ [x]) !! l = Some y.
Proof. intros Hl. by apply lookup_app_l_Some. Qed.

Section frame_ops.
Variables (h : list DataFrame) (l : loc) (d : DataFrame).
Hypothesis Hl : h !! l = Some d.

Lemma deref_run : deref l h = (Ok d, h).
Proof. unfold deref. by rewrite Hl. Qed.

Lemma getitem_run c :
  c ∈ columns d → getitem l c h = (Ok (column d c), h).
Proof.
  intros Hc. unfold getitem. rewrite run_bind, deref_run.
  by rewrite bool_decide_eq_true_2.
Qed.

Lemma getitem_raise c :
  c ∉ columns d → getitem l c h = (Raise (KeyError c), h).
Proof.
  intros Hc. unfold getitem. rewrite run_bind, deref_run.
  by rewrite bool_decide_eq_false_2.
Qed.

Lemma setitem_run c s :
  setitem l c s h = (Ok (), <[l := assign d c s]> h).
Proof. unfold setitem. by rewrite run_bind, deref_run. Qed.

Lemma setitem_scalar_run c v :
  setitem_scalar l c v h = (Ok (), <[l := assign_scalar d c v]> h).
Proof. unfold setitem_scalar. by rewrite run_bind, deref_run. Qed.

Lemma getitem_mask_run mask :
  getitem_mask l mask h = (Ok (length h), h ++ [take d mask]).
Proof. unfold getitem_mask. by rewrite run_bind, deref_run. Qed.

Lemma dropna_run c :
  dropna l c h = (Ok (length h), h ++ [dropna_subset d c]).
Proof. unfold dropna. by rewrite run_bind, deref_run. Qed.

Lemma copy_run : copy l h = (Ok (length h), h ++ [d]).
Proof. unfold copy. by rewrite run_bind, deref_run. Qed.

Lemma lookup_stored d' : <[l := d']> h !! l = Some d'.
Proof. apply list_lookup_insert_eq. by eapply lookup_lt_Some. Qed.
End frame_ops.

Lemma elem_of_add_column cols c : c ∈ add_column cols c.
Proof.
  unfold add_column. case_bool_decide; [done|]. apply elem_of_app. right. by left.
Qed.

Lemma add_column_old cols c c' : c' ∈ cols → c' ∈ add_column cols c.
Proof.
  intros Hc. unfold add_column. case_bool_decide; [done|]. apply elem_of_app. by left.
Qed.

Lemma add_column_id cols c : c ∈ cols → add_column cols c = cols.
Proof. intros Hc. unfold add_column. by rewrite bool_decide_eq_true_2. Qed.

Lemma lookup_snoc_lt {A} (h : list A) (x : A) k :
  (k < length h)%nat → (h ++ [x]) !! k = h !! k.
Proof. intros Hk. by apply lookup_app_l. Qed.

Section stages.
Variable to_datetime : list cell → nat → option Z.
Variable f : filtros.
Variables (h : list DataFrame) (l : loc) (d : DataFrame).
Hypothesis Hl : h !! l = Some d.

Lemma filtro_de_tipo_run es d0 :
  columns d0 = columns d →
  ∃ l' h', filtro_de_tipo f es d0 l h = (Ok l', h')
           ∧ h' !! l' = Some (tras_filtro_de_tipo f es d)
           ∧ (∀ k, (k < length h)%nat → h' !! k = h !! k)
           ∧ (length h ≤ length h')%nat
           ∧ (if es && bool_decide ("Tipo_Leg" ∈ columns d)
              then (length h ≤ l')%nat else l' = l).
Proof.
  intros Hc. unfold filtro_de_tipo, tras_filtro_de_tipo. rewrite Hc.
  destruct (es && bool_decide ("Tipo_Leg" ∈ columns d)) eqn:E.
  - apply andb_true_iff in E as [_ E%bool_decide_eq_true].
    rewrite run_bind, (getitem_run h l d Hl) by done.
    rewrite (getitem_mask_run h l d Hl).
    eexists _, _. split; [done|]. split; [apply lookup_snoc|].
    split; [intros; by apply lookup_snoc_lt|].
    rewrite length_app. simpl. split; lia.
  - eexists _, _. split; [done|]. repeat split; done.
Qed.

Lemma filtro_de_fecha_run col_f :
  (∀ c, col_f = Some c → c ∈ columns d) →
  ∃ l' h', filtro_de_fecha to_datetime f col_f l h = (Ok l', h')
           ∧ h' !! l' = Some (tras_filtro_de_fecha to_datetime f col_f d)
           ∧ h' !! l = Some (match col_f with
                             | Some c => fechas_convertidas to_datetime c d
                             | None => d
                             end)
           ∧ (∀ k, (k < length h)%nat → k ≠ l → h' !! k = h !! k)
           ∧ (length h ≤ length h')%nat
           ∧ match col_f with
             | Some _ => (length h ≤ l')%nat
             | None => l' = l
             end.
Proof.
  intros Hc. unfold filtro_de_fecha, tras_filtro_de_fecha.
  destruct col_f as [c|]; [|by eexists _, _].
  specialize (Hc c eq_refl).
  rewrite run_bind, (getitem_run h l d Hl) by done.
  rewrite run_bind, (setitem_run h l d Hl).
  fold (fechas_convertidas to_datetime c d).
  set (d1 := fechas_convertidas to_datetime c d).
  set (h1 := <[l := d1]> h).
  assert (H1 : h1 !! l = Some d1) by (by eapply lookup_stored).
  assert (Hlen : length h1 = length h) by apply length_insert.
  rewrite run_bind, (dropna_run h1 l d1 H1).
  set (d2 := dropna_subset d1 c). set (h2 := h1 ++ [d2]).
  assert (H2 : h2 !! length h1 = Some d2) by apply lookup_snoc.
  assert (Hc2 : c ∈ columns d2) by apply elem_of_add_column.
  rewrite run_bind, (getitem_run h2 _ d2 H2) by done.
  rewrite run_bind, (getitem_run h2 _ d2 H2) by done.
  rewrite (getitem_mask_run h2 _ d2 H2).
  eexists _, _. split; [done|]. split; [apply lookup_snoc|]. split.
  { by do 2 apply lookup_snoc_old. }
  unfold h2. rewrite !length_app, Hlen. simpl. split; [|lia].
  intros k Hk Hne. rewrite !lookup_snoc_lt by (rewrite ?length_app; lia).
  unfold h1. by rewrite list_lookup_insert_ne.
Qed.

Lemma filtro_de_usuario_run col_u :
  col_u ∈ columns d ∨ es_filtro_activo f = false →
  ∃ l' h', filtro_de_usuario f col_u l h = (Ok l', h')
           ∧ h' !! l' = Some (tras_filtro_de_usuario f col_u d)
           ∧ (∀ k, (k < length h)%nat → h' !! k = h !! k)
           ∧ (length h ≤ length h')%nat
           ∧ (l' = l ∨ (length h ≤ l')%nat).
Proof.
  intros Hc. unfold filtro_de_usuario, tras_filtro_de_usuario.
  destruct (es_filtro_activo f).
  - destruct Hc as [Hc|?]; [|done].
    rewrite run_bind, (getitem_run h l d Hl) by done.
    rewrite (getitem_mask_run h l d Hl).
    eexists _, _. split; [done|]. split; [apply lookup_snoc|].
    split; [intros; by apply lookup_snoc_lt|].
    rewrite length_app. simpl. split; lia.
  - eexists _, _. split; [done|]. repeat split; auto.
Qed.

Lemma filtro_de_usuario_raise col_u :
  col_u ∉ columns d → es_filtro_activo f = true →
  filtro_de_usuario f col_u l h = (Raise (KeyError col_u), h).
Proof.
  intros Hc Ha. unfold filtro_de_usuario. rewrite Ha.
  by rewrite run_bind, (getitem_raise h l d Hl).
Qed.

Lemma filtro_de_usuario_inactive col_u :
  es_filtro_activo f = false →
  filtro_de_usuario f col_u l h = (Ok l, h).
Proof. intros Ha. unfold filtro_de_usuario. by rewrite Ha. Qed.
End stages.

Lemma columns_take d mask : columns (take d mask) = columns d.
Proof. reflexivity. Qed.

Lemma resolve_col_f_elem d c : resolve_col_f d = Some c → c ∈ columns d.
Proof.
  unfold resolve_col_f. intros Hc.
  destruct (list_find _ _) as [[i c']|] eqn:E; [|done].
  inversion Hc; subst. by apply list_find_Some in E as (_ & E & _).
Qed.

Section views.
Variable to_datetime : list cell → nat → option Z.
Variable f : filtros.

Lemma columns_tras_filtro_de_tipo es d :
  columns (tras_filtro_de_tipo f es d) = columns d.
Proof. unfold tras_filtro_de_tipo. by destruct (_ && _). Qed.

Lemma columns_tras_filtro_de_fecha col_f d :
  (∀ c, col_f = Some c → c ∈ columns d) →
  columns (tras_filtro_de_fecha to_datetime f col_f d) = columns d.
Proof.
  intros Hc. destruct col_f as [c|]; [|done]. simpl.
  apply add_column_id. by apply Hc.
Qed.

Lemma columns_tras_filtro_de_usuario col_u d :
  columns (tras_filtro_de_usuario f col_u d) = columns d.
Proof. unfold tras_filtro_de_usuario. by destruct (es_filtro_activo f). Qed.

Lemma modo_general_run h l d col_u :
  h !! l = Some d → col_u ∈ columns d →
  modo_general col_u l h
  = (Ok (General (with_pct (value_counts (column d col_u)))), h).
Proof.
  intros Hl Hc. unfold modo_general.
  by rewrite run_bind, (getitem_run h l d Hl).
Qed.

Lemma modo_general_raise h l d col_u :
  h !! l = Some d → col_u ∉ columns d →
  modo_general col_u l h = (Raise (KeyError col_u), h).
Proof.
  intros Hl Hc. unfold modo_general.
  by rewrite run_bind, (getitem_raise h l d Hl).
Qed.

Lemma modo_comparativo_run h l d col_u col_f :
  h !! l = Some d → col_u ∈ columns d →
  (∀ c, col_f = Some c → c ∈ columns d) →
  es_filtro_activo f = true →
  modo_comparativo col_u col_f l h
  = (Ok (vista_de f col_u col_f d),
     match col_f with
     | Some c => <[l := con_dia_evolucion c d]> h
     | None => h
     end).
Proof.
  intros Hl Hu Hc Ha. unfold modo_comparativo, vista_de. rewrite Ha. simpl.
  destruct col_f as [c|].
  - specialize (Hc c eq_refl).
    rewrite !run_bind, (getitem_run h l d Hl) by done.
    rewrite run_bind, (setitem_run h l d Hl).
    fold (con_dia_evolucion c d). set (d' := con_dia_evolucion c d).
    assert (H' : <[l := d']> h !! l = Some d') by (by eapply lookup_stored).
    unfold groupby_size. rewrite !run_bind, (deref_run _ l d' H').
    assert (Hu' : col_u ∈ columns d') by (by apply add_column_old).
    assert (Hd' : "Dia_Evolucion" ∈ columns d') by apply elem_of_add_column.
    destruct (list_find _ _) as [[i c']|] eqn:E.
    { apply list_find_Some in E as (Hi & Hn & _).
      apply list_elem_of_lookup_2 in Hi.
      apply elem_of_cons in Hi as [->| ->%list_elem_of_singleton]; done. }
    cbv [mret M_ret]. cbv beta iota.
    by rewrite run_bind, (getitem_run _ l d' H').
  - rewrite run_bind. cbv [mret M_ret]. cbv beta iota.
    by rewrite run_bind, (getitem_run h l d Hl).
Qed.

Lemma procesar_y_graficar_run es h l d :
  h !! l = Some d → empty d = false →
  ∃ h', procesar_y_graficar to_datetime f (Some l) es h
        = (resultado to_datetime f es d, h')
        ∧ h' !! l = Some (almacenado to_datetime es d)
        ∧ (∀ k, (k < length h)%nat → k ≠ l → h' !! k = h !! k).
Proof.
  intros Hl He. unfold procesar_y_graficar, resultado, filtrado.
  rewrite run_bind, (deref_run h l d Hl), He.
  assert (Hlt : (l < length h)%nat) by (by eapply lookup_lt_Some).
  rewrite run_bind.
  destruct (filtro_de_tipo_run f h l d Hl es d eq_refl)
    as (l1 & h1 & -> & Hl1 & Hk1 & Hn1 & Hf1).
  set (t1 := tras_filtro_de_tipo f es d) in *.
  assert (Hcf : ∀ c, resolve_col_f d = Some c → c ∈ columns t1).
  { intros c Hc. unfold t1. rewrite columns_tras_filtro_de_tipo.
    by apply resolve_col_f_elem. }
  rewrite run_bind.
  destruct (filtro_de_fecha_run to_datetime f h1 l1 t1 Hl1 _ Hcf)
    as (l2 & h2 & -> & Hl2 & Hs2 & Hk2 & Hn2 & Hf2).
  set (t2 := tras_filtro_de_fecha to_datetime f (resolve_col_f d) t1) in *.
  assert (Hc2 : columns t2 = columns d).
  { unfold t2. rewrite columns_tras_filtro_de_fecha by done.
    apply columns_tras_filtro_de_tipo. }
  assert (Hlt1 : (l1 < length h1)%nat) by (by eapply lookup_lt_Some).
  assert (Hlt2 : (l2 < length h2)%nat) by (by eapply lookup_lt_Some).
  (* the heap after the first two stages *)
  assert (Hst : h2 !! l = Some (almacenado to_datetime es d)
                ∧ (∀ k, (k < length h)%nat → k ≠ l → h2 !! k = h !! k)
                ∧ (resolve_col_f d ≠ None → (length h ≤ l2)%nat)).
  { unfold almacenado.
    destruct (es && bool_decide ("Tipo_Leg" ∈ columns d)) eqn:E.
    - split; [|split].
      + rewrite Hk2, Hk1 by lia. done.
      + intros k Hk Hne. rewrite Hk2, Hk1 by lia. done.
      + intros _. destruct (resolve_col_f d); lia.
    - subst l1. split; [|split].
      + unfold t1, tras_filtro_de_tipo in Hs2. by rewrite E in Hs2.
      + intros k Hk Hne. rewrite Hk2, Hk1 by lia. done.
      + intros Hne. destruct (resolve_col_f d); [lia|done]. }
  destruct Hst as (Hst & Hold & Hfresh).
  rewrite run_bind.
  destruct (decide (resolve_col_u d ∈ columns d)) as [Hu|Hu].
  2: destruct (es_filtro_activo f) eqn:Ea.
  2: { rewrite (filtro_de_usuario_raise f h2 l2 t2 Hl2) by (by rewrite ?Hc2).
       rewrite bool_decide_eq_true_2 by done. simpl. by eexists. }
  all: destruct (filtro_de_usuario_run f h2 l2 t2 Hl2 (resolve_col_u d))
         as (l3 & h3 & -> & Hl3 & Hk3 & Hn3 & Hf3); [rewrite ?Hc2; auto|].
  all: set (t3 := tras_filtro_de_usuario f (resolve_col_u d) t2) in *.
  all: assert (Hc3 : columns t3 = columns d)
         by (unfold t3; by rewrite columns_tras_filtro_de_usuario).
  all: assert (Hlt3 : (l3 < length h3)%nat) by (by eapply lookup_lt_Some).
  all: rewrite run_bind, (deref_run h3 l3 t3 Hl3).
  - (* the operator column is there *)
    rewrite (bool_decide_eq_false_2 (_ ∉ _)) by auto.
    rewrite andb_false_r, bool_decide_eq_true_2 by done.
    destruct (empty t3) eqn:Ee.
    { eexists. split; [done|]. split; [by rewrite Hk3 by lia|].
      intros k Hk Hne. rewrite Hk3 by lia. by apply Hold. }
    rewrite run_bind.
    destruct (es_filtro_activo f) eqn:Ea; simpl.
    + rewrite (modo_comparativo_run h3 l3 t3);
        [|done|by rewrite Hc3|
         intros c Hc; rewrite Hc3; by apply resolve_col_f_elem|done].
      eexists. split; [done|].
      destruct (resolve_col_f d) as [c|] eqn:Ef.
      * assert ((length h ≤ l3)%nat) by (specialize (Hfresh ltac:(done)); lia).
        split.
        -- rewrite list_lookup_insert_ne by lia. by rewrite Hk3 by lia.
        -- intros k Hk Hne. rewrite list_lookup_insert_ne by lia.
           rewrite Hk3 by lia. by apply Hold.
      * split; [by rewrite Hk3 by lia|].
        intros k Hk Hne. rewrite Hk3 by lia. by apply Hold.
    + rewrite (modo_general_run h3 l3 t3) by (by rewrite ?Hc3).
      unfold vista_de. rewrite Ea. simpl.
      eexists. split; [done|]. split; [by rewrite Hk3 by lia|].
      intros k Hk Hne. rewrite Hk3 by lia. by apply Hold.
  - (* no operator column, and no operator selected *)
    simpl. rewrite bool_decide_eq_false_2 by done.
    destruct (empty t3) eqn:Ee.
    { eexists. split; [done|]. split; [by rewrite Hk3 by lia|].
      intros k Hk Hne. rewrite Hk3 by lia. by apply Hold. }
    rewrite run_bind. simpl.
    rewrite (modo_general_raise h3 l3 t3) by (by rewrite ?Hc3).
    eexists. split; [done|]. split; [by rewrite Hk3 by lia|].
    intros k Hk Hne. rewrite Hk3 by lia. by apply Hold.
Qed.
End views.

(** ** Masks *)

Lemma boolean_index_fmap {A} (p : A → bool) (l : list A) :
  boolean_index (p <$> l) l = filter (λ x, p x = true) l.
Proof.
  induction l as [|x l IH]; [done|]. csimpl. destruct (p x) eqn:E; rewrite IH.
  - by rewrite filter_cons_True.
  - rewrite filter_cons_False; [done|]. by rewrite E.
Qed.

Lemma mask_and_fmap {A} (p q : A → bool) (l : list A) :
  mask_and (p <$> l) (q <$> l) = (λ x, p x && q x) <$> l.
Proof. unfold mask_and. induction l; csimpl; by f_equal. Qed.

(** ** Distinct values and counts *)

Section grouping_facts.
Context {A : Type} `{EqDecision A}.
Implicit Types (x y : A) (l : list A).

Lemma elem_of_unique l x : x ∈ unique l ↔ x ∈ l.
Proof.
  induction l as [|y l IH]; [done|]. simpl.
  rewrite !elem_of_cons, list_elem_of_filter, IH.
  destruct (decide (x = y)); naive_solver.
Qed.

Lemma NoDup_unique l : NoDup (unique l).
Proof.
  induction l as [|y l IH]; simpl; [constructor|].
  constructor.
  - rewrite list_elem_of_filter. naive_solver.
  - by apply NoDup_filter.
Qed.

Lemma count_cons x y l :
  count x (y :: l) = (if decide (y = x) then S (count x l) else count x l).
Proof. unfold count. rewrite filter_cons. by destruct (decide (y = x)). Qed.

Lemma count_app x l1 l2 : count x (l1 ++ l2) = (count x l1 + count x l2)%nat.
Proof. unfold count. by rewrite filter_app, length_app. Qed.

Lemma count_pos x l : x ∈ l ↔ (0 < count x l)%nat.
Proof.
  unfold count. split.
  - intros Hx. assert (x ∈ filter (λ y, y = x) l) as Hf
      by (by apply list_elem_of_filter).
    destruct (filter _ l); [by apply not_elem_of_nil in Hf|simpl; lia].
  - intros Hc. destruct (filter (λ y, y = x) l) as [|z k] eqn:E; [simpl in Hc; lia|].
    assert (z ∈ filter (λ y, y = x) l) as Hz by (rewrite E; by left).
    apply list_elem_of_filter in Hz as [-> ?]. done.
Qed.

Lemma count_filter (P : A → Prop) `{∀ x, Decision (P x)} x l :
  count x (filter P l) = (if decide (P x) then count x l else 0)%nat.
Proof.
  unfold count. rewrite list_filter_filter.
  destruct (decide (P x)) as [Hp|Hp].
  - f_equal. apply list_filter_iff. naive_solver.
  - rewrite (list_filter_iff _ (λ _, False)) by naive_solver.
    induction l as [|y l IH]; [done|]. by rewrite filter_cons_False by tauto.
Qed.

Lemma sum_list_with_split (g : A → nat) (P : A → Prop) `{∀ x, Decision (P x)} l :
  sum_list_with g l
  = (sum_list_with g (filter P l) + sum_list_with g (filter (λ x, ¬ P x) l))%nat.
Proof.
  induction l as [|y l IH]; [done|].
  rewrite !filter_cons. destruct (decide (P y)) as [Hp|Hp].
  - rewrite decide_False by tauto. simpl. lia.
  - rewrite decide_True by done. simpl. lia.
Qed.

Lemma NoDup_filter_eq y l :
  NoDup l → filter (λ x, x = y) l = if decide (y ∈ l) then [y] else [].
Proof.
  induction 1 as [|z l Hz Hl IH]; [done|].
  rewrite filter_cons, IH. destruct (decide (z = y)) as [->|Hne].
  - rewrite decide_False by done. rewrite decide_True by left. done.
  - destruct (decide (y ∈ l)).
    + rewrite decide_True by (by right). done.
    + rewrite decide_False; [done|]. rewrite elem_of_cons. naive_solver.
Qed.

Lemma sum_list_with_ext (g1 g2 : A → nat) l :
  (∀ x, x ∈ l → g1 x = g2 x) → sum_list_with g1 l = sum_list_with g2 l.
Proof.
  induction l as [|y l IH]; [done|]. intros Hg. simpl.
  rewrite Hg by left. rewrite IH; [done|]. intros x Hx. apply Hg. by right.
Qed.

(** The counts of the distinct values add up to the length. *)
Lemma sum_count_unique l :
  sum_list_with (λ x, count x l) (unique l) = length l.
Proof.
  induction l as [|y l IH]; [done|]. simpl.
  rewrite count_cons, decide_True by done.
  rewrite (sum_list_with_ext _ (λ x, count x l)).
  2: { intros x [Hx _]%list_elem_of_filter. rewrite count_cons.
       by rewrite decide_False by done. }
  rewrite <- IH.
  rewrite (sum_list_with_split (λ x, count x l) (λ x, x = y) (unique l)).
  rewrite NoDup_filter_eq by apply NoDup_unique.
  destruct (decide (y ∈ unique l)) as [Hy|Hy]; simpl; [lia|].
  rewrite elem_of_unique, count_pos in Hy. lia.
Qed.

(** ** The stable sort *)

Variable before : A → A → bool.

Lemma insert_sorted_Permutation x l : insert_sorted before x l ≡ₚ x :: l.
Proof.
  induction l as [|y l IH]; [done|]. simpl.
  destruct (before y x); [|done]. rewrite IH. apply Permutation_swap.
Qed.

Lemma stable_sort_Permutation l : stable_sort before l ≡ₚ l.
Proof.
  induction l as [|y l IH]; [done|]. simpl.
  rewrite insert_sorted_Permutation. by rewrite IH.
Qed.

Lemma insert_sorted_StronglySorted (R : relation A) x l :
  Transitive R →
  (∀ a b, before a b = true → R a b) →
  (∀ a b, before a b = false → R b a) →
  StronglySorted R l → StronglySorted R (insert_sorted before x l).
Proof.
  intros Htr Ht Hf. induction 1 as [|y l Hs IH Hall]; simpl.
  - repeat constructor.
  - destruct (before y x) eqn:E.
    + constructor; [done|].
      rewrite Forall_forall. intros z Hz.
      rewrite insert_sorted_Permutation in Hz.
      apply elem_of_cons in Hz as [->|Hz]; [by apply Ht|].
      rewrite Forall_forall in Hall. by apply Hall.
    + constructor; [by constructor|].
      constructor; [by apply Hf|].
      eapply Forall_impl; [done|]. intros z Hz. etrans; [by apply Hf|done].
Qed.

Lemma stable_sort_StronglySorted (R : relation A) l :
  Transitive R →
  (∀ a b, before a b = true → R a b) →
  (∀ a b, before a b = false → R b a) →
  StronglySorted R (stable_sort before l).
Proof.
  intros. induction l; simpl; [constructor|].
  by apply insert_sorted_StronglySorted.
Qed.
End grouping_facts.

(** ** [value_counts] *)

Lemma por_conteo_desc_trans : Transitive por_conteo_desc.
Proof. unfold por_conteo_desc. intros a b c ??. lia. Qed.

Lemma value_counts_Permutation s :
  value_counts s
  ≡ₚ (λ u, (u, count u (filter (λ c, notna c = true) s)))
     <$> unique (filter (λ c, notna c = true) s).
Proof. apply stable_sort_Permutation. Qed.

Lemma elem_of_value_counts s u n :
  (u, n) ∈ value_counts s
  ↔ u ∈ s ∧ notna u = true ∧ n = count u (filter (λ c, notna c = true) s).
Proof.
  rewrite value_counts_Permutation, list_elem_of_fmap.
  setoid_rewrite elem_of_unique. setoid_rewrite list_elem_of_filter.
  naive_solver.
Qed.

Lemma value_counts_sorted s : StronglySorted por_conteo_desc (value_counts s).
Proof.
  apply stable_sort_StronglySorted; [apply por_conteo_desc_trans|..];
    unfold count_desc, por_conteo_desc; intros a b.
  - intros ?%Nat.ltb_lt. lia.
  - intros ?%Nat.ltb_ge. lia.
Qed.

Lemma conteo_sum_value_counts s :
  conteo_sum (value_counts s) = length (filter (λ c, notna c = true) s).
Proof.
  unfold conteo_sum.
  rewrite (value_counts_Permutation s).
  rewrite <- sum_count_unique.
  generalize (unique (filter (λ c, notna c = true) s)).
  intros l. induction l; simpl; auto.
Qed.

(** ** The date filter *)

Lemma get_insert (r : gmap string cell) c v : get (<[c := v]> r) c = v.
Proof. unfold get. by rewrite lookup_insert_eq. Qed.

Lemma get_insert_ne (r : gmap string cell) c c' v :
  c ≠ c' → get (<[c := v]> r) c' = get r c'.
Proof. intros Hne. unfold get. by rewrite lookup_insert_ne. Qed.

Section date_filter.
Variable to_datetime : list cell → nat → option Z.
Variable f : filtros.

Lemma en_rango_fmap c d :
  en_rango f c d = (λ r, in_range_cell f (get r c)) <$> rows d.
Proof.
  unfold en_rango, series_ge, series_le, dt_date, column.
  rewrite <- !list_fmap_compose, mask_and_fmap.
  apply list_fmap_ext. intros _ r _. simpl. unfold date_of. by destruct (get r c).
Qed.

Lemma date_filter_rows c (g : nat → option Z) (rs : list (gmap string cell)) (cs : list cell) :
  length cs = length rs →
  filter (λ r, in_range_cell f (get r c) = true)
    (filter (λ r, notna (get r c) = true)
       (zip_with (λ r v, <[c := v]> r) rs
          (imap (λ i _, from_option Timestamp NaT (g i)) cs)))
  = omap id
      (imap (λ i r,
               t ← g i;
               if bool_decide (start_date f ≤ t / nanos_per_day ≤ end_date f)
               then Some (<[c := Timestamp t]> r)
               else None) rs).
Proof.
  revert g cs. induction rs as [|r rs IH]; intros g [|v cs] Hlen; try done.
  rewrite !imap_cons. csimpl.
  specialize (IH (g ∘ S) cs ltac:(simpl in Hlen; lia)).
  destruct (g 0%nat) as [t|] eqn:E; simpl.
  - rewrite filter_cons_True by (by rewrite get_insert).
    rewrite filter_cons, get_insert. simpl.
    case_bool_decide as Hr.
    + rewrite decide_True; [simpl; f_equal; apply IH|].
      apply andb_true_iff. split; apply Z.leb_le; lia.
    + rewrite decide_False; [apply IH|].
      rewrite andb_true_iff, !Z.leb_le. lia.
  - rewrite filter_cons_False by (by rewrite get_insert). apply IH.
Qed.

Lemma rows_tras_filtro_de_fecha c d :
  rows (tras_filtro_de_fecha to_datetime f (Some c) d)
  = date_filter_spec to_datetime f c d.
Proof.
  unfold tras_filtro_de_fecha, date_filter_spec. simpl.
  rewrite en_rango_fmap, boolean_index_fmap. simpl.
  unfold pd_to_datetime. apply date_filter_rows.
  unfold column. by rewrite length_fmap.
Qed.

Lemma elem_of_date_filter_spec c d r' :
  r' ∈ date_filter_spec to_datetime f c d
  ↔ ∃ i r t, rows d !! i = Some r
             ∧ to_datetime (column d c) i = Some t
             ∧ start_date f ≤ t / nanos_per_day ≤ end_date f
             ∧ r' = <[c := Timestamp t]> r.
Proof.
  unfold date_filter_spec. rewrite list_elem_of_omap. split.
  - intros (o & Ho & Hid). simpl in Hid. subst o.
    apply elem_of_lookup_imap in Ho as (i & r & Ho & Hr).
    destruct (to_datetime (column d c) i) as [t|] eqn:E; [|done].
    simpl in Ho. case_bool_decide; [|done]. simplify_eq.
    by exists i, r, t.
  - intros (i & r & t & Hr & Ht & Hrange & ->).
    exists (Some (<[c := Timestamp t]> r)). split; [|done].
    apply elem_of_lookup_imap. exists i, r. split; [|done].
    rewrite Ht. simpl. by rewrite bool_decide_eq_true_2.
Qed.
End date_filter.

(** ** Totals of the two tables of the comparison *)

Section totals.
Context {A : Type} `{EqDecision A}.

Lemma filter_unique (Q : A → Prop) `{∀ x, Decision (Q x)} (l : list A) :
  filter Q (unique l) = unique (filter Q l).
Proof.
  induction l as [|y l IH]; [done|]. simpl.
  rewrite !filter_cons. destruct (decide (Q y)) as [Hy|Hy]; simpl.
  - f_equal. rewrite <- IH, !list_filter_filter.
    apply list_filter_iff. naive_solver.
  - rewrite <- IH, !list_filter_filter.
    apply list_filter_iff. naive_solver.
Qed.

(** Over the distinct values that satisfy [Q], the counts add up to
    the number of values that satisfy [Q]. *)
Lemma sum_count_unique_filter (Q : A → Prop) `{∀ x, Decision (Q x)} (l : list A) :
  sum_list_with (λ x, count x l) (filter Q (unique l)) = length (filter Q l).
Proof.
  rewrite filter_unique, <- sum_count_unique.
  apply sum_list_with_ext. intros x Hx.
  apply elem_of_unique, list_elem_of_filter in Hx as [Hq _].
  rewrite count_filter. by rewrite decide_True.
Qed.

Lemma sum_list_with_fmap_snd {B} (g : B → nat) (l : list B) (k : B → A) :
  sum_list_with snd ((λ x, (k x, g x)) <$> l) = sum_list_with g l.
Proof. induction l; csimpl; auto. Qed.

Lemma filter_fmap_pair {B} (P : A * B → Prop) `{∀ e, Decision (P e)}
    (Q : A → Prop) `{∀ x, Decision (Q x)} (g : A → B) (l : list A) :
  (∀ x, P (x, g x) ↔ Q x) →
  filter P ((λ x, (x, g x)) <$> l) = (λ x, (x, g x)) <$> filter Q l.
Proof.
  intros HPQ. induction l as [|y l IH]; [done|]. csimpl.
  rewrite !filter_cons. destruct (decide (Q y)) as [Hq|Hq].
  - rewrite decide_True by (by apply HPQ). csimpl. by rewrite IH.
  - rewrite decide_False by (by rewrite HPQ). done.
Qed.
End totals.

Lemma total_realizado_value_counts s u :
  total_realizado (value_counts s) u = count u (filter (λ c, notna c = true) s).
Proof.
  unfold total_realizado. rewrite value_counts_Permutation.
  set (vals := filter _ s).
  trans (sum_list_with snd
           ((λ x, (x, count x vals)) <$> filter (λ x, x = u) (unique vals))).
  { f_equal. by apply filter_fmap_pair. }
  rewrite (sum_list_with_fmap_snd (λ x, count x vals) _ id).
  apply (sum_count_unique_filter (λ x, x = u)).
Qed.

Lemma cuenta_en_evol_size_by d by_ u :
  cuenta_en_evol (size_by d by_) u
  = length (filter (λ k, k !! 1%nat = Some u) (group_keys d by_)).
Proof.
  unfold cuenta_en_evol, size_by. set (ks := group_keys d by_).
  trans (sum_list_with snd
           ((λ k, (k, count k ks))
            <$> filter (λ k, k !! 1%nat = Some u) (stable_sort key_ltb (unique ks)))).
  { f_equal. by apply filter_fmap_pair. }
  rewrite (sum_list_with_fmap_snd (λ k, count k ks) _ id).
  rewrite (stable_sort_Permutation key_ltb (unique ks)).
  apply sum_count_unique_filter.
Qed.

Lemma elem_of_boolean_index {A} (mask : list bool) (l : list A) x :
  x ∈ boolean_index mask l → x ∈ l.
Proof.
  revert mask. induction l as [|y l IH]; intros [|b mask]; simpl; try done.
  - by intros ?%not_elem_of_nil.
  - destruct b; rewrite ?elem_of_cons; naive_solver.
Qed.

Lemma zip_with_fmap_same {A B C} (g : A → B → C) (k : A → B) (l : list A) :
  zip_with g l (k <$> l) = (λ x, g x (k x)) <$> l.
Proof. induction l; csimpl; by f_equal. Qed.

Lemma rows_con_dia_evolucion c d :
  rows (con_dia_evolucion c d)
  = (λ r, <["Dia_Evolucion" := date_of (get r c)]> r) <$> rows d.
Proof.
  unfold con_dia_evolucion, dt_date, column. simpl.
  by rewrite <- list_fmap_compose, zip_with_fmap_same.
Qed.

Lemma keys_against_values c col_u (rs : list (gmap string cell)) u :
  Forall (λ r, ∃ t, get r c = Timestamp t) rs →
  length (filter (λ k : list cell, k !! 1%nat = Some u)
            (filter (λ k, Forall (λ v, notna v = true) k)
               ((λ r, [date_of (get r c); get r col_u]) <$> rs)))
  = count u (filter (λ v, notna v = true) ((λ r, get r col_u) <$> rs)).
Proof.
  induction 1 as [|r rs [t Ht] _ IH]; [done|]. csimpl. rewrite Ht. simpl.
  rewrite !(filter_cons _ _ ((λ r, _) <$> rs)).
  destruct (notna (get r col_u)) eqn:E.
  - rewrite decide_True by (repeat constructor; done).
    rewrite decide_True by done.
    rewrite filter_cons, count_cons. simpl.
    destruct (decide (get r col_u = u)) as [Hu|Hu].
    + rewrite decide_True by (by rewrite Hu). simpl. by rewrite IH.
    + rewrite decide_False by congruence. done.
  - rewrite decide_False.
    2: { intros Hk. inversion Hk as [|?? _ Hk']. inversion Hk'. congruence. }
    rewrite decide_False by congruence. done.
Qed.

(** In the comparison, the summary and the time series agree on the
    total of every operator. *)
Lemma comparativo_totals c col_u d u :
  col_u ≠ "Dia_Evolucion" →
  (∀ r, r ∈ rows d → ∃ t, get r c = Timestamp t) →
  cuenta_en_evol (size_by (con_dia_evolucion c d) ["Dia_Evolucion"; col_u]) u
  = total_realizado (value_counts (column (con_dia_evolucion c d) col_u)) u.
Proof.
  intros Hne Hts.
  rewrite cuenta_en_evol_size_by, total_realizado_value_counts.
  unfold group_keys, column. rewrite rows_con_dia_evolucion.
  rewrite <- !list_fmap_compose.
  rewrite (list_fmap_ext _ (λ r, [date_of (get r c); get r col_u]) (rows d)).
  2: { intros _ r _. csimpl. by rewrite get_insert, get_insert_ne. }
  rewrite (list_fmap_ext (_ ∘ _) (λ r, get r col_u) (rows d)).
  2: { intros _ r _. simpl. by rewrite get_insert_ne. }
  apply keys_against_values. by apply Forall_forall.
Qed.

(** ** Rounding *)

Local Open Scope Q_scope.

Lemma round_half_even_error (q : Q) :
  Qabs (inject_Z (round_half_even q) - q) <= 1 # 2.
Proof.
  pose proof (Qfloor_le q) as Hlo. pose proof (Qlt_floor q) as Hhi.
  rewrite inject_Z_plus in Hhi. change (inject_Z 1) with 1 in Hhi.
  apply Qabs_Qle_condition. unfold round_half_even.
  destruct (Qcompare (q - inject_Z (Qfloor q)) (1 # 2)) eqn:E.
  - apply Qeq_alt in E. destruct (Z.even (Qfloor q));
      rewrite ?inject_Z_plus; change (inject_Z 1) with 1; split; lra.
  - apply Qlt_alt in E. split; lra.
  - apply Qgt_alt in E. rewrite inject_Z_plus. change (inject_Z 1) with 1.
    split; lra.
Qed.

Lemma Qsum_cons (q : Q) (qs : list Q) : Qsum (q :: qs) = q + Qsum qs.
Proof. reflexivity. Qed.

Lemma inject_Z_of_nat_S (n : nat) :
  inject_Z (Z.of_nat (S n)) == inject_Z (Z.of_nat n) + 1.
Proof. by rewrite Nat2Z.inj_succ, <- Z.add_1_r, inject_Z_plus. Qed.

Lemma Qsum_close {A} (f g : A → Q) (c : Q) (l : list A) :
  (∀ x, x ∈ l → Qabs (f x - g x) <= c) →
  Qabs (Qsum (f <$> l) - Qsum (g <$> l)) <= c * inject_Z (Z.of_nat (length l)).
Proof.
  induction l as [|x l IH]; intros Hall.
  - assert (H0 : Qsum (f <$> []) - Qsum (g <$> []) == 0) by reflexivity.
    rewrite H0. simpl. change (inject_Z 0) with 0. rewrite Qmult_0_r. done.
  - rewrite !fmap_cons, !Qsum_cons. cbn [length]. rewrite inject_Z_of_nat_S.
    pose proof (Hall x (list_elem_of_here _ _)) as Hx.
    assert (IH' := IH (λ y Hy, Hall y (list_elem_of_further _ _ _ Hy))).
    apply Qabs_Qle_condition in IH', Hx. apply Qabs_Qle_condition.
    set (n := inject_Z (Z.of_nat (length l))) in *.
    set (a := Qsum (f <$> l)) in *. set (b := Qsum (g <$> l)) in *.
    set (u := f x) in *. set (v := g x) in *.
    split; lra.
Qed.

(** *** The error of a double *)

Lemma ilog2_le (q : Q) : 0 < q → 2 ^ ilog2 q <= q.
Proof.
  intros Hq. unfold ilog2. destruct q as [n d]. cbn [Qnum Qden].
  assert (Hn : (0 < n)%Z).
  { unfold Qlt in Hq. simpl in Hq. lia. }
  set (a := Z.log2 n). set (b := Z.log2 (Z.pos d)).
  destruct (Qle_bool (2 ^ (a - b)) (n # d)) eqn:E; [by apply Qle_bool_iff|].
  destruct (Z.log2_spec n Hn) as [Ha _]. fold a in Ha.
  destruct (Z.log2_spec (Z.pos d)) as [_ Hb]; [done|]. fold b in Hb.
  assert (Ha0 : (0 <= a)%Z) by apply Z.log2_nonneg.
  assert (Hb0 : (0 <= b)%Z) by apply Z.log2_nonneg.
  replace (a - b - 1)%Z with (a + - (Z.succ b))%Z by lia.
  rewrite Qpower_plus by done. rewrite Qpower_opp.
  rewrite <- (Zpower_Qpower 2 a), <- (Zpower_Qpower 2 (Z.succ b)) by lia.
  assert (HA : (0 < 2 ^ a)%Z) by (apply Z.pow_pos_nonneg; lia).
  apply Qle_shift_div_r.
  { change 0 with (inject_Z 0). rewrite <- Zlt_Qlt. lia. }
  unfold Qle. simpl. rewrite Pos.mul_1_r. nia.
Qed.

Lemma binary64_error (q : Q) : Qabs (binary64 q - q) <= Qabs q * eps.
Proof.
  unfold binary64. destruct (Qeq_bool q 0) eqn:E.
  { apply Qeq_bool_iff in E. rewrite E. by vm_compute. }
  apply Qeq_bool_neq in E.
  assert (Hq : 0 < Qabs q).
  { destruct (Qle_lt_or_eq _ _ (Qabs_nonneg q)) as [H|H]; [done|].
    exfalso. apply E. symmetry in H.
    pose proof (Qle_Qabs q). pose proof (Qle_Qabs (- q)) as H'.
    rewrite Qabs_opp in H'. rewrite H in *. lra. }
  set (e := ilog2 (Qabs q)).
  pose proof (ilog2_le _ Hq) as He. fold e in He.
  set (u := 2 ^ (e - 52)).
  assert (Hu : 0 < u) by (by apply Qpower_0_lt).
  assert (Hue : u == 2 ^ e * (1 # 4503599627370496)).
  { unfold u. replace (e - 52)%Z with (e + -52)%Z by lia.
    by rewrite Qpower_plus. }
  pose proof (round_half_even_error (q / u)) as Hr.
  set (r := inject_Z (round_half_even (q / u))) in *.
  assert (Heq : r * u - q == (r - q / u) * u) by (field; lra).
  rewrite Heq, Qabs_Qmult, (Qabs_pos u) by lra.
  apply Qle_trans with ((1 # 2) * u).
  { apply Qmult_le_compat_r; [done|lra]. }
  rewrite Hue. unfold eps.
  assert (0 < 2 ^ e) by (by apply Qpower_0_lt).
  assert (Hh : (1 # 2) * (2 ^ e * (1 # 4503599627370496))
               == 2 ^ e * (1 # 9007199254740992)) by field.
  rewrite Hh. apply Qmult_le_compat_r; [done|done].
Qed.

Lemma binary64_bounds (q : Q) :
  0 <= q → q * (1 - eps) <= binary64 q ∧ binary64 q <= q * (1 + eps).
Proof.
  intros Hq. pose proof (binary64_error q) as H.
  rewrite (Qabs_pos q) in H by done.
  apply Qabs_Qle_condition in H. unfold eps in *. split; lra.
Qed.

Lemma round_half_even_nonneg (q : Q) : 0 <= q → (0 <= round_half_even q)%Z.
Proof.
  intros Hq. pose proof (Qfloor_resp_le _ _ Hq) as Hf.
  change (Qfloor 0) with 0%Z in Hf. unfold round_half_even.
  destruct (Qcompare _ _); [destruct (Z.even _)|..]; lia.
Qed.

Lemma Qmult_le_nonneg_l (x y z : Q) : 0 <= z → x <= y → z * x <= z * y.
Proof.
  intros Hz Hxy. rewrite (Qmult_comm z x), (Qmult_comm z y).
  by apply Qmult_le_compat_r.
Qed.

Lemma fdiv_bounds (N T a b lo hi : Q) :
  0 <= N → 0 < T → 0 < lo → lo <= hi →
  N * lo <= a → a <= N * hi → T * lo <= b → b <= T * hi →
  N / T * (lo / hi) <= a / b ∧ a / b <= N / T * (hi / lo).
Proof.
  intros HN HT Hlo Hlh Ha1 Ha2 Hb1 Hb2.
  assert (Hhi : 0 < hi) by lra.
  assert (Hb : 0 < b).
  { apply Qlt_le_trans with (T * lo); [|done]. by apply Qmult_lt_0_compat. }
  assert (Hx : 0 <= N / T).
  { apply Qle_shift_div_l; [done|]. lra. }
  split.
  - apply Qle_shift_div_l; [done|].
    apply Qle_trans with (N / T * (lo / hi) * (T * hi)).
    + apply Qmult_le_nonneg_l; [|done].
      apply Qmult_le_0_compat; [done|].
      apply Qle_shift_div_l; [done|]. lra.
    + assert (Heq : N / T * (lo / hi) * (T * hi) == N * lo) by (field; lra).
      by rewrite Heq.
  - apply Qle_shift_div_r; [done|].
    apply Qle_trans with (N / T * (hi / lo) * (T * lo)).
    + assert (Heq : N / T * (hi / lo) * (T * lo) == N * hi) by (field; lra).
      by rewrite Heq.
    + apply Qmult_le_nonneg_l; [|done].
      apply Qmult_le_0_compat; [done|].
      apply Qle_shift_div_l; [done|]. lra.
Qed.

(** The percentage numpy leaves is within half a hundredth of the exact
    one, up to the error of six operations on doubles. *)
Lemma porcentaje_error (n total : nat) :
  (n ≤ total)%nat → (1 ≤ total)%nat →
  Qabs (porcentaje n total - pct_exact (inject_Z (Z.of_nat total)) n)
  <= (1 # 200) + (1 # 1000000000000).
Proof.
  intros Hn Ht. unfold porcentaje, pct_exact, round2, fmul, fdiv, rint, of_int64.
  set (N := inject_Z (Z.of_nat n)). set (T := inject_Z (Z.of_nat total)).
  assert (HN : 0 <= N).
  { unfold N. change 0 with (inject_Z 0). rewrite <- Zle_Qle. lia. }
  assert (HT : 1 <= T).
  { unfold T. change 1 with (inject_Z 1). rewrite <- Zle_Qle. lia. }
  assert (HNT : N <= T).
  { unfold N, T. rewrite <- Zle_Qle. lia. }
  set (x := N / T).
  assert (Hx0 : 0 <= x) by (apply Qle_shift_div_l; lra).
  assert (Hx1 : x <= 1) by (apply Qle_shift_div_r; lra).
  destruct (binary64_bounds N HN) as [Ha1 Ha2].
  destruct (binary64_bounds T) as [Hb1 Hb2]; [lra|].
  set (a := binary64 N) in *. set (b := binary64 T) in *.
  destruct (fdiv_bounds N T a b (1 - eps) (1 + eps)) as [Hc1 Hc2];
    [done|lra|by vm_compute|by vm_compute|done..|].
  fold x in Hc1, Hc2.
  set (e := 1 # 9000000000000000).
  assert (Hlo : 1 - 3 * e <= (1 - eps) / (1 + eps)) by (by vm_compute).
  assert (Hhi : (1 + eps) / (1 - eps) <= 1 + 3 * e) by (by vm_compute).
  assert (Hc1' : x * (1 - 3 * e) <= a / b).
  { eapply Qle_trans; [|exact Hc1]. by apply Qmult_le_nonneg_l. }
  assert (Hc2' : a / b <= x * (1 + 3 * e)).
  { eapply Qle_trans; [exact Hc2|]. by apply Qmult_le_nonneg_l. }
  clear Hc1 Hc2 Hlo Hhi.
  set (c := a / b) in *.
  assert (Hc0 : 0 <= c) by (unfold e in *; lra).
  destruct (binary64_bounds c Hc0) as [Hq1 Hq2].
  set (q := binary64 c) in *.
  assert (Hq0 : 0 <= q * 100) by (unfold e, eps in *; lra).
  destruct (binary64_bounds (q * 100) Hq0) as [Hy1 Hy2].
  set (y := binary64 (q * 100)) in *.
  assert (Hy0 : 0 <= y * 100) by (unfold e, eps in *; lra).
  destruct (binary64_bounds (y * 100) Hy0) as [Hz1 Hz2].
  set (z := binary64 (y * 100)) in *.
  assert (Hz0 : 0 <= z) by (unfold e, eps in *; lra).
  pose proof (round_half_even_error z) as Hr.
  apply Qabs_Qle_condition in Hr.
  pose proof (round_half_even_nonneg z Hz0) as Hr0.
  rewrite Zle_Qle in Hr0. change (inject_Z 0) with 0 in Hr0.
  set (r := inject_Z (round_half_even z)) in *.
  assert (Hr100 : 0 <= r / 100) by (apply Qle_shift_div_l; lra).
  destruct (binary64_bounds (r / 100) Hr100) as [Hp1 Hp2].
  set (p := binary64 (r / 100)) in *.
  apply Qabs_Qle_condition.
  unfold e, eps in *. clear e. destruct Hr as [Hr1 Hr2].
  clearbody p r z y q c x. clear Ha1 Ha2 Hb1 Hb2 a b N T HN HT HNT Hn Ht.
  unfold Qdiv in *. change (/ 100) with (1 # 100) in *.
  split; lra.
Qed.

Lemma Qsum_pct_exact (total : Q) (ns : list nat) :
  ~ total == 0 →
  Qsum (pct_exact total <$> ns)
  == inject_Z (Z.of_nat (sum_list ns)) / total * 100.
Proof.
  intros Ht. induction ns as [|n ns IH].
  - unfold Qdiv. simpl. change (inject_Z 0) with 0. ring.
  - rewrite fmap_cons, Qsum_cons, IH. cbn [sum_list_with].
    rewrite Nat2Z.inj_add, inject_Z_plus. unfold pct_exact. simpl. field. done.
Qed.

Lemma with_pct_fmap counts :
  with_pct counts
  = (λ r, (r.1, r.2, porcentaje r.2 (conteo_sum counts))) <$> counts.
Proof. reflexivity. Qed.

Lemma elem_of_with_pct counts u n p :
  (u, n, p) ∈ with_pct counts
  ↔ (u, n) ∈ counts ∧ p = porcentaje n (conteo_sum counts).
Proof.
  rewrite with_pct_fmap, list_elem_of_fmap. split.
  - intros ([u' n'] & Heq & Hin). simpl in Heq. by simplify_eq.
  - intros [Hin ->]. by exists (u, n).
Qed.

Lemma length_with_pct counts : length (with_pct counts) = length counts.
Proof. rewrite with_pct_fmap. apply length_fmap. Qed.

Lemma conteo_le_sum (counts : list (cell * nat)) r :
  r ∈ counts → (r.2 ≤ conteo_sum counts)%nat.
Proof.
  unfold conteo_sum. induction counts as [|x counts IH]; intros Hin.
  - by apply not_elem_of_nil in Hin.
  - apply elem_of_cons in Hin as [->|Hin]; simpl; [lia|].
    specialize (IH Hin). lia.
Qed.

(** The percentages of a table add up to 100 within the error of each
    line. *)
Lemma with_pct_sum counts :
  (0 < conteo_sum counts)%nat →
  Qabs (Qsum (snd <$> with_pct counts) - 100)
  <= ((1 # 200) + (1 # 1000000000000)) * inject_Z (Z.of_nat (length counts)).
Proof.
  intros Hpos. set (total := inject_Z (Z.of_nat (conteo_sum counts))).
  assert (Ht : ~ total == 0).
  { unfold total, Qeq. simpl. lia. }
  assert (Hps : snd <$> with_pct counts
                = (λ r, porcentaje r.2 (conteo_sum counts)) <$> counts).
  { rewrite with_pct_fmap, <- !list_fmap_compose. done. }
  rewrite Hps.
  pose proof (Qsum_close (λ r : cell * nat, porcentaje r.2 (conteo_sum counts))
                (λ r, pct_exact total r.2) ((1 # 200) + (1 # 1000000000000)) counts)
    as He.
  assert (Hx : Qsum ((λ r : cell * nat, pct_exact total r.2) <$> counts) == 100).
  { assert (Hc : (λ r : cell * nat, pct_exact total r.2) <$> counts
                 = pct_exact total <$> (snd <$> counts)).
    { by rewrite <- list_fmap_compose. }
    rewrite Hc, Qsum_pct_exact by done.
    assert (sum_list (snd <$> counts) = conteo_sum counts) as ->.
    { unfold conteo_sum. clear. induction counts; csimpl; auto. }
    fold total. field. done. }
  rewrite Hx in He. apply He.
  intros r Hr. apply porcentaje_error; [by apply conteo_le_sum|lia].
Qed.

Local Close Scope Q_scope.

(** ** Merging the two kinds of legalisation *)

Lemma lookup_reindex cols (r : gmap string cell) c :
  reindex cols r !! c = if decide (c ∈ cols) then Some (get r c) else None.
Proof.
  unfold reindex. induction cols as [|x cols IH]; csimpl.
  - by rewrite lookup_empty.
  - destruct (decide (x = c)) as [->|Hne].
    + rewrite lookup_insert_eq. by rewrite decide_True by left.
    + rewrite lookup_insert_ne by done. rewrite IH.
      destruct (decide (c ∈ cols)).
      * by rewrite decide_True by (by right).
      * rewrite decide_False; [done|]. rewrite elem_of_cons. naive_solver.
Qed.

Lemma get_reindex cols (r : gmap string cell) c :
  c ∈ cols → get (reindex cols r) c = get r c.
Proof.
  intros Hc. unfold get at 1. rewrite lookup_reindex. by rewrite decide_True.
Qed.

Lemma filter_not_elem_of_nil (l : list string) :
  filter (λ c, c ∉ @nil string) l = l.
Proof.
  induction l as [|x l IH]; [done|].
  rewrite filter_cons_True by apply not_elem_of_nil. by rewrite IH.
Qed.

Lemma union_columns_two d1 d2 :
  union_columns [d1; d2]
  = columns d1 ++ filter (λ c, c ∉ columns d1) (columns d2).
Proof.
  unfold union_columns. simpl. by rewrite filter_not_elem_of_nil.
Qed.

Lemma elem_of_union_columns_two d1 d2 c :
  c ∈ union_columns [d1; d2] ↔ c ∈ columns d1 ∨ c ∈ columns d2.
Proof.
  rewrite union_columns_two, elem_of_app, list_elem_of_filter.
  destruct (decide (c ∈ columns d1)); naive_solver.
Qed.

Lemma rows_concat_two d1 d2 :
  rows (concat_frames [d1; d2])
  = (reindex (union_columns [d1; d2]) <$> rows d1)
    ++ (reindex (union_columns [d1; d2]) <$> rows d2).
Proof. unfold concat_frames. simpl. by rewrite app_nil_r. Qed.

Section merge.
Variables (h : list DataFrame) (p c : loc) (dp dc : DataFrame).
Hypothesis Hp : h !! p = Some dp.
Hypothesis Hc : h !! c = Some dc.

Lemma list_leg_run st :
  df_ppl st = Some p → df_convenios st = Some c →
  ∃ h', (list_leg st ≫= pd_concat) h
        = (Ok (length h + 2)%nat,
           h' ++ [concat_frames [assign_scalar dp "Tipo_Leg" (Str "PPL");
                                 assign_scalar dc "Tipo_Leg" (Str "Convenios")]])
        ∧ length h' = (length h + 2)%nat
        ∧ (∀ k, (k < length h)%nat → h' !! k = h !! k).
Proof.
  intros Hsp Hsc. unfold list_leg. rewrite Hsp, Hsc.
  set (d_p := assign_scalar dp "Tipo_Leg" (Str "PPL")).
  set (d_c := assign_scalar dc "Tipo_Leg" (Str "Convenios")).
  assert (Hpl : (p < length h)%nat) by (by eapply lookup_lt_Some).
  assert (Hcl : (c < length h)%nat) by (by eapply lookup_lt_Some).
  rewrite !run_bind, (copy_run h p dp Hp). cbv beta iota.
  set (h1 := h ++ [dp]).
  assert (H1 : h1 !! length h = Some dp) by apply lookup_snoc.
  rewrite !run_bind, (setitem_scalar_run h1 _ dp H1).
  change (assign_scalar dp "Tipo_Leg" (Str "PPL")) with d_p.
  cbv [mret M_ret]. cbv beta iota.
  set (h2 := <[length h := d_p]> h1).
  assert (Hlen2 : length h2 = S (length h)).
  { unfold h2, h1. rewrite length_insert, length_app. simpl. lia. }
  assert (H2c : h2 !! c = Some dc).
  { unfold h2, h1. rewrite list_lookup_insert_ne by lia.
    by apply lookup_snoc_old. }
  rewrite !run_bind, (copy_run h2 c dc H2c). cbv beta iota.
  set (h3 := h2 ++ [dc]).
  assert (H3 : h3 !! length h2 = Some dc) by apply lookup_snoc.
  rewrite !run_bind, (setitem_scalar_run h3 _ dc H3).
  change (assign_scalar dc "Tipo_Leg" (Str "Convenios")) with d_c.
  cbv [mret M_ret]. cbv beta iota. simpl app.
  set (h4 := <[length h2 := d_c]> h3).
  assert (Hlen4 : length h4 = (length h + 2)%nat).
  { unfold h4, h3. rewrite length_insert, length_app, Hlen2. simpl. lia. }
  assert (H4p : h4 !! length h = Some d_p).
  { unfold h4, h3. rewrite list_lookup_insert_ne by lia.
    apply lookup_snoc_old. unfold h2. apply list_lookup_insert_eq.
    unfold h1. rewrite length_app. simpl. lia. }
  assert (H4c : h4 !! length h2 = Some d_c).
  { unfold h4. apply list_lookup_insert_eq. unfold h3.
    rewrite length_app. simpl. lia. }
  unfold pd_concat, deref_all.
  rewrite !run_bind, (deref_run h4 _ d_p H4p). cbv beta iota.
  rewrite !run_bind, (deref_run h4 _ d_c H4c).
  cbv [mret M_ret]. cbv beta iota. rewrite run_bind. cbv beta iota.
  unfold new. rewrite Hlen4.
  exists h4. split; [done|]. split; [done|].
  intros k Hk. unfold h4. rewrite list_lookup_insert_ne by lia.
  unfold h3. rewrite lookup_snoc_lt by lia.
  unfold h2. rewrite list_lookup_insert_ne by lia.
  unfold h1. by rewrite lookup_snoc_lt by lia.
Qed.
End merge.

(** * Properties of the views *)

Lemma es_filtro_activo_spec f :
  es_filtro_activo f = true ↔ sel_usuarios f ≠ [] ∧ "Todos" ∉ sel_usuarios f.
Proof.
  unfold es_filtro_activo. rewrite andb_true_iff, bool_decide_eq_true, Nat.ltb_lt.
  destruct (sel_usuarios f) as [|u us]; simpl.
  - split; intros []; [lia|done].
  - split; intros [? ?]; split; auto with lia.
Qed.

Lemma empty_no_rows d : rows d = [] → empty d = true.
Proof. unfold empty. by intros ->. Qed.

(** A view that shows tables shows those of [vista_de] over the filtered
    frame. *)
Lemma tablas_run to_datetime f es h l n v :
  (procesar_y_graficar to_datetime f (Some l) es h).1 = Ok (TotalRegistros n v) →
  ∃ d, h !! l = Some d
       ∧ resolve_col_u d ∈ columns d
       ∧ n = length (rows (filtrado to_datetime f es d))
       ∧ v = vista_de f (resolve_col_u d) (resolve_col_f d)
               (filtrado to_datetime f es d).
Proof.
  intros Hrun. destruct (h !! l) as [d|] eqn:Hl.
  2: { unfold procesar_y_graficar, deref in Hrun.
       rewrite run_bind, Hl in Hrun. done. }
  exists d. split; [done|].
  destruct (empty d) eqn:He.
  { unfold procesar_y_graficar in Hrun.
    rewrite run_bind, (deref_run h l d Hl), He in Hrun. done. }
  destruct (procesar_y_graficar_run to_datetime f es h l d Hl He)
    as (h' & Hr & _).
  rewrite Hr in Hrun. simpl in Hrun. unfold resultado in Hrun.
  destruct (es_filtro_activo f && bool_decide (resolve_col_u d ∉ columns d));
    [done|].
  destruct (empty (filtrado to_datetime f es d)); [done|].
  case_bool_decide; [|done]. by simplify_eq.
Qed.

(** C1.  The operator filter is active exactly when some operator is
    selected and "Todos" is not among the selection.  A view that shows
    tables shows one of the two sets: the ranking when the filter is not
    active, the comparison when it is; and it shows them whenever the
    filtered rows of a frame that has its operator column are not
    empty. *)
Theorem C1_una_variante_segun_el_filtro to_datetime f es h l :
  (es_filtro_activo f = true ↔ sel_usuarios f ≠ [] ∧ "Todos" ∉ sel_usuarios f)
  ∧ (∀ n v,
       (procesar_y_graficar to_datetime f (Some l) es h).1
       = Ok (TotalRegistros n v) →
       if es_filtro_activo f
       then ∃ evol resumen_sel, v = Comparativo evol resumen_sel
       else ∃ counts, v = General counts)
  ∧ (∀ d, h !! l = Some d → empty d = false → resolve_col_u d ∈ columns d →
       empty (filtrado to_datetime f es d) = false →
       ∃ v, (procesar_y_graficar to_datetime f (Some l) es h).1
            = Ok (TotalRegistros (length (rows (filtrado to_datetime f es d))) v)).
Proof.
  split; [apply es_filtro_activo_spec|]. split.
  - intros n v (d & _ & _ & _ & ->)%tablas_run.
    unfold vista_de. destruct (es_filtro_activo f); simpl; eauto.
  - intros d Hl He Hu Hf.
    destruct (procesar_y_graficar_run to_datetime f es h l d Hl He)
      as (h' & -> & _). simpl.
    unfold resultado. rewrite (bool_decide_eq_false_2 (_ ∉ _)) by auto.
    rewrite andb_false_r, Hf, bool_decide_eq_true_2 by done. eauto.
Qed.

Lemma C1_witness :
  ∃ v,
    (procesar_y_graficar IsoDate.to_datetime todos (Some 0%nat) false [rips_ejemplo]).1
    = Ok (TotalRegistros
            (length (rows (filtrado IsoDate.to_datetime todos false rips_ejemplo))) v).
Proof.
  apply (proj2 (proj2 (C1_una_variante_segun_el_filtro
                         IsoDate.to_datetime todos false [rips_ejemplo] 0%nat))
           rips_ejemplo);
    [reflexivity|reflexivity|by repeat constructor|by vm_compute].
Defined.

(** C2.  The date filter raises no error; it drops the records whose
    date value does not parse and keeps, in order, the remaining ones
    whose calendar date lies between the start and the end of the range,
    both included. *)
Theorem C2_filtro_de_fecha_inclusivo to_datetime f h l d c :
  h !! l = Some d → c ∈ columns d →
  ∃ l' h' d',
    filtro_de_fecha to_datetime f (Some c) l h = (Ok l', h')
    ∧ h' !! l' = Some d'
    ∧ rows d' = date_filter_spec to_datetime f c d
    ∧ ∀ r', r' ∈ rows d'
            ↔ ∃ i r t, rows d !! i = Some r
                       ∧ to_datetime (column d c) i = Some t
                       ∧ start_date f ≤ t / nanos_per_day ≤ end_date f
                       ∧ r' = <[c := Timestamp t]> r.
Proof.
  intros Hl Hc.
  destruct (filtro_de_fecha_run to_datetime f h l d Hl (Some c))
    as (l' & h' & Hrun & Hl' & _); [by intros ? [= <-]|].
  eexists l', h', _. split; [done|]. split; [done|].
  rewrite rows_tras_filtro_de_fecha. split; [done|].
  intros r'. apply elem_of_date_filter_spec.
Qed.

Lemma C2_witness :
  ∃ l' h' d',
    filtro_de_fecha IsoDate.to_datetime todos (Some "FECHA") 0%nat [rips_ejemplo]
    = (Ok l', h')
    ∧ h' !! l' = Some d'
    ∧ rows d' = date_filter_spec IsoDate.to_datetime todos "FECHA" rips_ejemplo
    ∧ ∀ r', r' ∈ rows d'
            ↔ ∃ i r t, rows rips_ejemplo !! i = Some r
                       ∧ IsoDate.to_datetime (column rips_ejemplo "FECHA") i = Some t
                       ∧ start_date todos ≤ t / nanos_per_day ≤ end_date todos
                       ∧ r' = <["FECHA" := Timestamp t]> r.
Proof.
  apply (C2_filtro_de_fecha_inclusivo IsoDate.to_datetime todos
           [rips_ejemplo] 0%nat rips_ejemplo "FECHA");
    [reflexivity|by repeat constructor].
Defined.

(** The dates of the rows the example keeps: the 15th, the first day of
    the range, and the 16th, its last day. *)
Example fechas_en_los_extremos :
  (λ r, get r "FECHA") <$> date_filter_spec IsoDate.to_datetime todos "FECHA" rips_ejemplo
  = [Timestamp (19737 * nanos_per_day); Timestamp (19738 * nanos_per_day);
     Timestamp (19738 * nanos_per_day)].
Proof. by vm_compute. Qed.

Lemma sin_resultados_run to_datetime f es h l d :
  h !! l = Some d → empty d = false →
  resolve_col_u d ∈ columns d ∨ es_filtro_activo f = false →
  rows (filtrado to_datetime f es d) = [] →
  (procesar_y_graficar to_datetime f (Some l) es h).1 = Ok SinDatosConFiltros.
Proof.
  intros Hl He Hu Hr.
  destruct (procesar_y_graficar_run to_datetime f es h l d Hl He)
    as (h' & -> & _). simpl.
  unfold resultado. rewrite (empty_no_rows _ Hr).
  destruct Hu as [Hu| ->]; [|done].
  rewrite (bool_decide_eq_false_2 (_ ∉ _)) by auto.
  by rewrite andb_false_r.
Qed.

Lemma StronglySorted_fmap_2 {A B} (g : A → B) (R : relation B) (l : list A) :
  StronglySorted (λ a b, R (g a) (g b)) l → StronglySorted R (g <$> l).
Proof.
  induction 1 as [|x l Hs IH Hall]; csimpl; constructor; [done|].
  rewrite Forall_fmap. done.
Qed.

Lemma length_filter_Forall {A} (P : A → Prop) `{∀ x, Decision (P x)} (l : list A) :
  Forall P l → length (filter P l) = length l.
Proof.
  induction 1 as [|x l Hx _ IH]; [done|].
  rewrite filter_cons_True by done. simpl. by rewrite IH.
Qed.

Section ranking.
Variable to_datetime : list cell → nat → option Z.
Variable f : filtros.
Variables (es : bool) (h : list DataFrame) (l : loc) (d : DataFrame).
Hypothesis Hl : h !! l = Some d.
Hypothesis He : empty d = false.
Hypothesis Hu : resolve_col_u d ∈ columns d.
Hypothesis Ha : es_filtro_activo f = false.
Hypothesis Hf : empty (filtrado to_datetime f es d) = false.

Lemma ranking_run :
  (procesar_y_graficar to_datetime f (Some l) es h).1
  = Ok (TotalRegistros
          (length (rows (filtrado to_datetime f es d)))
          (General (with_pct (value_counts
             (column (filtrado to_datetime f es d) (resolve_col_u d)))))).
Proof.
  destruct (procesar_y_graficar_run to_datetime f es h l d Hl He)
    as (h' & -> & _). simpl.
  unfold resultado, vista_de. rewrite Ha, Hf. simpl.
  by rewrite bool_decide_eq_true_2.
Qed.
End ranking.

(** C3 (amended).  In the ranking, the percentage of an operator is 100
    times its count over the number of filtered records that have an
    operator, computed on doubles and rounded to two decimals as numpy
    rounds, which leaves it within half a hundredth of the exact
    percentage up to the error of the doubles; that number of records is
    the total of the filtered records when none of them lacks its
    operator, and when it is not zero the percentages add up to 100
    within 0.01 per operator. *)
Theorem C3_porcentajes_del_ranking to_datetime f es h l d :
  h !! l = Some d → empty d = false → resolve_col_u d ∈ columns d →
  es_filtro_activo f = false →
  empty (filtrado to_datetime f es d) = false →
  let fd := filtrado to_datetime f es d in
  let con_usuario :=
    filter (λ v, notna v = true) (column fd (resolve_col_u d)) in
  let total := inject_Z (Z.of_nat (length con_usuario)) in
  ∃ counts,
    (procesar_y_graficar to_datetime f (Some l) es h).1
    = Ok (TotalRegistros (length (rows fd)) (General counts))
    ∧ (∀ u n p, (u, n, p) ∈ counts →
         n = count u con_usuario
         ∧ p = porcentaje n (length con_usuario)
         ∧ (Qabs (p - inject_Z (Z.of_nat n) / total * 100)
            <= (1 # 200) + (1 # 1000000000000))%Q)
    ∧ (con_usuario ≠ [] →
       (Qabs (Qsum (snd <$> counts) - 100)
        <= (1 # 100) * inject_Z (Z.of_nat (length counts)))%Q)
    ∧ (Forall (λ v, notna v = true) (column fd (resolve_col_u d)) →
       length con_usuario = length (rows fd)).
Proof.
  intros Hl He Hu Ha Hf fd con_usuario total.
  eexists. split; [by apply ranking_run|]. fold fd.
  set (vc := value_counts (column fd (resolve_col_u d))).
  assert (Hsum : conteo_sum vc = length con_usuario)
    by apply conteo_sum_value_counts.
  split; [|split].
  - intros u n p [Hin ->]%elem_of_with_pct.
    pose proof (conteo_le_sum vc (u, n) Hin) as Hle.
    apply elem_of_value_counts in Hin as (Hin & Hna & Hn).
    assert (Hpos : (0 < n)%nat).
    { rewrite Hn. by apply count_pos, list_elem_of_filter. }
    rewrite Hsum in Hle. simpl in Hle. rewrite Hsum.
    split; [done|]. split; [done|]. apply porcentaje_error; lia.
  - intros Hne.
    assert (Hpos : (0 < conteo_sum vc)%nat).
    { rewrite Hsum. destruct con_usuario; [done|simpl; lia]. }
    pose proof (with_pct_sum vc Hpos) as Hs.
    rewrite length_with_pct.
    eapply Qle_trans; [exact Hs|].
    apply Qmult_le_compat_r; [done|].
    change 0%Q with (inject_Z 0). rewrite <- Zle_Qle. lia.
  - intros Hall. unfold con_usuario. rewrite length_filter_Forall by done.
    unfold column. by rewrite length_fmap.
Qed.

Lemma C3_witness :
  let fd := filtrado IsoDate.to_datetime todos false rips_ejemplo in
  let con_usuario := filter (λ v, notna v = true) (column fd "Usuario") in
  let total := inject_Z (Z.of_nat (length con_usuario)) in
  ∃ counts,
    (procesar_y_graficar IsoDate.to_datetime todos (Some 0%nat) false [rips_ejemplo]).1
    = Ok (TotalRegistros (length (rows fd)) (General counts))
    ∧ (∀ u n p, (u, n, p) ∈ counts →
         n = count u con_usuario
         ∧ p = porcentaje n (length con_usuario)
         ∧ (Qabs (p - inject_Z (Z.of_nat n) / total * 100)
            <= (1 # 200) + (1 # 1000000000000))%Q)
    ∧ (con_usuario ≠ [] →
       (Qabs (Qsum (snd <$> counts) - 100)
        <= (1 # 100) * inject_Z (Z.of_nat (length counts)))%Q)
    ∧ (Forall (λ v, notna v = true) (column fd "Usuario") →
       length con_usuario = length (rows fd)).
Proof.
  apply (C3_porcentajes_del_ranking IsoDate.to_datetime todos false
           [rips_ejemplo] 0%nat rips_ejemplo);
    [reflexivity|reflexivity|by repeat constructor|reflexivity|by vm_compute].
Defined.

(** C3 as stated fails: of two filtered records, one of Ana and one
    without operator, Ana gets 100 per cent, not 100 times 1 over 2. *)
Lemma C3_counterexample :
  ∃ p,
    (procesar_y_graficar IsoDate.to_datetime todos (Some 0%nat) false [ana_y_anonimo]).1
    = Ok (TotalRegistros 2 (General [(Str "Ana", 1%nat, p)]))
    ∧ (p == 100)%Q
    ∧ (porcentaje 1 2 == 50)%Q
    ∧ ¬ (p == porcentaje 1 2)%Q.
Proof.
  eexists. split; [by vm_compute|]. split; [by vm_compute|].
  split; [by vm_compute|].
  intros H. vm_compute in H. discriminate.
Qed.

(** The doubles at work: 23 of 160 is 14.375 per cent; the product by
    100 falls just below it and the percentage is the double of 14.37,
    where the exact percentage rounded to the even neighbour would be
    14.38. *)
Example porcentaje_de_23_sobre_160 :
  (porcentaje 23 160 == binary64 (1437 # 100))%Q
  ∧ (fmul (fdiv (of_int64 23) (of_int64 160)) 100 < 14375 # 1000)%Q
  ∧ (pct_exact 160 23 == 14375 # 1000)%Q
  ∧ round_half_even (pct_exact 160 23 * 100) = 1438.
Proof. repeat split; by vm_compute. Qed.

Example ranking_de_23_sobre_160 :
  ∃ p q,
    (procesar_y_graficar IsoDate.to_datetime todos (Some 0%nat) false
       [ana_23_de_160]).1
    = Ok (TotalRegistros 160
            (General [(Str "Beto", 137%nat, q); (Str "Ana", 23%nat, p)]))
    ∧ (p == binary64 (1437 # 100))%Q ∧ (q == binary64 (8562 # 100))%Q.
Proof. eexists _, _. split; [by vm_compute|]. split; by vm_compute. Qed.

(** On every pair of counts up to 60, and on some larger ones, the
    percentage of the model is the one the IEEE 754 operations of the
    standard library give. *)
Example porcentaje_como_IEEE754 :
  forallb (λ p, coincide p.1 p.2)
    (pares 60 ++ [(23, 160); (1, 7); (997, 1009); (1, 4999); (2477, 4999)]%nat)
  = true.
Proof. by vm_compute. Qed.

(** C4 (amended).  The lines of the ranking come by descending count.
    Nothing orders by name the operators that have the same count. *)
Theorem C4_orden_del_ranking to_datetime f es h l d :
  h !! l = Some d → empty d = false → resolve_col_u d ∈ columns d →
  es_filtro_activo f = false →
  empty (filtrado to_datetime f es d) = false →
  let fd := filtrado to_datetime f es d in
  ∃ counts,
    (procesar_y_graficar to_datetime f (Some l) es h).1
    = Ok (TotalRegistros (length (rows fd)) (General counts))
    ∧ StronglySorted (λ a b, (b.1.2 ≤ a.1.2)%nat) counts.
Proof.
  intros Hl He Hu Ha Hf fd.
  eexists. split; [by apply ranking_run|]. fold fd.
  rewrite with_pct_fmap.
  apply StronglySorted_fmap_2. simpl. apply value_counts_sorted.
Qed.

Lemma C4_witness :
  let fd := filtrado IsoDate.to_datetime todos false ana_una_beto_dos in
  ∃ counts,
    (procesar_y_graficar IsoDate.to_datetime todos (Some 0%nat) false
       [ana_una_beto_dos]).1
    = Ok (TotalRegistros (length (rows fd)) (General counts))
    ∧ StronglySorted (λ a b, (b.1.2 ≤ a.1.2)%nat) counts.
Proof.
  apply (C4_orden_del_ranking IsoDate.to_datetime todos false
           [ana_una_beto_dos] 0%nat ana_una_beto_dos);
    [reflexivity|reflexivity|by repeat constructor|reflexivity|by vm_compute].
Defined.

(** Ana's record comes first and Beto has two: Beto heads the ranking. *)
Example ranking_de_ana_y_beto :
  ∃ p q,
    (procesar_y_graficar IsoDate.to_datetime todos (Some 0%nat) false
       [ana_una_beto_dos]).1
    = Ok (TotalRegistros 3
            (General [(Str "Beto", 2%nat, p); (Str "Ana", 1%nat, q)]))
    ∧ (p == binary64 (6667 # 100))%Q ∧ (q == binary64 (3333 # 100))%Q.
Proof. eexists _, _. split; [by vm_compute|]. split; by vm_compute. Qed.

(** C4 as stated fails: Beto and Ana have one record each, and Beto,
    whose record comes first, is listed before Ana. *)
Lemma C4_counterexample :
  ∃ p,
    (procesar_y_graficar IsoDate.to_datetime todos (Some 0%nat) false [beto_y_ana]).1
    = Ok (TotalRegistros 2
            (General [(Str "Beto", 1%nat, p); (Str "Ana", 1%nat, p)]))
    ∧ String.ltb "Ana" "Beto" = true.
Proof. eexists. split; by vm_compute. Qed.

(** C5.  The frames of the two kinds of legalisation are united into a
    frame that has the rows of the first followed by the rows of the
    second, each in its order; every row carries the label of its source
    and the values it had; the stored frames are left as they were. *)
Theorem C5_legalizaciones_unidas st h p c dp dc :
  df_ppl st = Some p → df_convenios st = Some c →
  h !! p = Some dp → h !! c = Some dc →
  ∃ m h' merged,
    (list_leg st ≫= pd_concat) h = (Ok m, h')
    ∧ h' !! m = Some merged
    ∧ length (rows merged) = (length (rows dp) + length (rows dc))%nat
    ∧ (∀ i r, rows dp !! i = Some r →
         ∃ r', rows merged !! i = Some r'
               ∧ get r' "Tipo_Leg" = Str "PPL"
               ∧ ∀ k, k ∈ columns dp → k ≠ "Tipo_Leg" → get r' k = get r k)
    ∧ (∀ i r, rows dc !! i = Some r →
         ∃ r', rows merged !! (length (rows dp) + i)%nat = Some r'
               ∧ get r' "Tipo_Leg" = Str "Convenios"
               ∧ ∀ k, k ∈ columns dc → k ≠ "Tipo_Leg" → get r' k = get r k)
    ∧ h' !! p = Some dp ∧ h' !! c = Some dc.
Proof.
  intros Hsp Hsc Hp Hc.
  destruct (list_leg_run h p c dp dc Hp Hc st Hsp Hsc) as (h4 & Hrun & Hlen & Hold).
  set (d_p := assign_scalar dp "Tipo_Leg" (Str "PPL")) in *.
  set (d_c := assign_scalar dc "Tipo_Leg" (Str "Convenios")) in *.
  set (cols := union_columns [d_p; d_c]).
  assert (Htag : "Tipo_Leg" ∈ cols).
  { apply elem_of_union_columns_two. left. apply elem_of_add_column. }
  eexists _, _, _. split; [exact Hrun|].
  split; [rewrite <- Hlen; apply lookup_snoc|].
  rewrite rows_concat_two. fold cols. simpl.
  split; [by rewrite length_app, !length_fmap|].
  split; [|split; [|split]].
  - intros i r Hi. eexists. split.
    + rewrite lookup_app_l by (rewrite !length_fmap; by eapply lookup_lt_Some).
      by rewrite !list_lookup_fmap, Hi.
    + split; [by rewrite get_reindex, get_insert|].
      intros k Hk Hne. rewrite get_reindex, get_insert_ne; [done..|].
      apply elem_of_union_columns_two. left. by apply add_column_old.
  - intros i r Hi. eexists. split.
    + rewrite lookup_app_r by (rewrite !length_fmap; lia).
      rewrite !length_fmap, Nat.add_comm, Nat.add_sub.
      by rewrite !list_lookup_fmap, Hi.
    + split; [by rewrite get_reindex, get_insert|].
      intros k Hk Hne. rewrite get_reindex, get_insert_ne; [done..|].
      apply elem_of_union_columns_two. right. by apply add_column_old.
  - rewrite lookup_app_l by (apply lookup_lt_Some in Hp; lia).
    rewrite Hold; [done|by eapply lookup_lt_Some].
  - rewrite lookup_app_l by (apply lookup_lt_Some in Hc; lia).
    rewrite Hold; [done|by eapply lookup_lt_Some].
Qed.

Lemma C5_witness :
  ∃ m h' merged,
    (list_leg (mkSession (Some 0%nat) (Some 1%nat) None None) ≫= pd_concat)
      [ppl_ejemplo; convenios_ejemplo]
    = (Ok m, h')
    ∧ h' !! m = Some merged
    ∧ length (rows merged)
      = (length (rows ppl_ejemplo) + length (rows convenios_ejemplo))%nat
    ∧ (∀ i r, rows ppl_ejemplo !! i = Some r →
         ∃ r', rows merged !! i = Some r'
               ∧ get r' "Tipo_Leg" = Str "PPL"
               ∧ ∀ k, k ∈ columns ppl_ejemplo → k ≠ "Tipo_Leg" → get r' k = get r k)
    ∧ (∀ i r, rows convenios_ejemplo !! i = Some r →
         ∃ r', rows merged !! (length (rows ppl_ejemplo) + i)%nat = Some r'
               ∧ get r' "Tipo_Leg" = Str "Convenios"
               ∧ ∀ k, k ∈ columns convenios_ejemplo → k ≠ "Tipo_Leg" →
                      get r' k = get r k)
    ∧ h' !! 0%nat = Some ppl_ejemplo ∧ h' !! 1%nat = Some convenios_ejemplo.
Proof.
  apply (C5_legalizaciones_unidas
           (mkSession (Some 0%nat) (Some 1%nat) None None)
           [ppl_ejemplo; convenios_ejemplo] 0%nat 1%nat
           ppl_ejemplo convenios_ejemplo); reflexivity.
Defined.

(** The united frame of the example, line by line. *)
Example legalizaciones_del_ejemplo :
  (λ d, (λ r, (get r "USUARIO", get r "Tipo_Leg")) <$> rows d)
  <$> ((list_leg (mkSession (Some 0%nat) (Some 1%nat) None None) ≫= pd_concat)
         [ppl_ejemplo; convenios_ejemplo]).2 !! 4%nat
  = Some [(Str "Ana", Str "PPL"); (Str "Beto", Str "PPL");
          (Str "Carla", Str "Convenios")].
Proof. by vm_compute. Qed.

(** C6.  A missing or empty frame gives the message that no data is
    loaded before anything is filtered or changed; a frame that is not
    empty and loses all its rows to the filters gives the other message;
    the two differ and neither is an exception. *)
Theorem C6_sin_datos_o_sin_resultados to_datetime f es h :
  procesar_y_graficar to_datetime f None es h = (Ok NoHayDatosCargados, h)
  ∧ (∀ l d, h !! l = Some d → empty d = true →
       procesar_y_graficar to_datetime f (Some l) es h = (Ok NoHayDatosCargados, h))
  ∧ (∀ l d, h !! l = Some d → empty d = false →
       resolve_col_u d ∈ columns d ∨ es_filtro_activo f = false →
       rows (filtrado to_datetime f es d) = [] →
       (procesar_y_graficar to_datetime f (Some l) es h).1 = Ok SinDatosConFiltros)
  ∧ NoHayDatosCargados ≠ SinDatosConFiltros.
Proof.
  split; [done|]. split; [|split; [|done]].
  - intros l d Hl He. unfold procesar_y_graficar.
    by rewrite run_bind, (deref_run h l d Hl), He.
  - intros l d. apply sin_resultados_run.
Qed.

Lemma C6_witness :
  (procesar_y_graficar IsoDate.to_datetime rango_invertido (Some 0%nat) false
     [rips_ejemplo]).1
  = Ok SinDatosConFiltros.
Proof.
  apply (proj1 (proj2 (proj2 (C6_sin_datos_o_sin_resultados
           IsoDate.to_datetime rango_invertido false [rips_ejemplo])))
           0%nat rips_ejemplo);
    [reflexivity|reflexivity|by right|by vm_compute].
Defined.

Lemma date_filter_spec_empty_range to_datetime f c d :
  end_date f < start_date f → date_filter_spec to_datetime f c d = [].
Proof.
  intros Hinv.
  destruct (date_filter_spec to_datetime f c d) as [|r rs] eqn:E; [done|].
  assert (Hr : r ∈ date_filter_spec to_datetime f c d) by (rewrite E; left).
  apply elem_of_date_filter_spec in Hr as (i & r0 & t & _ & _ & Hrange & _). lia.
Qed.

Lemma boolean_index_nil {A} (mask : list bool) : boolean_index mask (@nil A) = [].
Proof. by destruct mask. Qed.

Lemma rows_tras_filtro_de_usuario_nil f col_u d :
  rows d = [] → rows (tras_filtro_de_usuario f col_u d) = [].
Proof.
  intros Hr. unfold tras_filtro_de_usuario.
  destruct (es_filtro_activo f); [|done]. simpl. rewrite Hr.
  apply boolean_index_nil.
Qed.

(** C7 (amended).  A range whose start is after its end is neither
    rejected nor put in order: on a frame that has a date column the date
    filter keeps no record, and the view gives the message of the filters
    that leave nothing. *)
Theorem C7_rango_invertido to_datetime f es h l d c :
  end_date f < start_date f →
  h !! l = Some d → empty d = false → resolve_col_f d = Some c →
  resolve_col_u d ∈ columns d ∨ es_filtro_activo f = false →
  rows (tras_filtro_de_fecha to_datetime f (Some c) (tras_filtro_de_tipo f es d)) = []
  ∧ (procesar_y_graficar to_datetime f (Some l) es h).1 = Ok SinDatosConFiltros.
Proof.
  intros Hinv Hl He Hc Hu.
  assert (Hrows : rows (tras_filtro_de_fecha to_datetime f (Some c)
                          (tras_filtro_de_tipo f es d)) = []).
  { rewrite rows_tras_filtro_de_fecha. by apply date_filter_spec_empty_range. }
  split; [done|].
  apply (sin_resultados_run to_datetime f es h l d); try done.
  unfold filtrado. rewrite Hc. by apply rows_tras_filtro_de_usuario_nil.
Qed.

Lemma C7_witness :
  rows (tras_filtro_de_fecha IsoDate.to_datetime rango_invertido (Some "FECHA")
          (tras_filtro_de_tipo rango_invertido false rips_ejemplo)) = []
  ∧ (procesar_y_graficar IsoDate.to_datetime rango_invertido (Some 0%nat) false
       [rips_ejemplo]).1
    = Ok SinDatosConFiltros.
Proof.
  apply (C7_rango_invertido IsoDate.to_datetime rango_invertido false
           [rips_ejemplo] 0%nat rips_ejemplo "FECHA");
    [reflexivity|reflexivity|reflexivity|reflexivity|by right].
Defined.

(** C7 as stated fails: with the 16th as start and the 15th as end the
    view of the example is not an exception, and it is not the view of
    the range put in order either, which shows three records. *)
Lemma C7_counterexample :
  end_date rango_invertido < start_date rango_invertido
  ∧ (procesar_y_graficar IsoDate.to_datetime rango_invertido (Some 0%nat) false
       [rips_ejemplo]).1
    = Ok SinDatosConFiltros
  ∧ start_date todos = end_date rango_invertido
  ∧ end_date todos = start_date rango_invertido
  ∧ ∃ v, (procesar_y_graficar IsoDate.to_datetime todos (Some 0%nat) false
            [rips_ejemplo]).1
         = Ok (TotalRegistros 3 v).
Proof.
  split; [done|]. split; [by vm_compute|]. split; [done|]. split; [done|].
  eexists. by vm_compute.
Qed.

(** Without the operator column the view raises [KeyError], unless no
    operator is selected and the filters leave no record. *)
Lemma sin_columna_de_usuario_run to_datetime f es h l d :
  h !! l = Some d → empty d = false → resolve_col_u d ∉ columns d →
  es_filtro_activo f = true
  ∨ empty (tras_filtro_de_fecha to_datetime f (resolve_col_f d)
             (tras_filtro_de_tipo f es d)) = false →
  (procesar_y_graficar to_datetime f (Some l) es h).1 = Raise (KeyError "Usuario").
Proof.
  intros Hl He Hu Hcase.
  assert (Hname : resolve_col_u d = "Usuario").
  { unfold resolve_col_u in *. case_bool_decide; [done|done]. }
  destruct (procesar_y_graficar_run to_datetime f es h l d Hl He)
    as (h' & -> & _). simpl.
  unfold resultado. rewrite bool_decide_eq_true_2 by done.
  rewrite (bool_decide_eq_false_2 (_ ∈ _)) by done. rewrite Hname.
  destruct (es_filtro_activo f) eqn:Ea; [done|]. simpl.
  destruct Hcase as [?|Hne]; [done|].
  unfold filtrado, tras_filtro_de_usuario. rewrite Ea. by rewrite Hne.
Qed.

(** C8.  A frame that has no operator column: the view of the RIPS tab
    ends in [KeyError], and with it the run of the script, so that the
    tab of the invoices, whose frame is in order, is not worked. *)
Theorem C8_sin_columna_de_usuario :
  (procesar_y_graficar IsoDate.to_datetime todos (Some 0%nat) false
     [sin_usuario; rips_ejemplo]).1
  = Raise (KeyError "Usuario")
  ∧ (tabs IsoDate.to_datetime todos
       (mkSession None None (Some 0%nat) (Some 1%nat))
       [sin_usuario; rips_ejemplo]).1
    = Raise (KeyError "Usuario")
  ∧ ∃ v, (tab_fact IsoDate.to_datetime todos
            (mkSession None None (Some 0%nat) (Some 1%nat))
            [sin_usuario; rips_ejemplo]).1
         = Ok (TotalRegistros 3 v).
Proof.
  split; [|split].
  - apply (sin_columna_de_usuario_run _ _ _ _ _ sin_usuario);
      [reflexivity|reflexivity| |by right].
    apply (bool_decide_unpack _). by vm_compute.
  - by vm_compute.
  - eexists. by vm_compute.
Qed.

(** After a view over a stored frame that is not a legalisation, the
    stored object holds the parsed dates in its date column. *)
Lemma almacenado_tras_la_vista to_datetime f h l d c :
  h !! l = Some d → empty d = false → resolve_col_f d = Some c →
  (procesar_y_graficar to_datetime f (Some l) false h).2 !! l
  = Some (fechas_convertidas to_datetime c d).
Proof.
  intros Hl He Hc.
  destruct (procesar_y_graficar_run to_datetime f false h l d Hl He)
    as (h' & -> & Hst & _). simpl.
  rewrite Hst. unfold almacenado. by rewrite Hc.
Qed.

(** C9.  The view of the RIPS tab changes the stored frame: the texts of
    its date column become instants, and the text that does not parse
    becomes the missing instant.  The view of the legalisations, which
    works on copies, leaves the two stored frames as they were. *)
Theorem C9_la_vista_cambia_el_almacenado :
  let st := mkSession None None (Some 0%nat) None in
  let st' := mkSession (Some 0%nat) (Some 1%nat) None None in
  column rips_ejemplo "FECHA"
  = [Str "2024-01-15"; Str "2024-01-16"; Str "2024-01-16"; Str "2024-01-17";
     Str "sin fecha"]
  ∧ (λ d, column d "FECHA")
    <$> (tab_rips IsoDate.to_datetime todos st [rips_ejemplo]).2 !! 0%nat
    = Some [Timestamp (19737 * nanos_per_day); Timestamp (19738 * nanos_per_day);
            Timestamp (19738 * nanos_per_day); Timestamp (19739 * nanos_per_day);
            NaT]
  ∧ (tab_leg IsoDate.to_datetime todos st' [ppl_ejemplo; convenios_ejemplo]).2
      !! 0%nat = Some ppl_ejemplo
  ∧ (tab_leg IsoDate.to_datetime todos st' [ppl_ejemplo; convenios_ejemplo]).2
      !! 1%nat = Some convenios_ejemplo.
Proof.
  split; [by vm_compute|]. split; [|split; by vm_compute].
  unfold tab_rips. simpl df_rips.
  rewrite (almacenado_tras_la_vista _ _ _ _ rips_ejemplo "FECHA") by done.
  by vm_compute.
Qed.

(** C10.  In the comparison over a frame that has a date column, the
    total the summary gives for a selected operator is the sum of the
    daily counts the time series gives for it; and the comparison is
    shown, with its time series, whenever an operator is selected and
    the filtered rows are not empty. *)
Theorem C10_resumen_y_evolucion to_datetime f es h l :
  (∀ n evol resumen_sel,
     (procesar_y_graficar to_datetime f (Some l) es h).1
     = Ok (TotalRegistros n (Comparativo (Some evol) resumen_sel)) →
     ∀ u, u ∈ sel_usuarios f →
          total_realizado resumen_sel (Str u) = cuenta_en_evol evol (Str u))
  ∧ (∀ d c, h !! l = Some d → empty d = false →
       resolve_col_u d ∈ columns d → resolve_col_f d = Some c →
       es_filtro_activo f = true →
       empty (filtrado to_datetime f es d) = false →
       ∃ n evol resumen_sel,
         (procesar_y_graficar to_datetime f (Some l) es h).1
         = Ok (TotalRegistros n (Comparativo (Some evol) resumen_sel))).
Proof.
  split.
  - intros n evol resumen_sel (d & Hl & Hu & _ & Hv)%tablas_run u _.
    unfold vista_de in Hv.
    destruct (es_filtro_activo f) eqn:Ha; [|done]. simpl in Hv.
    destruct (resolve_col_f d) as [c|] eqn:Hc; [|done].
    injection Hv as -> ->. symmetry. apply comparativo_totals.
    + unfold resolve_col_u. by case_bool_decide.
    + intros r Hr. unfold filtrado in Hr. rewrite Hc in Hr.
      assert (Hr' : r ∈ rows (tras_filtro_de_fecha to_datetime f (Some c)
                                (tras_filtro_de_tipo f es d))).
      { unfold tras_filtro_de_usuario in Hr. rewrite Ha in Hr.
        by apply elem_of_boolean_index in Hr. }
      rewrite rows_tras_filtro_de_fecha in Hr'.
      apply elem_of_date_filter_spec in Hr' as (i & r0 & t & _ & _ & _ & ->).
      exists t. apply get_insert.
  - intros d c Hl He Hu Hc Ha Hf.
    destruct (procesar_y_graficar_run to_datetime f es h l d Hl He)
      as (h' & -> & _). simpl. unfold resultado, vista_de.
    rewrite (bool_decide_eq_false_2 (_ ∉ _)) by auto.
    rewrite andb_false_r, Hf, bool_decide_eq_true_2 by done.
    rewrite Ha, Hc. simpl. eauto.
Qed.

Lemma C10_witness :
  ∃ n evol resumen_sel,
    (procesar_y_graficar IsoDate.to_datetime solo_ana (Some 0%nat) false
       [rips_ejemplo]).1
    = Ok (TotalRegistros n (Comparativo (Some evol) resumen_sel))
    ∧ ∀ u, u ∈ sel_usuarios solo_ana →
           total_realizado resumen_sel (Str u) = cuenta_en_evol evol (Str u).
Proof.
  destruct (proj2 (C10_resumen_y_evolucion IsoDate.to_datetime solo_ana false
                     [rips_ejemplo] 0%nat) rips_ejemplo "FECHA")
    as (n & evol & resumen_sel & Hrun);
    [reflexivity|reflexivity|by repeat constructor|reflexivity|reflexivity
    |by vm_compute|].
  exists n, evol, resumen_sel. split; [exact Hrun|].
  exact (proj1 (C10_resumen_y_evolucion IsoDate.to_datetime solo_ana false
                  [rips_ejemplo] 0%nat) n evol resumen_sel Hrun).
Defined.

(** * Further properties: stages, tables, the heap, the side bar and the cache *)

(** * Further properties of the views *)

(** ** The filters one by one *)

Lemma isin_fmap (d : DataFrame) c (vals : list string) :
  isin (column d c) vals = (λ r, bool_decide (get r c ∈ Str <$> vals)) <$> rows d.
Proof. unfold isin, column. by rewrite <- list_fmap_compose. Qed.

Lemma rows_take_isin (d : DataFrame) c (vals : list string) :
  rows (take d (isin (column d c) vals))
  = filter (λ r, get r c ∈ Str <$> vals) (rows d).
Proof.
  simpl. rewrite isin_fmap, boolean_index_fmap.
  apply list_filter_iff. intros r. apply bool_decide_eq_true.
Qed.

(** X1.  The filter by kind of legalisation builds a new frame, with
    the same columns, of the rows whose kind is among the selected ones,
    in their order, and leaves the frame it reads as it was; outside the
    legalisations, or on a frame without the column of kinds, it does
    nothing. *)
Theorem X1_filtro_de_tipo f es h l d :
  h !! l = Some d →
  ∃ l' h' d',
    filtro_de_tipo f es d l h = (Ok l', h')
    ∧ h' !! l' = Some d'
    ∧ h' !! l = Some d
    ∧ columns d' = columns d
    ∧ (es = true → "Tipo_Leg" ∈ columns d →
       rows d' = filter (λ r, get r "Tipo_Leg" ∈ Str <$> tipo_legalizacion f) (rows d))
    ∧ (es = false ∨ "Tipo_Leg" ∉ columns d → l' = l ∧ h' = h).
Proof.
  intros Hl.
  destruct (filtro_de_tipo_run f h l d Hl es d eq_refl)
    as (l' & h' & Hrun & Hl' & Hold & _ & Hcase).
  assert (Hlt : (l < length h)%nat) by (by eapply lookup_lt_Some).
  eexists l', h', _. split; [done|]. split; [done|].
  split; [by rewrite Hold|]. split; [apply columns_tras_filtro_de_tipo|].
  split.
  - intros -> Hc. unfold tras_filtro_de_tipo.
    rewrite bool_decide_eq_true_2 by done. simpl andb. cbv iota.
    apply rows_take_isin.
  - intros Hno. unfold filtro_de_tipo in Hrun.
    assert (es && bool_decide ("Tipo_Leg" ∈ columns d) = false) as E.
    { destruct Hno as [->|Hno]; [done|].
      rewrite (bool_decide_eq_false_2 _ Hno). apply andb_false_r. }
    rewrite E in Hrun. by injection Hrun as <- <-.
Qed.

Lemma X1_witness :
  ∃ l' h' d',
    filtro_de_tipo solo_ppl true legalizaciones_ejemplo 0%nat [legalizaciones_ejemplo]
    = (Ok l', h')
    ∧ h' !! l' = Some d'
    ∧ h' !! 0%nat = Some legalizaciones_ejemplo
    ∧ columns d' = columns legalizaciones_ejemplo
    ∧ (true = true → "Tipo_Leg" ∈ columns legalizaciones_ejemplo →
       rows d' = filter (λ r, get r "Tipo_Leg" ∈ Str <$> tipo_legalizacion solo_ppl)
                   (rows legalizaciones_ejemplo))
    ∧ (true = false ∨ "Tipo_Leg" ∉ columns legalizaciones_ejemplo →
       l' = 0%nat ∧ h' = [legalizaciones_ejemplo]).
Proof.
  apply (X1_filtro_de_tipo solo_ppl true [legalizaciones_ejemplo] 0%nat
           legalizaciones_ejemplo).
  reflexivity.
Defined.

(** With only PPL selected the filter keeps the two PPL records of the
    united frame and leaves Carla's out; the united frame stays whole. *)
Example filtro_de_tipo_del_ejemplo :
  ∃ h' d',
    filtro_de_tipo solo_ppl true legalizaciones_ejemplo 0%nat [legalizaciones_ejemplo]
    = (Ok 1%nat, h')
    ∧ h' !! 1%nat = Some d'
    ∧ (λ r, (get r "USUARIO", get r "Tipo_Leg")) <$> rows d'
      = [(Str "Ana", Str "PPL"); (Str "Beto", Str "PPL")]
    ∧ (λ r, (get r "USUARIO", get r "Tipo_Leg")) <$> rows legalizaciones_ejemplo
      = [(Str "Ana", Str "PPL"); (Str "Beto", Str "PPL");
         (Str "Carla", Str "Convenios")]
    ∧ h' !! 0%nat = Some legalizaciones_ejemplo.
Proof. eexists _, _. repeat split; by vm_compute. Qed.

(** X2.  The filter by operator, when operators are selected: on a
    frame that has the operator column it builds a new frame of the rows
    whose operator is among the selected ones, in their order, so that a
    row without operator is left out; on a frame that lacks the column
    it raises [KeyError] and leaves the heap as it was.  When no operator
    is selected it does nothing, whatever the columns. *)
Theorem X2_filtro_de_usuario f h l d col_u :
  h !! l = Some d →
  (es_filtro_activo f = true → col_u ∈ columns d →
   ∃ l' h' d',
     filtro_de_usuario f col_u l h = (Ok l', h')
     ∧ h' !! l' = Some d'
     ∧ h' !! l = Some d
     ∧ columns d' = columns d
     ∧ rows d' = filter (λ r, get r col_u ∈ Str <$> sel_usuarios f) (rows d)
     ∧ Forall (λ r, notna (get r col_u) = true) (rows d'))
  ∧ (es_filtro_activo f = true → col_u ∉ columns d →
     filtro_de_usuario f col_u l h = (Raise (KeyError col_u), h))
  ∧ (es_filtro_activo f = false →
     filtro_de_usuario f col_u l h = (Ok l, h)).
Proof.
  intros Hl. split; [|split].
  - intros Ha Hc.
    destruct (filtro_de_usuario_run f h l d Hl col_u (or_introl Hc))
      as (l' & h' & Hrun & Hl' & Hold & _ & _).
    assert (Hlt : (l < length h)%nat) by (by eapply lookup_lt_Some).
    eexists l', h', _. split; [done|]. split; [done|].
    split; [by rewrite Hold|].
    split; [apply columns_tras_filtro_de_usuario|].
    unfold tras_filtro_de_usuario. rewrite Ha, rows_take_isin.
    split; [done|].
    apply Forall_forall. intros r [Hin _]%list_elem_of_filter.
    apply list_elem_of_fmap in Hin as (s & -> & _). done.
  - intros Ha Hc. by apply (filtro_de_usuario_raise f h l d).
  - apply filtro_de_usuario_inactive.
Qed.

Lemma X2_witness :
  (es_filtro_activo solo_ana = true → "Usuario" ∈ columns rips_ejemplo →
   ∃ l' h' d',
     filtro_de_usuario solo_ana "Usuario" 0%nat [rips_ejemplo] = (Ok l', h')
     ∧ h' !! l' = Some d'
     ∧ h' !! 0%nat = Some rips_ejemplo
     ∧ columns d' = columns rips_ejemplo
     ∧ rows d' = filter (λ r, get r "Usuario" ∈ Str <$> sel_usuarios solo_ana)
                   (rows rips_ejemplo)
     ∧ Forall (λ r, notna (get r "Usuario") = true) (rows d'))
  ∧ (es_filtro_activo solo_ana = true → "Usuario" ∉ columns rips_ejemplo →
     filtro_de_usuario solo_ana "Usuario" 0%nat [rips_ejemplo]
     = (Raise (KeyError "Usuario"), [rips_ejemplo]))
  ∧ (es_filtro_activo solo_ana = false →
     filtro_de_usuario solo_ana "Usuario" 0%nat [rips_ejemplo]
     = (Ok 0%nat, [rips_ejemplo])).
Proof.
  apply (X2_filtro_de_usuario solo_ana [rips_ejemplo] 0%nat rips_ejemplo "Usuario").
  reflexivity.
Defined.

(** ** The outcome of a view *)

Lemma procesar_y_graficar_resultado to_datetime f es h l d :
  h !! l = Some d →
  (procesar_y_graficar to_datetime f (Some l) es h).1
  = if empty d then Ok NoHayDatosCargados else resultado to_datetime f es d.
Proof.
  intros Hl. destruct (empty d) eqn:He.
  - unfold procesar_y_graficar. by rewrite run_bind, (deref_run h l d Hl), He.
  - by destruct (procesar_y_graficar_run to_datetime f es h l d Hl He)
      as (h' & -> & _).
Qed.

Lemma tablas_no_vacias to_datetime f es h l d n v :
  h !! l = Some d →
  (procesar_y_graficar to_datetime f (Some l) es h).1 = Ok (TotalRegistros n v) →
  empty d = false
  ∧ empty (filtrado to_datetime f es d) = false
  ∧ resolve_col_u d ∈ columns d
  ∧ n = length (rows (filtrado to_datetime f es d))
  ∧ v = vista_de f (resolve_col_u d) (resolve_col_f d)
          (filtrado to_datetime f es d).
Proof.
  intros Hl Hrun. rewrite (procesar_y_graficar_resultado _ _ _ _ _ d Hl) in Hrun.
  destruct (empty d); [done|]. split; [done|].
  unfold resultado in Hrun.
  destruct (es_filtro_activo f && bool_decide (resolve_col_u d ∉ columns d));
    [done|].
  destruct (empty (filtrado to_datetime f es d)); [done|].
  case_bool_decide; [|done]. by simplify_eq.
Qed.

Lemma length_boolean_index {A} (mask : list bool) (l : list A) :
  (length (boolean_index mask l) ≤ length l)%nat.
Proof.
  revert mask. induction l as [|x l IH]; intros [|[] mask]; simpl; try lia;
    specialize (IH mask); lia.
Qed.

Lemma length_filtrado to_datetime f es d :
  (length (rows (filtrado to_datetime f es d)) ≤ length (rows d))%nat.
Proof.
  unfold filtrado.
  set (t1 := tras_filtro_de_tipo f es d).
  set (t2 := tras_filtro_de_fecha to_datetime f (resolve_col_f d) t1).
  assert (H1 : (length (rows t1) ≤ length (rows d))%nat).
  { unfold t1, tras_filtro_de_tipo. destruct (_ && _); [|done].
    apply length_boolean_index. }
  assert (H2 : (length (rows t2) ≤ length (rows t1))%nat).
  { unfold t2, tras_filtro_de_fecha. destruct (resolve_col_f d) as [c|]; [|done].
    simpl. etrans; [apply length_boolean_index|].
    etrans; [apply length_filter|]. rewrite length_zip_with. lia. }
  assert (H3 : (length (rows (tras_filtro_de_usuario f (resolve_col_u d) t2))
                ≤ length (rows t2))%nat).
  { unfold tras_filtro_de_usuario. destruct (es_filtro_activo f); [|done].
    apply length_boolean_index. }
  lia.
Qed.

(** X3.  On a frame that has none of the four date columns the range of
    dates has no part in the view: two states of the filters that differ
    only in the range give the same outcome. *)
Theorem X3_sin_columna_de_fecha to_datetime f f' es h l d :
  h !! l = Some d → resolve_col_f d = None →
  tipo_legalizacion f = tipo_legalizacion f' →
  sel_usuarios f = sel_usuarios f' →
  (procesar_y_graficar to_datetime f (Some l) es h).1
  = (procesar_y_graficar to_datetime f' (Some l) es h).1.
Proof.
  intros Hl Hc Ht Hs.
  rewrite !(procesar_y_graficar_resultado _ _ _ _ _ d Hl).
  destruct (empty d); [done|].
  unfold resultado, filtrado, vista_de, tras_filtro_de_usuario,
    tras_filtro_de_tipo, es_filtro_activo.
  by rewrite Hc, Ht, Hs.
Qed.

Lemma X3_witness :
  (procesar_y_graficar IsoDate.to_datetime todos (Some 0%nat) false [beto_y_ana]).1
  = (procesar_y_graficar IsoDate.to_datetime rango_invertido (Some 0%nat) false
       [beto_y_ana]).1.
Proof.
  apply (X3_sin_columna_de_fecha IsoDate.to_datetime todos rango_invertido false
           [beto_y_ana] 0%nat beto_y_ana); reflexivity.
Defined.

(** X4.  The selection of kinds of legalisation has no part in the views
    of the RIPS and of the invoices, also when their frame has a column
    [Tipo_Leg]: two states of the filters that differ only in that
    selection give the same outcome. *)
Theorem X4_tipo_solo_en_legalizaciones to_datetime f f' h df :
  sel_usuarios f = sel_usuarios f' →
  start_date f = start_date f' → end_date f = end_date f' →
  (procesar_y_graficar to_datetime f df false h).1
  = (procesar_y_graficar to_datetime f' df false h).1.
Proof.
  intros Hs Hi Hf. destruct df as [l|]; [|done].
  destruct (h !! l) as [d|] eqn:Hl.
  2: { unfold procesar_y_graficar, deref. by rewrite !run_bind, Hl. }
  rewrite !(procesar_y_graficar_resultado _ _ _ _ _ d Hl).
  destruct (empty d); [done|].
  unfold resultado, filtrado, vista_de, tras_filtro_de_usuario,
    tras_filtro_de_tipo, tras_filtro_de_fecha, en_rango, es_filtro_activo.
  simpl andb. cbv iota. by rewrite Hs, Hi, Hf.
Qed.

Lemma X4_witness :
  (procesar_y_graficar IsoDate.to_datetime todos (Some 0%nat) false [rips_ejemplo]).1
  = (procesar_y_graficar IsoDate.to_datetime
       (mkFiltros [] ["Todos"] 19737 19738) (Some 0%nat) false [rips_ejemplo]).1.
Proof.
  apply (X4_tipo_solo_en_legalizaciones IsoDate.to_datetime todos
           (mkFiltros [] ["Todos"] 19737 19738)); reflexivity.
Defined.

(** X5.  The number of records a view shows is at least one and at most
    the number of rows of the stored frame: the filters take rows away
    and add none. *)
Theorem X5_total_de_registros to_datetime f es h l d n v :
  h !! l = Some d →
  (procesar_y_graficar to_datetime f (Some l) es h).1 = Ok (TotalRegistros n v) →
  (1 ≤ n ≤ length (rows d))%nat.
Proof.
  intros Hl (_ & He & _ & -> & _)%(tablas_no_vacias _ _ _ _ _ d); [|done].
  split; [|apply length_filtrado].
  unfold empty in He. destruct (rows (filtrado to_datetime f es d)); [done|].
  simpl. lia.
Qed.

Lemma X5_witness :
  (1 ≤ 3 ≤ length (rows rips_ejemplo))%nat.
Proof.
  refine (X5_total_de_registros IsoDate.to_datetime todos false [rips_ejemplo]
            0%nat rips_ejemplo 3%nat _ eq_refl _).
  vm_compute. reflexivity.
Defined.

(** ** The tables of the two modes *)

Lemma fst_value_counts s :
  (value_counts s).*1 ≡ₚ unique (filter (λ c, notna c = true) s).
Proof.
  rewrite value_counts_Permutation, <- list_fmap_compose.
  by rewrite list_fmap_id.
Qed.

Lemma sum_list_with_tercero (g : cell * nat → Q) (counts : list (cell * nat)) :
  sum_list_with (λ r : cell * nat * Q, r.1.2) ((λ r, (r.1, r.2, g r)) <$> counts)
  = sum_list_with snd counts.
Proof. induction counts as [|r counts IH]; csimpl; [done|]. by rewrite IH. Qed.

Lemma sum_conteo_with_pct counts :
  sum_list_with (λ r : cell * nat * Q, r.1.2) (with_pct counts) = conteo_sum counts.
Proof. rewrite with_pct_fmap. apply sum_list_with_tercero. Qed.

(** X6.  In the ranking every operator of the filtered records has one
    line and only one, no line is of a missing operator, every count is
    at least one, and the counts add up to the number of filtered records
    that have an operator, which is at most the number of records the
    view shows. *)
Theorem X6_lineas_del_ranking to_datetime f es h l d :
  h !! l = Some d → empty d = false → resolve_col_u d ∈ columns d →
  es_filtro_activo f = false →
  empty (filtrado to_datetime f es d) = false →
  let fd := filtrado to_datetime f es d in
  let usuarios := column fd (resolve_col_u d) in
  ∃ counts,
    (procesar_y_graficar to_datetime f (Some l) es h).1
    = Ok (TotalRegistros (length (rows fd)) (General counts))
    ∧ NoDup ((λ r, r.1.1) <$> counts)
    ∧ (∀ u, u ∈ (λ r, r.1.1) <$> counts ↔ u ∈ usuarios ∧ notna u = true)
    ∧ (∀ u n p, (u, n, p) ∈ counts → (1 ≤ n)%nat)
    ∧ sum_list_with (λ r, r.1.2) counts
      = length (filter (λ v, notna v = true) usuarios)
    ∧ (sum_list_with (λ r, r.1.2) counts ≤ length (rows fd))%nat.
Proof.
  intros Hl He Hu Ha Hf fd usuarios.
  eexists. split; [by apply ranking_run|]. fold fd. fold usuarios.
  set (vc := value_counts usuarios).
  assert (Hnames : (λ r : cell * nat * Q, r.1.1) <$> with_pct vc = vc.*1).
  { rewrite with_pct_fmap, <- list_fmap_compose. done. }
  rewrite Hnames, sum_conteo_with_pct.
  split; [|split; [|split; [|split]]].
  - unfold vc. rewrite fst_value_counts. apply NoDup_unique.
  - intros u. unfold vc. rewrite fst_value_counts, elem_of_unique.
    rewrite list_elem_of_filter. tauto.
  - intros u n p [Hin _]%elem_of_with_pct.
    apply elem_of_value_counts in Hin as (Hin & Hna & ->).
    apply count_pos. by apply list_elem_of_filter.
  - apply conteo_sum_value_counts.
  - unfold vc. rewrite conteo_sum_value_counts.
    etrans; [apply length_filter|]. unfold usuarios, column.
    by rewrite length_fmap.
Qed.

Lemma X6_witness :
  let fd := filtrado IsoDate.to_datetime todos false rips_ejemplo in
  let usuarios := column fd "Usuario" in
  ∃ counts,
    (procesar_y_graficar IsoDate.to_datetime todos (Some 0%nat) false [rips_ejemplo]).1
    = Ok (TotalRegistros (length (rows fd)) (General counts))
    ∧ NoDup ((λ r, r.1.1) <$> counts)
    ∧ (∀ u, u ∈ (λ r, r.1.1) <$> counts ↔ u ∈ usuarios ∧ notna u = true)
    ∧ (∀ u n p, (u, n, p) ∈ counts → (1 ≤ n)%nat)
    ∧ sum_list_with (λ r, r.1.2) counts
      = length (filter (λ v, notna v = true) usuarios)
    ∧ (sum_list_with (λ r, r.1.2) counts ≤ length (rows fd))%nat.
Proof.
  apply (X6_lineas_del_ranking IsoDate.to_datetime todos false
           [rips_ejemplo] 0%nat rips_ejemplo);
    [reflexivity|reflexivity|by repeat constructor|reflexivity|by vm_compute].
Defined.

Lemma column_con_dia_evolucion c d col_u :
  col_u ≠ "Dia_Evolucion" →
  column (con_dia_evolucion c d) col_u = column d col_u.
Proof.
  intros Hne. unfold column. rewrite rows_con_dia_evolucion.
  rewrite <- list_fmap_compose. apply list_fmap_ext.
  intros _ r _. simpl. by rewrite get_insert_ne.
Qed.

Lemma resolve_col_u_no_es_dia d : resolve_col_u d ≠ "Dia_Evolucion".
Proof. unfold resolve_col_u. by case_bool_decide. Qed.

Section comparison.
Variable to_datetime : list cell → nat → option Z.
Variable f : filtros.
Variables (es : bool) (h : list DataFrame) (l : loc) (d : DataFrame).
Hypothesis Hl : h !! l = Some d.
Hypothesis He : empty d = false.
Hypothesis Hu : resolve_col_u d ∈ columns d.
Hypothesis Ha : es_filtro_activo f = true.
Hypothesis Hf : empty (filtrado to_datetime f es d) = false.

Lemma comparativo_run :
  (procesar_y_graficar to_datetime f (Some l) es h).1
  = Ok (TotalRegistros
          (length (rows (filtrado to_datetime f es d)))
          (Comparativo
             (match resolve_col_f d with
              | Some c =>
                  Some (size_by (con_dia_evolucion c (filtrado to_datetime f es d))
                          ["Dia_Evolucion"; resolve_col_u d])
              | None => None
              end)
             (value_counts (column (filtrado to_datetime f es d) (resolve_col_u d))))).
Proof.
  rewrite (procesar_y_graficar_resultado _ _ _ _ _ d Hl), He.
  unfold resultado, vista_de.
  rewrite (bool_decide_eq_false_2 (_ ∉ _)) by auto.
  rewrite andb_false_r, Hf, bool_decide_eq_true_2 by done.
  rewrite Ha. simpl.
  destruct (resolve_col_f d); [|done].
  by rewrite column_con_dia_evolucion by apply resolve_col_u_no_es_dia.
Qed.


End comparison.



(** ** The order of cells and of keys *)

Lemma string_ltb_lt (a b : string) :
  String.ltb a b = true ↔ OrderedTypeEx.String_as_OT.lt a b.
Proof.
  rewrite <- OrderedTypeEx.String_as_OT.cmp_lt.
  unfold String.ltb, OrderedTypeEx.String_as_OT.cmp.
  destruct (String.compare a b); split; congruence.
Qed.

Lemma string_ltb_irrefl (a : string) : String.ltb a a = false.
Proof.
  destruct (String.ltb a a) eqn:E; [|done].
  apply string_ltb_lt, OrderedTypeEx.String_as_OT.lt_not_eq in E. by destruct E.
Qed.

Lemma string_ltb_trans (a b c : string) :
  String.ltb a b = true → String.ltb b c = true → String.ltb a c = true.
Proof.
  rewrite !string_ltb_lt. apply OrderedTypeEx.String_as_OT.lt_trans.
Qed.

Lemma string_ltb_total (a b : string) :
  String.ltb a b = false → String.ltb b a = false → a = b.
Proof.
  pose proof (OrderedTypeEx.String_as_OT.cmp_antisym b a) as Hanti.
  pose proof (OrderedTypeEx.String_as_OT.cmp_eq a b) as Heq.
  unfold OrderedTypeEx.String_as_OT.cmp in *. unfold String.ltb.
  rewrite Hanti. destruct (String.compare a b); simpl; try done.
  intros _ _. by apply Heq.
Qed.

Lemma cell_ltb_irrefl (a : cell) : cell_ltb a a = false.
Proof.
  destruct a; simpl; try done; rewrite ?Z.ltb_irrefl; try done.
  apply string_ltb_irrefl.
Qed.

Lemma cell_ltb_trans (a b c : cell) :
  cell_ltb a b = true → cell_ltb b c = true → cell_ltb a c = true.
Proof.
  destruct a, b, c; simpl; try done;
    rewrite ?Z.ltb_lt; try lia; apply string_ltb_trans.
Qed.

Lemma cell_ltb_total (a b : cell) :
  cell_ltb a b = false → cell_ltb b a = false → a = b.
Proof.
  destruct a, b; simpl; try done; rewrite ?Z.ltb_ge.
  - intros ??. f_equal. by apply string_ltb_total.
  - intros ??. f_equal. lia.
  - intros ??. f_equal. lia.
Qed.

Lemma key_ltb_irrefl (k : list cell) : key_ltb k k = false.
Proof. induction k as [|a k IH]; simpl; [done|]. by rewrite cell_ltb_irrefl. Qed.

Lemma key_ltb_trans (k1 k2 k3 : list cell) :
  key_ltb k1 k2 = true → key_ltb k2 k3 = true → key_ltb k1 k3 = true.
Proof.
  revert k2 k3. induction k1 as [|a k1 IH]; intros [|b k2] [|c k3]; simpl; try done.
  destruct (cell_ltb a b) eqn:Eab.
  - intros _. destruct (cell_ltb b c) eqn:Ebc.
    + by rewrite (cell_ltb_trans a b c).
    + destruct (cell_ltb c b) eqn:Ecb; [done|].
      rewrite (cell_ltb_total b c Ebc Ecb) in Eab. by rewrite Eab.
  - destruct (cell_ltb b a) eqn:Eba; [done|].
    rewrite (cell_ltb_total a b Eab Eba).
    destruct (cell_ltb b c); [done|]. destruct (cell_ltb c b); [done|].
    apply IH.
Qed.

Lemma key_ltb_total (k1 k2 : list cell) :
  key_ltb k1 k2 = false → key_ltb k2 k1 = false → k1 = k2.
Proof.
  revert k2. induction k1 as [|a k1 IH]; intros [|b k2]; simpl; try done.
  destruct (cell_ltb a b) eqn:Eab; [done|].
  destruct (cell_ltb b a) eqn:Eba; [done|].
  intros H1 H2. f_equal; [by apply cell_ltb_total|by apply IH].
Qed.

(** A list without repetitions that the stable sort has put in order is
    in strict order. *)
Lemma stable_sort_strict {A} (before : A → A → bool) (l : list A) :
  (∀ a, before a a = false) →
  (∀ a b c, before a b = true → before b c = true → before a c = true) →
  (∀ a b, before a b = false → before b a = false → a = b) →
  NoDup l →
  StronglySorted (λ a b, before a b = true) (stable_sort before l).
Proof.
  intros Hirr Htr Htot Hnd.
  assert (Hs : StronglySorted (λ a b, before a b = true ∨ a = b)
                 (stable_sort before l)).
  { apply stable_sort_StronglySorted.
    - intros a b c [Hab| ->] [Hbc| ->]; eauto.
    - auto.
    - intros a b Hab. destruct (before b a) eqn:Hba; [by left|].
      right. by apply Htot. }
  assert (Hnd' : NoDup (stable_sort before l))
    by (by rewrite stable_sort_Permutation).
  induction Hs as [|x k Hs IH Hall]; [constructor|].
  apply NoDup_cons in Hnd' as [Hx Hk].
  constructor; [by apply IH|].
  rewrite Forall_forall in Hall |- *. intros y Hy.
  destruct (Hall y Hy) as [?| ->]; done.
Qed.


(** ** The time series *)







(** X9.  The lines of the time series come in the order of the days,
    and within a day in the order of the operators; no two lines are of
    the same day and operator. *)
Theorem X9_orden_de_la_serie to_datetime f es h l d c :
  h !! l = Some d → empty d = false → resolve_col_u d ∈ columns d →
  resolve_col_f d = Some c →
  es_filtro_activo f = true →
  empty (filtrado to_datetime f es d) = false →
  ∃ evol resumen_sel,
    (procesar_y_graficar to_datetime f (Some l) es h).1
    = Ok (TotalRegistros (length (rows (filtrado to_datetime f es d)))
            (Comparativo (Some evol) resumen_sel))
    ∧ StronglySorted (λ a b, key_ltb a.1 b.1 = true) evol.
Proof.
  intros Hl He Hu Hc Ha Hf.
  eexists _, _. split.
  { rewrite (comparativo_run to_datetime f es h l d) by done. by rewrite Hc. }
  unfold size_by. apply StronglySorted_fmap_2. simpl.
  apply stable_sort_strict;
    [apply key_ltb_irrefl|apply key_ltb_trans|apply key_ltb_total
    |apply NoDup_unique].
Qed.

Lemma X9_witness :
  ∃ evol resumen_sel,
    (procesar_y_graficar IsoDate.to_datetime solo_ana (Some 0%nat) false
       [rips_ejemplo]).1
    = Ok (TotalRegistros
            (length (rows (filtrado IsoDate.to_datetime solo_ana false rips_ejemplo)))
            (Comparativo (Some evol) resumen_sel))
    ∧ StronglySorted (λ a b, key_ltb a.1 b.1 = true) evol.
Proof.
  apply (X9_orden_de_la_serie IsoDate.to_datetime solo_ana false
           [rips_ejemplo] 0%nat rips_ejemplo "FECHA");
    [reflexivity|reflexivity|by repeat constructor|reflexivity|reflexivity
    |by vm_compute].
Defined.

(** ** What a view leaves as it was *)

Lemma procesar_y_graficar_otros to_datetime f df es h k x :
  h !! k = Some x → df ≠ Some k →
  (procesar_y_graficar to_datetime f df es h).2 !! k = Some x.
Proof.
  intros Hk Hne. destruct df as [l|]; [|done].
  destruct (h !! l) as [d|] eqn:Hl.
  2: { unfold procesar_y_graficar, deref. by rewrite run_bind, Hl. }
  destruct (empty d) eqn:He.
  { unfold procesar_y_graficar. by rewrite run_bind, (deref_run h l d Hl), He. }
  destruct (procesar_y_graficar_run to_datetime f es h l d Hl He)
    as (h' & -> & _ & Hold). simpl.
  rewrite Hold; [done|by eapply lookup_lt_Some|congruence].
Qed.

(** X10.  A view changes no object of the heap other than the frame it
    is given: every other frame is afterwards what it was, whether the
    view shows tables, a message, or raises. *)
Theorem X10_otros_objetos to_datetime f df es h k x :
  h !! k = Some x → df ≠ Some k →
  (procesar_y_graficar to_datetime f df es h).2 !! k = Some x.
Proof. apply procesar_y_graficar_otros. Qed.

Lemma X10_witness :
  (procesar_y_graficar IsoDate.to_datetime todos (Some 0%nat) false
     [rips_ejemplo; beto_y_ana]).2 !! 1%nat
  = Some beto_y_ana.
Proof.
  apply (X10_otros_objetos IsoDate.to_datetime todos (Some 0%nat) false
           [rips_ejemplo; beto_y_ana] 1%nat beto_y_ana); [reflexivity|done].
Defined.

Lemma deref_all_heap ls h : (deref_all ls h).2 = h.
Proof.
  induction ls as [|l ls IH]; [done|]. simpl. rewrite run_bind.
  unfold deref. destruct (h !! l); [|done].
  rewrite run_bind. specialize IH. destruct (deref_all ls h) as [[ds|e] h'];
    simpl in *; by subst.
Qed.

Lemma copia_etiquetada_heap l v h :
  ∃ r h', (d ← copy l; setitem_scalar d "Tipo_Leg" v;; mret [d]) h = (r, h')
          ∧ (∀ k, (k < length h)%nat → h' !! k = h !! k)
          ∧ (length h ≤ length h')%nat.
Proof.
  rewrite run_bind. unfold copy. rewrite run_bind. unfold deref.
  destruct (h !! l) as [d|]; [|by eexists _, _].
  unfold new. rewrite run_bind.
  assert (H1 : (h ++ [d]) !! length h = Some d) by apply lookup_snoc.
  rewrite (setitem_scalar_run _ _ d H1).
  eexists _, _. split; [done|]. split.
  - intros k Hk. rewrite list_lookup_insert_ne by lia. by apply lookup_snoc_lt.
  - rewrite length_insert, length_app. simpl. lia.
Qed.

Lemma list_leg_heap st h :
  ∃ r h', list_leg st h = (r, h')
          ∧ (∀ k, (k < length h)%nat → h' !! k = h !! k)
          ∧ (length h ≤ length h')%nat.
Proof.
  unfold list_leg. rewrite run_bind.
  assert (H1 : ∃ r1 h1,
    match df_ppl st with
    | Some p => d_p ← copy p; setitem_scalar d_p "Tipo_Leg" (Str "PPL");; mret [d_p]
    | None => mret []
    end h = (r1, h1)
    ∧ (∀ k, (k < length h)%nat → h1 !! k = h !! k)
    ∧ (length h ≤ length h1)%nat).
  { destruct (df_ppl st) as [p|]; [apply copia_etiquetada_heap|by eexists _, _]. }
  destruct H1 as (r1 & h1 & -> & Hold1 & Hlen1).
  destruct r1 as [l1|e]; [|by eexists _, _].
  destruct (df_convenios st) as [c|]; [|by eexists _, _].
  destruct (copia_etiquetada_heap c (Str "Convenios") h1)
    as (r2 & h2 & Hrun & Hold2 & Hlen2).
  rewrite run_bind in Hrun. rewrite run_bind.
  destruct (copy c h1) as [[d_c|e] h1'] eqn:Ec.
  - rewrite run_bind in Hrun. rewrite run_bind.
    destruct (setitem_scalar d_c "Tipo_Leg" (Str "Convenios") h1') as [[[]|e] h1''].
    + injection Hrun as <- <-. eexists _, _. split; [done|].
      split; [|lia]. intros k Hk. rewrite Hold2 by lia. by apply Hold1.
    + injection Hrun as <- <-. eexists _, _. split; [done|].
      split; [|lia]. intros k Hk. rewrite Hold2 by lia. by apply Hold1.
  - injection Hrun as <- <-. eexists _, _. split; [done|].
    split; [|lia]. intros k Hk. rewrite Hold2 by lia. by apply Hold1.
Qed.

Lemma tab_leg_otros to_datetime f st h k x :
  h !! k = Some x →
  (tab_leg to_datetime f st h).2 !! k = Some x.
Proof.
  intros Hk. assert (Hlt : (k < length h)%nat) by (by eapply lookup_lt_Some).
  unfold tab_leg. rewrite run_bind.
  destruct (list_leg_heap st h) as (r & h1 & -> & Hold & Hlen).
  assert (Hk1 : h1 !! k = Some x) by (by rewrite Hold).
  destruct r as [[|l ls]|e]; [done| |done].
  rewrite run_bind. unfold pd_concat. rewrite run_bind.
  pose proof (deref_all_heap (l :: ls) h1) as Hd.
  destruct (deref_all (l :: ls) h1) as [[ds|e] h1'] eqn:Ed; simpl in Hd; subst h1';
    [|done].
  unfold new. apply procesar_y_graficar_otros.
  - by apply lookup_snoc_old.
  - intros [= Heq]. lia.
Qed.

(** X11.  The view of the legalisations changes no frame of the heap it
    starts from: it works on copies, and every stored frame is afterwards
    what it was. *)
Theorem X11_legalizaciones_sobre_copias to_datetime f st h k x :
  h !! k = Some x →
  (tab_leg to_datetime f st h).2 !! k = Some x.
Proof. apply tab_leg_otros. Qed.

Lemma X11_witness :
  (tab_leg IsoDate.to_datetime todos (mkSession (Some 0%nat) (Some 1%nat) None None)
     [ppl_ejemplo; convenios_ejemplo]).2 !! 1%nat
  = Some convenios_ejemplo.
Proof.
  apply (X11_legalizaciones_sobre_copias IsoDate.to_datetime todos
           (mkSession (Some 0%nat) (Some 1%nat) None None)
           [ppl_ejemplo; convenios_ejemplo] 1%nat convenios_ejemplo).
  reflexivity.
Defined.

(** ** A second view of the same stored frame *)

Lemma imap_index_only {A B C} (g : nat → C) (l1 : list A) (l2 : list B) :
  length l1 = length l2 →
  imap (λ i _, g i) l1 = imap (λ i _, g i) l2.
Proof.
  revert g l2. induction l1 as [|x l1 IH]; intros g [|y l2] Hlen; try done.
  rewrite !imap_cons. f_equal. apply (IH (g ∘ S)). simpl in Hlen. lia.
Qed.

Lemma column_assign d c s :
  length s = length (rows d) → column (assign d c s) c = s.
Proof.
  unfold column. simpl. generalize (rows d). intros rs. revert s.
  induction rs as [|r rs IH]; intros [|v s] Hlen; try done.
  csimpl. rewrite get_insert. f_equal. apply IH. simpl in Hlen. lia.
Qed.

Lemma length_pd_to_datetime to_datetime s :
  length (pd_to_datetime to_datetime s) = length s.
Proof. apply length_imap. Qed.

Section second_view.
Variable to_datetime : list cell → nat → option Z.
Hypothesis Hparsed :
  ∀ s i, to_datetime (pd_to_datetime to_datetime s) i = to_datetime s i.

Lemma pd_to_datetime_idem s :
  pd_to_datetime to_datetime (pd_to_datetime to_datetime s)
  = pd_to_datetime to_datetime s.
Proof.
  unfold pd_to_datetime at 1.
  rewrite (imap_ext _ (λ i _, from_option Timestamp NaT (to_datetime s i))).
  2: { intros i x _. by rewrite Hparsed. }
  apply (imap_index_only (λ i, from_option Timestamp NaT (to_datetime s i))).
  apply length_pd_to_datetime.
Qed.

Lemma fechas_convertidas_idem c d :
  c ∈ columns d →
  fechas_convertidas to_datetime c (fechas_convertidas to_datetime c d)
  = fechas_convertidas to_datetime c d.
Proof.
  intros Hc. unfold fechas_convertidas.
  rewrite column_assign.
  2: { rewrite length_pd_to_datetime. unfold column. apply length_fmap. }
  rewrite pd_to_datetime_idem.
  generalize (pd_to_datetime to_datetime (column d c)). intros s.
  unfold assign. simpl. f_equal.
  - rewrite (add_column_id (columns d) c) by done. by apply add_column_id.
  - generalize (rows d). intros rs. revert s.
    induction rs as [|r rs IH]; intros [|v s]; try done.
    csimpl. rewrite insert_insert_eq. f_equal. apply IH.
Qed.

Lemma resultado_almacenado f d :
  empty d = false →
  empty (almacenado to_datetime false d) = false
  ∧ resultado to_datetime f false (almacenado to_datetime false d)
    = resultado to_datetime f false d.
Proof.
  intros He. unfold almacenado. simpl andb. cbv iota.
  destruct (resolve_col_f d) as [c|] eqn:Hc; [|done].
  assert (Hin : c ∈ columns d) by (by apply resolve_col_f_elem).
  set (d' := fechas_convertidas to_datetime c d).
  assert (Hcols : columns d' = columns d) by (by apply add_column_id).
  assert (Hlen : length (rows d') = length (rows d)).
  { unfold d', fechas_convertidas. simpl.
    rewrite length_zip_with_l_eq; [done|].
    rewrite length_pd_to_datetime. unfold column. by rewrite length_fmap. }
  assert (He' : empty d' = false).
  { unfold empty in *. rewrite Hcols.
    destruct (rows d), (rows d'); simpl in *; try done. }
  split; [done|].
  assert (Hu : resolve_col_u d' = resolve_col_u d)
    by (unfold resolve_col_u; by rewrite Hcols).
  assert (Hf : resolve_col_f d' = resolve_col_f d)
    by (unfold resolve_col_f; by rewrite Hcols).
  assert (Hfil : filtrado to_datetime f false d' = filtrado to_datetime f false d).
  { unfold filtrado. rewrite Hu, Hf, Hc.
    unfold tras_filtro_de_tipo. simpl andb. cbv iota.
    unfold tras_filtro_de_fecha. fold d'.
    unfold d' at 1 2. by rewrite fechas_convertidas_idem. }
  unfold resultado. by rewrite Hu, Hf, Hfil, Hcols.
Qed.

(** X12.  When parsing a column of parsed dates gives them back, a
    second view of a stored frame under the same filters shows what the
    first one showed: the dates the first view has written into the
    stored frame do not change the outcome. *)
Theorem X12_segunda_vista f h l d :
  h !! l = Some d →
  (procesar_y_graficar to_datetime f (Some l) false
     (procesar_y_graficar to_datetime f (Some l) false h).2).1
  = (procesar_y_graficar to_datetime f (Some l) false h).1.
Proof.
  intros Hl. destruct (empty d) eqn:He.
  - assert (Hrun : procesar_y_graficar to_datetime f (Some l) false h
                   = (Ok NoHayDatosCargados, h)).
    { unfold procesar_y_graficar.
      by rewrite run_bind, (deref_run h l d Hl), He. }
    rewrite Hrun. cbn [snd]. by rewrite Hrun.
  - destruct (procesar_y_graficar_run to_datetime f false h l d Hl He)
      as (h' & Hrun & Hst & _).
    rewrite Hrun. cbn [snd fst].
    rewrite (procesar_y_graficar_resultado _ _ _ _ _ _ Hst).
    destruct (resultado_almacenado f d He) as [He' Hres].
    by rewrite He', Hres.
Qed.
End second_view.

Lemma IsoDate_parsed s i :
  IsoDate.to_datetime (pd_to_datetime IsoDate.to_datetime s) i
  = IsoDate.to_datetime s i.
Proof.
  unfold IsoDate.to_datetime at 1 3, pd_to_datetime.
  rewrite list_lookup_imap. destruct (s !! i) as [v|] eqn:Hv; [|done]. simpl.
  unfold IsoDate.to_datetime. rewrite Hv. simpl.
  by destruct (IsoDate.parse v).
Qed.

Lemma X12_witness :
  (procesar_y_graficar IsoDate.to_datetime todos (Some 0%nat) false
     (procesar_y_graficar IsoDate.to_datetime todos (Some 0%nat) false
        [rips_ejemplo]).2).1
  = (procesar_y_graficar IsoDate.to_datetime todos (Some 0%nat) false
       [rips_ejemplo]).1.
Proof.
  apply (X12_segunda_vista IsoDate.to_datetime IsoDate_parsed todos
           [rips_ejemplo] 0%nat rips_ejemplo).
  reflexivity.
Defined.

(** ** The view of the legalisations *)

Section legalizaciones.
Variables (h : list DataFrame) (p c : loc) (dp dc : DataFrame).
Variable st : session_state.
Hypothesis Hsp : df_ppl st = Some p.
Hypothesis Hsc : df_convenios st = Some c.
Hypothesis Hp : h !! p = Some dp.
Hypothesis Hc : h !! c = Some dc.

(** The two labelled copies are the two objects that follow the heap. *)
Lemma list_leg_locs :
  ∃ h', list_leg st h = (Ok [length h; S (length h)], h')
        ∧ length h' = S (S (length h))
        ∧ h' !! length h = Some (assign_scalar dp "Tipo_Leg" (Str "PPL"))
        ∧ h' !! S (length h) = Some (assign_scalar dc "Tipo_Leg" (Str "Convenios")).
Proof.
  unfold list_leg. rewrite Hsp, Hsc.
  assert (Hpl : (p < length h)%nat) by (by eapply lookup_lt_Some).
  assert (Hcl : (c < length h)%nat) by (by eapply lookup_lt_Some).
  rewrite !run_bind, (copy_run h p dp Hp). cbv beta iota.
  set (h1 := h ++ [dp]).
  assert (H1 : h1 !! length h = Some dp) by apply lookup_snoc.
  rewrite !run_bind, (setitem_scalar_run h1 _ dp H1).
  cbv [mret M_ret]. cbv beta iota.
  set (d_p := assign_scalar dp "Tipo_Leg" (Str "PPL")).
  set (h2 := <[length h := d_p]> h1).
  assert (Hlen2 : length h2 = S (length h)).
  { unfold h2, h1. rewrite length_insert, length_app. simpl. lia. }
  assert (H2c : h2 !! c = Some dc).
  { unfold h2, h1. rewrite list_lookup_insert_ne by lia.
    by apply lookup_snoc_old. }
  rewrite !run_bind, (copy_run h2 c dc H2c). cbv beta iota.
  set (h3 := h2 ++ [dc]).
  assert (H3 : h3 !! length h2 = Some dc) by apply lookup_snoc.
  rewrite !run_bind, (setitem_scalar_run h3 _ dc H3).
  cbv [mret M_ret]. cbv beta iota. simpl app.
  set (d_c := assign_scalar dc "Tipo_Leg" (Str "Convenios")).
  rewrite Hlen2. eexists. split; [done|]. split; [|split].
  - rewrite length_insert. unfold h3. rewrite length_app, Hlen2. simpl. lia.
  - rewrite list_lookup_insert_ne by lia. unfold h3.
    apply lookup_snoc_old. unfold h2. apply list_lookup_insert_eq.
    unfold h1. rewrite length_app. simpl. lia.
  - apply list_lookup_insert_eq. unfold h3. rewrite length_app, Hlen2. simpl. lia.
Qed.

(** The view of the legalisations is the view of the united frame. *)
Lemma tab_leg_resultado to_datetime f :
  let merged := concat_frames [assign_scalar dp "Tipo_Leg" (Str "PPL");
                               assign_scalar dc "Tipo_Leg" (Str "Convenios")] in
  (tab_leg to_datetime f st h).1
  = if empty merged then Ok NoHayDatosCargados
    else resultado to_datetime f true merged.
Proof.
  intros merged. unfold tab_leg. rewrite run_bind.
  destruct list_leg_locs as (h' & -> & Hlen & Hdp & Hdc).
  unfold pd_concat, deref_all.
  rewrite !run_bind, (deref_run h' _ _ Hdp). cbv beta iota.
  rewrite !run_bind, (deref_run h' _ _ Hdc).
  cbv [mret M_ret]. cbv beta iota. rewrite run_bind. cbv beta iota.
  unfold new. fold merged.
  apply procesar_y_graficar_resultado, lookup_snoc.
Qed.
End legalizaciones.

Lemma resolve_col_f_candidato d c :
  resolve_col_f d = Some c →
  c ∈ ["FECHA_REAL"; "FECHA_FACTURA"; "FECHA"; "Fecha"].
Proof.
  unfold resolve_col_f. intros Hc.
  destruct (list_find _ _) as [[i c']|] eqn:E; [|done].
  inversion Hc; subst. apply list_find_Some in E as (E & _ & _).
  by eapply list_elem_of_lookup_2.
Qed.

Lemma elem_of_rows_tras_filtro_de_tipo f es d r :
  r ∈ rows (tras_filtro_de_tipo f es d) → r ∈ rows d.
Proof.
  unfold tras_filtro_de_tipo. destruct (_ && _); [|done].
  apply elem_of_boolean_index.
Qed.

Lemma elem_of_rows_tras_filtro_de_usuario f col_u d r :
  r ∈ rows (tras_filtro_de_usuario f col_u d) → r ∈ rows d.
Proof.
  unfold tras_filtro_de_usuario. destruct (es_filtro_activo f); [|done].
  apply elem_of_boolean_index.
Qed.

(** X13.  When the united frame of the legalisations takes its date
    column from the PPL frame and the frame of the agreements has no such
    column, the date filter leaves out every record of the agreements,
    whatever the range: the records the view of the legalisations works
    on are all PPL records.  (A missing value does not parse.) *)
Theorem X13_convenios_sin_fecha to_datetime f st h p c0 dp dc c :
  let merged := concat_frames [assign_scalar dp "Tipo_Leg" (Str "PPL");
                               assign_scalar dc "Tipo_Leg" (Str "Convenios")] in
  df_ppl st = Some p → df_convenios st = Some c0 →
  h !! p = Some dp → h !! c0 = Some dc →
  (∀ s i, s !! i = Some NaN → to_datetime s i = None) →
  resolve_col_f merged = Some c →
  Forall (λ r, r !! c = None) (rows dc) →
  (tab_leg to_datetime f st h).1
  = (if empty merged then Ok NoHayDatosCargados
     else resultado to_datetime f true merged)
  ∧ ∀ r, r ∈ rows (filtrado to_datetime f true merged) →
         get r "Tipo_Leg" = Str "PPL".
Proof.
  intros merged Hsp Hsc Hp Hc0 Hnan Hc Hdc.
  split; [by apply (tab_leg_resultado h p c0 dp dc st)|].
  intros r Hr. unfold filtrado in Hr. rewrite Hc in Hr.
  apply elem_of_rows_tras_filtro_de_usuario in Hr.
  rewrite rows_tras_filtro_de_fecha in Hr.
  apply elem_of_date_filter_spec in Hr as (i & r0 & t & Hi & Ht & _ & ->).
  assert (Hne : c ≠ "Tipo_Leg").
  { apply resolve_col_f_candidato in Hc.
    intros ->. repeat (apply elem_of_cons in Hc as [?|Hc]; [done|]).
    by apply not_elem_of_nil in Hc. }
  rewrite get_insert_ne by done.
  assert (Hval : get r0 c ≠ NaN).
  { intros Hv. rewrite Hnan in Ht; [done|].
    unfold column. by rewrite list_lookup_fmap, Hi, <- Hv. }
  apply list_elem_of_lookup_2, elem_of_rows_tras_filtro_de_tipo in Hi.
  unfold merged in Hi. rewrite rows_concat_two in Hi.
  set (cols := union_columns _) in *.
  apply elem_of_app in Hi as [Hi|Hi];
    apply list_elem_of_fmap in Hi as (r1 & -> & Hr1); simpl in Hr1;
    apply list_elem_of_fmap in Hr1 as (r2 & -> & Hr2).
  - rewrite get_reindex; [apply get_insert|].
    apply elem_of_union_columns_two. left. apply elem_of_add_column.
  - exfalso. apply Hval. unfold get at 1. rewrite lookup_reindex.
    destruct (decide (c ∈ cols)); [|done]. simpl.
    rewrite get_insert_ne by done. unfold get.
    rewrite Forall_forall in Hdc. by rewrite (Hdc r2 Hr2).
Qed.

Lemma IsoDate_missing s i : s !! i = Some NaN → IsoDate.to_datetime s i = None.
Proof. intros Hs. unfold IsoDate.to_datetime. by rewrite Hs. Qed.

Lemma X13_witness :
  let merged := concat_frames [assign_scalar ppl_ejemplo "Tipo_Leg" (Str "PPL");
                               assign_scalar convenios_ejemplo "Tipo_Leg"
                                 (Str "Convenios")] in
  (tab_leg IsoDate.to_datetime todos
     (mkSession (Some 0%nat) (Some 1%nat) None None)
     [ppl_ejemplo; convenios_ejemplo]).1
  = (if empty merged then Ok NoHayDatosCargados
     else resultado IsoDate.to_datetime todos true merged)
  ∧ ∀ r, r ∈ rows (filtrado IsoDate.to_datetime todos true merged) →
         get r "Tipo_Leg" = Str "PPL".
Proof.
  apply (X13_convenios_sin_fecha IsoDate.to_datetime todos
           (mkSession (Some 0%nat) (Some 1%nat) None None)
           [ppl_ejemplo; convenios_ejemplo] 0%nat 1%nat
           ppl_ejemplo convenios_ejemplo "FECHA");
    [reflexivity|reflexivity|reflexivity|reflexivity|apply IsoDate_missing
    |by vm_compute|repeat (constructor; [by vm_compute|]); constructor].
Defined.

(** ** The side bar *)

Lemma facturadores_de_run h df :
  (∀ l, df = Some l → is_Some (h !! l)) →
  ∃ t, facturadores_de df h = (Ok t, h)
       ∧ ∀ v, v ∈ t ↔ ∃ l d, df = Some l ∧ h !! l = Some d ∧ v ∈ operadores d.
Proof.
  intros Hval. destruct df as [l|]; simpl.
  2: { exists []. split; [done|]. intros v. split; [by intros ?%not_elem_of_nil|].
       by intros (? & ? & ? & _). }
  destruct (Hval l eq_refl) as [d Hd].
  rewrite run_bind, (deref_run h l d Hd). unfold operadores.
  case_bool_decide as Hc.
  - rewrite run_bind, (getitem_run h l d Hd) by done.
    eexists. split; [done|]. intros v. rewrite elem_of_unique. split.
    + intros Hv. exists l, d. rewrite bool_decide_eq_true_2 by done. done.
    + intros (l' & d' & [= <-] & Hd' & Hv). rewrite Hd in Hd'.
      injection Hd' as <-. by rewrite bool_decide_eq_true_2 in Hv by done.
  - exists []. split; [done|]. intros v. split; [by intros ?%not_elem_of_nil|].
    intros (l' & d' & [= <-] & Hd' & Hv). rewrite Hd in Hd'.
    injection Hd' as <-. by rewrite bool_decide_eq_false_2 in Hv by done.
Qed.

Lemma elem_of_almacenados st l :
  l ∈ almacenados st
  ↔ df_ppl st = Some l ∨ df_convenios st = Some l
    ∨ df_rips st = Some l ∨ df_facturacion st = Some l.
Proof.
  unfold almacenados. rewrite list_elem_of_omap. split.
  - intros (o & Ho & Hid). simpl in Hid. subst o.
    repeat (apply elem_of_cons in Ho as [Ho|Ho]; [auto|]).
    by apply not_elem_of_nil in Ho.
  - intros Hl. exists (Some l). split; [|done].
    destruct Hl as [<-|[<-|[<-|<-]]]; repeat constructor.
Qed.

Lemma facturadores_total_run st h :
  (∀ l, l ∈ almacenados st → is_Some (h !! l)) →
  ∃ t, facturadores_total st h = (Ok t, h)
       ∧ ∀ v, v ∈ t ↔ ∃ l d, l ∈ almacenados st ∧ h !! l = Some d
                              ∧ v ∈ operadores d.
Proof.
  intros Hval. unfold facturadores_total.
  destruct (facturadores_de_run h (df_ppl st)) as (a & Ha & Hina).
  { intros l Hl. apply Hval, elem_of_almacenados. auto. }
  destruct (facturadores_de_run h (df_convenios st)) as (b & Hb & Hinb).
  { intros l Hl. apply Hval, elem_of_almacenados. auto. }
  destruct (facturadores_de_run h (df_rips st)) as (c & Hc & Hinc).
  { intros l Hl. apply Hval, elem_of_almacenados. auto. }
  destruct (facturadores_de_run h (df_facturacion st)) as (d & Hd & Hind).
  { intros l Hl. apply Hval, elem_of_almacenados. auto. }
  rewrite run_bind, Ha. cbv beta iota. rewrite run_bind, Hb. cbv beta iota.
  rewrite run_bind, Hc. cbv beta iota. rewrite run_bind, Hd. cbv beta iota.
  eexists. split; [done|]. intros v.
  rewrite !elem_of_app, Hina, Hinb, Hinc, Hind.
  setoid_rewrite elem_of_almacenados. naive_solver.
Qed.

Lemma py_sorted_textos (l : list cell) :
  Forall (λ v, ∃ s, v = Str s) l →
  py_sorted l = Some (stable_sort cell_ltb l).
Proof.
  intros Hall. destruct l as [|x l]; [done|]. unfold py_sorted.
  assert (Hrank : ∀ y, y ∈ x :: l → cell_rank y = 2).
  { intros y Hy. rewrite Forall_forall in Hall.
    by destruct (Hall y Hy) as [s ->]. }
  rewrite (proj2 (forallb_forall _ _)); [done|].
  intros y Hy%list_elem_of_In. apply Z.eqb_eq.
  rewrite (Hrank y Hy), (Hrank x); [done|left].
Qed.

(** X14.  The side bar offers "Todos" followed by the operators of the
    stored frames in ascending order, each once, when the operators are
    texts: an operator is offered exactly when some stored frame that has
    its operator column holds it, a missing value is never offered, a
    frame without operator column is passed over without an exception,
    and no stored frame is changed. *)
Theorem X14_opciones_de_facturador st h :
  (∀ l, l ∈ almacenados st → is_Some (h !! l)) →
  (∀ l d v, l ∈ almacenados st → h !! l = Some d → v ∈ operadores d →
            ∃ s, v = Str s) →
  ∃ ops,
    opciones_facturador st h = (Ok (Some (Str "Todos" :: ops)), h)
    ∧ StronglySorted (λ a b, cell_ltb a b = true) ops
    ∧ ∀ v, v ∈ ops
           ↔ ∃ l d, l ∈ almacenados st ∧ h !! l = Some d
                    ∧ resolve_col_u d ∈ columns d
                    ∧ v ∈ column d (resolve_col_u d)
                    ∧ notna v = true.
Proof.
  intros Hval Htxt.
  destruct (facturadores_total_run st h Hval) as (t & Hrun & Hin).
  unfold opciones_facturador. rewrite run_bind, Hrun. cbv beta iota.
  rewrite py_sorted_textos.
  2: { apply Forall_forall. intros v Hv.
       apply (proj1 (elem_of_unique _ _)), Hin in Hv as (l & d & Hl & Hd & Hv).
       by eapply Htxt. }
  eexists. split; [done|]. split.
  - apply stable_sort_strict;
      [apply cell_ltb_irrefl|apply cell_ltb_trans|apply cell_ltb_total
      |apply NoDup_unique].
  - intros v. rewrite stable_sort_Permutation, elem_of_unique, Hin.
    unfold operadores. split.
    + intros (l & d & Hl & Hd & Hv). exists l, d.
      case_bool_decide; [|by apply not_elem_of_nil in Hv].
      apply list_elem_of_filter in Hv as [? ?]. done.
    + intros (l & d & Hl & Hd & Hc & Hv & Hna). exists l, d.
      rewrite bool_decide_eq_true_2 by done.
      split; [done|]. split; [done|]. by apply list_elem_of_filter.
Qed.

Lemma X14_witness :
  ∃ ops,
    opciones_facturador (mkSession None None (Some 0%nat) (Some 1%nat))
      [rips_ejemplo; sin_usuario]
    = (Ok (Some (Str "Todos" :: ops)), [rips_ejemplo; sin_usuario])
    ∧ StronglySorted (λ a b, cell_ltb a b = true) ops
    ∧ ∀ v, v ∈ ops
           ↔ ∃ l d, l ∈ almacenados (mkSession None None (Some 0%nat) (Some 1%nat))
                    ∧ [rips_ejemplo; sin_usuario] !! l = Some d
                    ∧ resolve_col_u d ∈ columns d
                    ∧ v ∈ column d (resolve_col_u d)
                    ∧ notna v = true.
Proof.
  apply (X14_opciones_de_facturador
           (mkSession None None (Some 0%nat) (Some 1%nat))
           [rips_ejemplo; sin_usuario]).
  - intros l Hl. apply elem_of_almacenados in Hl.
    destruct Hl as [Hl|[Hl|[Hl|Hl]]]; simpl in Hl; try done;
      injection Hl as <-; by eexists.
  - intros l d v Hl Hd Hv. apply elem_of_almacenados in Hl.
    destruct Hl as [Hl|[Hl|[Hl|Hl]]]; simpl in Hl; try done;
      injection Hl as <-; injection Hd as <-; vm_compute in Hv.
    + repeat (apply elem_of_cons in Hv as [->|Hv]; [by eexists|]).
      by apply not_elem_of_nil in Hv.
    + by apply not_elem_of_nil in Hv.
Defined.

(** The options of the example: the frame without operator column adds
    none. *)
Example opciones_del_ejemplo :
  (opciones_facturador (mkSession None None (Some 0%nat) (Some 1%nat))
     [rips_ejemplo; sin_usuario]).1
  = Ok (Some [Str "Todos"; Str "Ana"; Str "Beto"]).
Proof. by vm_compute. Qed.

(** ** Synchronisation and the cache *)

Section cache_facts.
Variable read_csv : string → option DataFrame.
Variable astype_str : DataFrame → DataFrame.
Variable to_parquet : DataFrame → string → bool.

Lemma load_sheet_run sheet h :
  load_sheet read_csv sheet h
  = match read_csv (GSHEET_URL_BASE +:+ sheet) with
    | Some d => (Ok (Some (length h)), h ++ [d])
    | None => (Ok None, h)
    end.
Proof. unfold load_sheet. by destruct (read_csv _). Qed.

Lemma load_local_run fs path h :
  load_local fs path h
  = match fs !! path with
    | Some d => (Ok (Some (length h)), h ++ [d])
    | None => (Ok None, h)
    end.
Proof. unfold load_local. by destruct (fs !! path). Qed.

Lemma save_local_run fs h df path :
  (∀ l, df = Some l → is_Some (h !! l)) →
  save_local astype_str to_parquet fs df path h
  = (if escribible astype_str to_parquet h df path
     then Ok (guardado astype_str h df path fs)
     else Raise WriteError, h).
Proof.
  intros Hval. unfold escribible, guardado. destruct df as [l|]; [|done].
  destruct (Hval l eq_refl) as [d Hd]. simpl. rewrite Hd.
  unfold save_local. rewrite run_bind, (deref_run h l d Hd).
  destruct (empty d); [done|]. simpl.
  by destruct (to_parquet (astype_str d) path).
Qed.

Lemma lookup_guardado h df path fs :
  guardado astype_str h df path fs !! path
  = match df ≫= (λ l, h !! l) with
    | Some d => if empty d then fs !! path else Some (astype_str d)
    | None => fs !! path
    end.
Proof.
  unfold guardado. destruct (df ≫= _) as [d|]; [|done].
  destruct (empty d); [done|]. apply lookup_insert_eq.
Qed.

Lemma lookup_guardado_ne h df path path' fs :
  path ≠ path' →
  guardado astype_str h df path fs !! path' = fs !! path'.
Proof.
  intros Hne. unfold guardado. destruct (df ≫= _) as [d|]; [|done].
  destruct (empty d); [done|]. by apply lookup_insert_ne.
Qed.

Lemma guardar_FILES_run st fs h :
  (∀ l, l ∈ almacenados st → is_Some (h !! l)) →
  guardar astype_str to_parquet st FILES fs h
  = (if escribible astype_str to_parquet h (df_ppl st)
          (path_join PERSISTED_DATA_DIR "df_ppl.parquet")
        && escribible astype_str to_parquet h (df_convenios st)
             (path_join PERSISTED_DATA_DIR "df_convenios.parquet")
        && escribible astype_str to_parquet h (df_rips st)
             (path_join PERSISTED_DATA_DIR "df_rips.parquet")
        && escribible astype_str to_parquet h (df_facturacion st)
             (path_join PERSISTED_DATA_DIR "df_facturacion.parquet")
     then
       Ok (Some
         (guardado astype_str h (df_facturacion st)
            (path_join PERSISTED_DATA_DIR "df_facturacion.parquet")
            (guardado astype_str h (df_rips st)
               (path_join PERSISTED_DATA_DIR "df_rips.parquet")
               (guardado astype_str h (df_convenios st)
                  (path_join PERSISTED_DATA_DIR "df_convenios.parquet")
                  (guardado astype_str h (df_ppl st)
                     (path_join PERSISTED_DATA_DIR "df_ppl.parquet") fs)))))
     else Raise WriteError, h).
Proof.
  intros Hval. unfold FILES, guardar.
  change (getattr st ("df_" +:+ lower "PPL")) with (Some (df_ppl st)).
  change (getattr st ("df_" +:+ lower "Convenios")) with (Some (df_convenios st)).
  change (getattr st ("df_" +:+ lower "RIPS")) with (Some (df_rips st)).
  change (getattr st ("df_" +:+ lower "Facturacion")) with (Some (df_facturacion st)).
  cbv beta iota.
  rewrite run_bind, save_local_run
    by (intros l Hl; apply Hval, elem_of_almacenados; auto).
  destruct (escribible _ _ h (df_ppl st) _); [|done]. cbv beta iota.
  rewrite run_bind, save_local_run
    by (intros l Hl; apply Hval, elem_of_almacenados; auto).
  destruct (escribible _ _ h (df_convenios st) _); [|done]. cbv beta iota.
  rewrite run_bind, save_local_run
    by (intros l Hl; apply Hval, elem_of_almacenados; auto).
  destruct (escribible _ _ h (df_rips st) _); [|done]. cbv beta iota.
  rewrite run_bind, save_local_run
    by (intros l Hl; apply Hval, elem_of_almacenados; auto).
  by destruct (escribible _ _ h (df_facturacion st) _).
Qed.

Lemma load_sheet_spec sheet h :
  ∃ df h', load_sheet read_csv sheet h = (Ok df, h')
           ∧ (∀ k x, h !! k = Some x → h' !! k = Some x)
           ∧ cargada read_csv h' sheet df.
Proof.
  rewrite load_sheet_run. unfold cargada. destruct (read_csv _) as [d|].
  - eexists _, _. split; [done|]. split.
    + intros k x Hk. by apply lookup_snoc_old.
    + eexists. split; [done|]. apply lookup_snoc.
  - by eexists _, _.
Qed.

Lemma load_local_spec fs path h :
  ∃ df h', load_local fs path h = (Ok df, h')
           ∧ (∀ k x, h !! k = Some x → h' !! k = Some x)
           ∧ restaurada h' fs path df.
Proof.
  rewrite load_local_run. unfold restaurada. destruct (fs !! path) as [d|].
  - eexists _, _. split; [done|]. split.
    + intros k x Hk. by apply lookup_snoc_old.
    + eexists. split; [done|]. apply lookup_snoc.
  - by eexists _, _.
Qed.

Lemma cargada_mono h h' sheet df :
  (∀ k x, h !! k = Some x → h' !! k = Some x) →
  cargada read_csv h sheet df → cargada read_csv h' sheet df.
Proof.
  unfold cargada. intros Hext. destruct (read_csv _); [|done].
  intros (l & -> & Hl). eauto.
Qed.

Lemma restaurada_mono h h' fs path df :
  (∀ k x, h !! k = Some x → h' !! k = Some x) →
  restaurada h fs path df → restaurada h' fs path df.
Proof.
  unfold restaurada. intros Hext. destruct (fs !! path); [|done].
  intros (l & -> & Hl). eauto.
Qed.

Lemma cargada_valida h sheet df l :
  cargada read_csv h sheet df → df = Some l → is_Some (h !! l).
Proof.
  unfold cargada. destruct (read_csv _).
  - intros (l' & -> & Hl') [= <-]. eauto.
  - by intros ->.
Qed.

(** The run of a synchronisation: the four fetches give the frames of
    the session, and the writes decide whether it completes. *)
Lemma sincronizar_run fs h :
  ∃ a b c d h',
    sincronizar read_csv astype_str to_parquet fs h
    = (if escribible astype_str to_parquet h' a
            (path_join PERSISTED_DATA_DIR "df_ppl.parquet")
          && escribible astype_str to_parquet h' b
               (path_join PERSISTED_DATA_DIR "df_convenios.parquet")
          && escribible astype_str to_parquet h' c
               (path_join PERSISTED_DATA_DIR "df_rips.parquet")
          && escribible astype_str to_parquet h' d
               (path_join PERSISTED_DATA_DIR "df_facturacion.parquet")
       then
         Ok (mkSession a b c d,
             Some
               (guardado astype_str h' d
                  (path_join PERSISTED_DATA_DIR "df_facturacion.parquet")
                  (guardado astype_str h' c
                     (path_join PERSISTED_DATA_DIR "df_rips.parquet")
                     (guardado astype_str h' b
                        (path_join PERSISTED_DATA_DIR "df_convenios.parquet")
                        (guardado astype_str h' a
                           (path_join PERSISTED_DATA_DIR "df_ppl.parquet") fs)))))
       else Raise WriteError, h')
    ∧ (∀ k x, h !! k = Some x → h' !! k = Some x)
    ∧ cargada read_csv h' "PPL" a
    ∧ cargada read_csv h' "Convenios" b
    ∧ cargada read_csv h' "RIPS" c
    ∧ cargada read_csv h' "Facturacion" d.
Proof.
  destruct (load_sheet_spec "PPL" h) as (a & h1 & Ha & E1 & Sa).
  destruct (load_sheet_spec "Convenios" h1) as (b & h2 & Hb & E2 & Sb).
  destruct (load_sheet_spec "RIPS" h2) as (c & h3 & Hc & E3 & Sc).
  destruct (load_sheet_spec "Facturacion" h3) as (d & h4 & Hd & E4 & Sd).
  assert (Ca : cargada read_csv h4 "PPL" a).
  { apply (cargada_mono h1); [auto|done]. }
  assert (Cb : cargada read_csv h4 "Convenios" b).
  { apply (cargada_mono h2); [auto|done]. }
  assert (Cc : cargada read_csv h4 "RIPS" c).
  { apply (cargada_mono h3); [auto|done]. }
  exists a, b, c, d, h4. unfold sincronizar.
  rewrite run_bind, Ha. cbv beta iota. rewrite run_bind, Hb. cbv beta iota.
  rewrite run_bind, Hc. cbv beta iota. rewrite run_bind, Hd. cbv beta iota.
  rewrite run_bind, guardar_FILES_run.
  - cbn [df_ppl df_convenios df_rips df_facturacion]. split; [|auto 10].
    by destruct (_ && _).
  - intros l Hl. apply elem_of_almacenados in Hl. simpl in Hl.
    destruct Hl as [Hl|[Hl|[Hl|Hl]]]; eauto using cargada_valida.
Qed.

Lemma FILES_getitem_run h :
  FILES_getitem "PPL" h = (Ok (path_join PERSISTED_DATA_DIR "df_ppl.parquet"), h)
  ∧ FILES_getitem "Convenios" h
    = (Ok (path_join PERSISTED_DATA_DIR "df_convenios.parquet"), h)
  ∧ FILES_getitem "RIPS" h = (Ok (path_join PERSISTED_DATA_DIR "df_rips.parquet"), h)
  ∧ FILES_getitem "Facturacion" h
    = (Ok (path_join PERSISTED_DATA_DIR "df_facturacion.parquet"), h).
Proof. done. Qed.

Lemma inicializar_run fs h :
  ∃ st h',
    inicializar fs h = (Ok st, h')
    ∧ (∀ k x, h !! k = Some x → h' !! k = Some x)
    ∧ restaurada h' fs (path_join PERSISTED_DATA_DIR "df_ppl.parquet") (df_ppl st)
    ∧ restaurada h' fs (path_join PERSISTED_DATA_DIR "df_convenios.parquet")
        (df_convenios st)
    ∧ restaurada h' fs (path_join PERSISTED_DATA_DIR "df_rips.parquet") (df_rips st)
    ∧ restaurada h' fs (path_join PERSISTED_DATA_DIR "df_facturacion.parquet")
        (df_facturacion st).
Proof.
  destruct (load_local_spec fs (path_join PERSISTED_DATA_DIR "df_ppl.parquet") h)
    as (a & h1 & Ha & E1 & Sa).
  destruct (load_local_spec fs (path_join PERSISTED_DATA_DIR "df_convenios.parquet") h1)
    as (b & h2 & Hb & E2 & Sb).
  destruct (load_local_spec fs (path_join PERSISTED_DATA_DIR "df_rips.parquet") h2)
    as (c & h3 & Hc & E3 & Sc).
  destruct (load_local_spec fs (path_join PERSISTED_DATA_DIR "df_facturacion.parquet") h3)
    as (d & h4 & Hd & E4 & Sd).
  exists (mkSession a b c d), h4. unfold inicializar.
  rewrite run_bind. destruct (FILES_getitem_run h) as (-> & _). cbv beta iota.
  rewrite run_bind, Ha. cbv beta iota.
  rewrite run_bind. destruct (FILES_getitem_run h1) as (_ & -> & _). cbv beta iota.
  rewrite run_bind, Hb. cbv beta iota.
  rewrite run_bind. destruct (FILES_getitem_run h2) as (_ & _ & -> & _). cbv beta iota.
  rewrite run_bind, Hc. cbv beta iota.
  rewrite run_bind. destruct (FILES_getitem_run h3) as (_ & _ & _ & ->). cbv beta iota.
  rewrite run_bind, Hd. cbv beta iota.
  split; [done|]. split; [auto|]. cbn [df_ppl df_convenios df_rips df_facturacion].
  split; [apply (restaurada_mono h1); [auto|done]|].
  split; [apply (restaurada_mono h2); [auto|done]|].
  split; [apply (restaurada_mono h3); [auto|done]|]. done.
Qed.

Lemma rutas_distintas :
  path_join PERSISTED_DATA_DIR "df_ppl.parquet"
  ≠ path_join PERSISTED_DATA_DIR "df_convenios.parquet"
  ∧ path_join PERSISTED_DATA_DIR "df_ppl.parquet"
    ≠ path_join PERSISTED_DATA_DIR "df_rips.parquet"
  ∧ path_join PERSISTED_DATA_DIR "df_ppl.parquet"
    ≠ path_join PERSISTED_DATA_DIR "df_facturacion.parquet"
  ∧ path_join PERSISTED_DATA_DIR "df_convenios.parquet"
    ≠ path_join PERSISTED_DATA_DIR "df_rips.parquet"
  ∧ path_join PERSISTED_DATA_DIR "df_convenios.parquet"
    ≠ path_join PERSISTED_DATA_DIR "df_facturacion.parquet"
  ∧ path_join PERSISTED_DATA_DIR "df_rips.parquet"
    ≠ path_join PERSISTED_DATA_DIR "df_facturacion.parquet".
Proof. repeat split; intros H; vm_compute in H; discriminate H. Qed.

Lemma lookup_sincronizado h' fs a b c d :
  let fs' :=
    guardado astype_str h' d (path_join PERSISTED_DATA_DIR "df_facturacion.parquet")
      (guardado astype_str h' c (path_join PERSISTED_DATA_DIR "df_rips.parquet")
         (guardado astype_str h' b (path_join PERSISTED_DATA_DIR "df_convenios.parquet")
            (guardado astype_str h' a
               (path_join PERSISTED_DATA_DIR "df_ppl.parquet") fs))) in
  let escrito (df : option loc) (path : string) :=
    match df ≫= (λ l, h' !! l) with
    | Some x => if empty x then fs !! path else Some (astype_str x)
    | None => fs !! path
    end in
  fs' !! path_join PERSISTED_DATA_DIR "df_ppl.parquet"
  = escrito a (path_join PERSISTED_DATA_DIR "df_ppl.parquet")
  ∧ fs' !! path_join PERSISTED_DATA_DIR "df_convenios.parquet"
    = escrito b (path_join PERSISTED_DATA_DIR "df_convenios.parquet")
  ∧ fs' !! path_join PERSISTED_DATA_DIR "df_rips.parquet"
    = escrito c (path_join PERSISTED_DATA_DIR "df_rips.parquet")
  ∧ fs' !! path_join PERSISTED_DATA_DIR "df_facturacion.parquet"
    = escrito d (path_join PERSISTED_DATA_DIR "df_facturacion.parquet").
Proof.
  destruct rutas_distintas as (N12 & N13 & N14 & N23 & N24 & N34).
  cbv zeta. repeat split.
  - rewrite !lookup_guardado_ne by done. apply lookup_guardado.
  - rewrite !lookup_guardado_ne by done. rewrite lookup_guardado.
    by rewrite lookup_guardado_ne by done.
  - rewrite !lookup_guardado_ne by done. rewrite lookup_guardado.
    by rewrite !lookup_guardado_ne by done.
  - rewrite lookup_guardado. by rewrite !lookup_guardado_ne by done.
Qed.

Lemma sincronizada_of_lookup h' fs fs' sheet path df :
  cargada read_csv h' sheet df →
  escribible astype_str to_parquet h' df path = true →
  fs' !! path
  = match df ≫= (λ l, h' !! l) with
    | Some x => if empty x then fs !! path else Some (astype_str x)
    | None => fs !! path
    end →
  sincronizada read_csv astype_str to_parquet h' fs fs' sheet path df.
Proof.
  unfold cargada, sincronizada, escribible. destruct (read_csv _) as [x|].
  - intros (l & -> & Hl). simpl. rewrite Hl. intros Hw ->.
    split; [eauto|]. destruct (empty x); [done|]. by simpl in Hw.
  - by intros -> _ ->.
Qed.

Lemma escritura_fallida_of h' sheet path df :
  (sheet, path) ∈ FILES →
  cargada read_csv h' sheet df →
  escribible astype_str to_parquet h' df path = false →
  escritura_fallida read_csv astype_str to_parquet.
Proof.
  unfold cargada, escribible. intros Hin Hc Hw. exists sheet, path.
  destruct (read_csv (GSHEET_URL_BASE +:+ sheet)) as [x|].
  - destruct Hc as (l & -> & Hl). simpl in Hw. rewrite Hl in Hw.
    exists x. apply orb_false_iff in Hw as [He Hw]. done.
  - by subst df.
Qed.

Lemma recuperada_of_lookup h1 h2 fs fs' sheet path df df' :
  (∀ k x, h1 !! k = Some x → h2 !! k = Some x) →
  cargada read_csv h1 sheet df →
  fs' !! path
  = match df ≫= (λ l, h1 !! l) with
    | Some x => if empty x then fs !! path else Some (astype_str x)
    | None => fs !! path
    end →
  restaurada h2 fs' path df' →
  recuperada read_csv astype_str h2 fs sheet path df'.
Proof.
  unfold cargada, recuperada, restaurada. intros Hext.
  destruct (read_csv _) as [x|].
  - intros (l & -> & Hl) ->. simpl. rewrite Hl. by destruct (empty x).
  - by intros -> ->.
Qed.

(** X15 (lines 27-36 and 53-61).  A fetch that fails is no exception of
    the synchronisation: the frame of the source is [None] in the
    session.  The synchronisation raises only when the write of a
    fetched frame that is not empty fails.  When it completes, the
    session holds of each source the fetched frame or [None], and the
    file of the source has been written, with the text form of the
    frame, when the fetch gave a frame that is not empty, and is left as
    it was otherwise.  Frames already in the heap are not touched. *)
Theorem X15_sincronizacion fs h :
  ∃ h',
    (∀ k x, h !! k = Some x → h' !! k = Some x)
    ∧ ((∃ st fs',
          sincronizar read_csv astype_str to_parquet fs h = (Ok (st, Some fs'), h')
          ∧ sincronizada read_csv astype_str to_parquet h' fs fs' "PPL"
              (path_join PERSISTED_DATA_DIR "df_ppl.parquet") (df_ppl st)
          ∧ sincronizada read_csv astype_str to_parquet h' fs fs' "Convenios"
              (path_join PERSISTED_DATA_DIR "df_convenios.parquet") (df_convenios st)
          ∧ sincronizada read_csv astype_str to_parquet h' fs fs' "RIPS"
              (path_join PERSISTED_DATA_DIR "df_rips.parquet") (df_rips st)
          ∧ sincronizada read_csv astype_str to_parquet h' fs fs' "Facturacion"
              (path_join PERSISTED_DATA_DIR "df_facturacion.parquet")
              (df_facturacion st))
       ∨ (sincronizar read_csv astype_str to_parquet fs h = (Raise WriteError, h')
          ∧ escritura_fallida read_csv astype_str to_parquet)).
Proof.
  destruct (sincronizar_run fs h)
    as (a & b & c & d & h' & Hrun & Hext & Ca & Cb & Cc & Cd).
  destruct (lookup_sincronizado h' fs a b c d) as (L1 & L2 & L3 & L4).
  exists h'. split; [exact Hext|].
  destruct (escribible _ _ h' a _) eqn:W1; simpl in Hrun;
    [|right; split; [done|];
      eapply (escritura_fallida_of h' "PPL"); [|exact Ca|exact W1];
      unfold FILES; set_solver].
  destruct (escribible _ _ h' b _) eqn:W2; simpl in Hrun;
    [|right; split; [done|];
      eapply (escritura_fallida_of h' "Convenios"); [|exact Cb|exact W2];
      unfold FILES; set_solver].
  destruct (escribible _ _ h' c _) eqn:W3; simpl in Hrun;
    [|right; split; [done|];
      eapply (escritura_fallida_of h' "RIPS"); [|exact Cc|exact W3];
      unfold FILES; set_solver].
  destruct (escribible _ _ h' d _) eqn:W4; simpl in Hrun;
    [|right; split; [done|];
      eapply (escritura_fallida_of h' "Facturacion"); [|exact Cd|exact W4];
      unfold FILES; set_solver].
  left. eexists _, _. split; [exact Hrun|].
  cbn [df_ppl df_convenios df_rips df_facturacion].
  repeat split; by apply sincronizada_of_lookup.
Qed.

(** X16 (lines 34-49 and 53-61).  A session that starts after a
    synchronisation that completed finds, of each source, the text form
    of the frame that was fetched when the fetch gave a frame that is not
    empty; when the fetch failed or gave an empty frame it finds what the
    cache held before the synchronisation, or [None] without a file. *)
Theorem X16_reinicio_tras_sincronizar fs h st fs1 h1 :
  sincronizar read_csv astype_str to_parquet fs h = (Ok (st, Some fs1), h1) →
  ∃ st2 h2,
    inicializar fs1 h1 = (Ok st2, h2)
    ∧ recuperada read_csv astype_str h2 fs "PPL"
        (path_join PERSISTED_DATA_DIR "df_ppl.parquet") (df_ppl st2)
    ∧ recuperada read_csv astype_str h2 fs "Convenios"
        (path_join PERSISTED_DATA_DIR "df_convenios.parquet") (df_convenios st2)
    ∧ recuperada read_csv astype_str h2 fs "RIPS"
        (path_join PERSISTED_DATA_DIR "df_rips.parquet") (df_rips st2)
    ∧ recuperada read_csv astype_str h2 fs "Facturacion"
        (path_join PERSISTED_DATA_DIR "df_facturacion.parquet") (df_facturacion st2).
Proof.
  intros Hok.
  destruct (sincronizar_run fs h)
    as (a & b & c & d & h' & Hrun & Hext & Ca & Cb & Cc & Cd).
  destruct (lookup_sincronizado h' fs a b c d) as (L1 & L2 & L3 & L4).
  rewrite Hok in Hrun. destruct (_ && _); [|done].
  injection Hrun as -> -> ->.
  destruct (inicializar_run
              (guardado astype_str h' d
                 (path_join PERSISTED_DATA_DIR "df_facturacion.parquet")
                 (guardado astype_str h' c
                    (path_join PERSISTED_DATA_DIR "df_rips.parquet")
                    (guardado astype_str h' b
                       (path_join PERSISTED_DATA_DIR "df_convenios.parquet")
                       (guardado astype_str h' a
                          (path_join PERSISTED_DATA_DIR "df_ppl.parquet") fs)))) h')
    as (st2 & h2 & Hini & Hext2 & R1 & R2 & R3 & R4).
  exists st2, h2. split; [exact Hini|].
  repeat split; eapply recuperada_of_lookup; eauto.
Qed.
End cache_facts.

(** The synchronisation of the example completes: the session holds the
    PPL sheet and the empty sheet of the agreements, the PPL file is
    written and the RIPS file of the earlier day is still there. *)
Example sincronizacion_del_ejemplo :
  sincronizar read_csv_ejemplo id (λ _ _, true) cache_ejemplo []
  = (Ok (mkSession (Some 0%nat) (Some 1%nat) None None,
         Some (<[path_join PERSISTED_DATA_DIR "df_ppl.parquet" := ppl_ejemplo]>
                 cache_ejemplo)),
     [ppl_ejemplo; sin_filas]).
Proof. reflexivity. Qed.

(** When the write fails the synchronisation raises. *)
Example sincronizacion_sin_disco :
  sincronizar read_csv_ejemplo id (λ _ _, false) cache_ejemplo []
  = (Raise WriteError, [ppl_ejemplo; sin_filas]).
Proof. reflexivity. Qed.

Lemma X16_witness :
  ∃ st2 h2,
    inicializar
      (<[path_join PERSISTED_DATA_DIR "df_ppl.parquet" := ppl_ejemplo]> cache_ejemplo)
      [ppl_ejemplo; sin_filas]
    = (Ok st2, h2)
    ∧ recuperada read_csv_ejemplo id h2 cache_ejemplo "PPL"
        (path_join PERSISTED_DATA_DIR "df_ppl.parquet") (df_ppl st2)
    ∧ recuperada read_csv_ejemplo id h2 cache_ejemplo "Convenios"
        (path_join PERSISTED_DATA_DIR "df_convenios.parquet") (df_convenios st2)
    ∧ recuperada read_csv_ejemplo id h2 cache_ejemplo "RIPS"
        (path_join PERSISTED_DATA_DIR "df_rips.parquet") (df_rips st2)
    ∧ recuperada read_csv_ejemplo id h2 cache_ejemplo "Facturacion"
        (path_join PERSISTED_DATA_DIR "df_facturacion.parquet") (df_facturacion st2).
Proof.
  apply (X16_reinicio_tras_sincronizar read_csv_ejemplo id (λ _ _, true)
           cache_ejemplo [] (mkSession (Some 0%nat) (Some 1%nat) None None)).
  reflexivity.
Defined.

(** The session that starts after the synchronisation of the example
    holds the PPL sheet and the RIPS file of the earlier day, and no
    frame of the agreements. *)
Example reinicio_del_ejemplo :
  inicializar
    (<[path_join PERSISTED_DATA_DIR "df_ppl.parquet" := ppl_ejemplo]> cache_ejemplo)
    [ppl_ejemplo; sin_filas]
  = (Ok (mkSession (Some 2%nat) None (Some 3%nat) None),
     [ppl_ejemplo; sin_filas; ppl_ejemplo; rips_ejemplo]).
Proof. reflexivity. Qed.

Section sin_descarga.
Variable read_csv : string → option DataFrame.
Variable astype_str : DataFrame → DataFrame.
Variable to_parquet : DataFrame → string → bool.
Variable to_datetime : list cell → nat → option Z.
Variable f : filtros.

(** X17 (lines 27-36, 53-61, 85-88 and 155-178).  After a synchronisation
    that completed, in which the fetch of the RIPS sheet failed or gave
    an empty frame, the file of the source is as it was, and in the run
    that follows the RIPS tab shows that no data is loaded whenever the
    run reaches it, that is, whenever the tab of the legalisations
    raises nothing; so a run of the three tabs that completes shows that
    message in the second. *)
Theorem X17_sincronizar_sin_rips fs h st fs' h' :
  sincronizar read_csv astype_str to_parquet fs h = (Ok (st, Some fs'), h') →
  match read_csv (GSHEET_URL_BASE +:+ "RIPS") with
  | Some d => empty d = true
  | None => True
  end →
  fs' !! path_join PERSISTED_DATA_DIR "df_rips.parquet"
  = fs !! path_join PERSISTED_DATA_DIR "df_rips.parquet"
  ∧ (∀ o1 h1, tab_leg to_datetime f st h' = (Ok o1, h1) →
       tab_rips to_datetime f st h1 = (Ok NoHayDatosCargados, h1))
  ∧ (∀ o h3, tabs to_datetime f st h' = (Ok o, h3) →
       o.1.2 = NoHayDatosCargados).
Proof.
  intros Hok Hfetch.
  destruct (sincronizar_run read_csv astype_str to_parquet fs h)
    as (a & b & c & d & h0 & Hrun & Hext & Ca & Cb & Cc & Cd).
  destruct (lookup_sincronizado astype_str h0 fs a b c d) as (_ & _ & L3 & _).
  rewrite Hok in Hrun. destruct (_ && _); [|done].
  injection Hrun as -> -> ->.
  assert (Hrips : ∀ o1 h1, tab_leg to_datetime f (mkSession a b c d) h0 = (Ok o1, h1) →
            tab_rips to_datetime f (mkSession a b c d) h1
            = (Ok NoHayDatosCargados, h1)).
  { intros o1 h1 Hleg. unfold tab_rips, procesar_y_graficar. cbn [df_rips].
    unfold cargada in Cc.
    destruct (read_csv (GSHEET_URL_BASE +:+ "RIPS")) as [x|]; [|by subst c].
    destruct Cc as (l & -> & Hl).
    pose proof (tab_leg_otros to_datetime f (mkSession a b (Some l) d) h0 l x Hl)
      as Hl1.
    rewrite Hleg in Hl1. simpl in Hl1.
    by rewrite run_bind, (deref_run h1 l x Hl1), Hfetch. }
  split; [|split; [exact Hrips|]].
  - rewrite L3. unfold cargada in Cc.
    destruct (read_csv (GSHEET_URL_BASE +:+ "RIPS")) as [x|]; [|by subst c].
    destruct Cc as (l & -> & Hl). simpl. by rewrite Hl, Hfetch.
  - intros o h3. unfold tabs. rewrite run_bind.
    destruct (tab_leg to_datetime f (mkSession a b c d) h0) as [[o1|e] h1] eqn:Hleg;
      [|done].
    rewrite run_bind, (Hrips o1 h1 eq_refl). cbv beta iota.
    rewrite run_bind.
    destruct (tab_fact to_datetime f (mkSession a b c d) h1) as [[o3|e] h4]; [|done].
    by intros [= <- <-].
Qed.
End sin_descarga.

Lemma X17_witness :
  let st := mkSession (Some 0%nat) (Some 1%nat) None None in
  let fs' := <[path_join PERSISTED_DATA_DIR "df_ppl.parquet" := ppl_ejemplo]>
               cache_ejemplo in
  let h' := [ppl_ejemplo; sin_filas] in
  fs' !! path_join PERSISTED_DATA_DIR "df_rips.parquet"
  = cache_ejemplo !! path_join PERSISTED_DATA_DIR "df_rips.parquet"
  ∧ (∀ o1 h1, tab_leg IsoDate.to_datetime todos st h' = (Ok o1, h1) →
       tab_rips IsoDate.to_datetime todos st h1 = (Ok NoHayDatosCargados, h1))
  ∧ (∀ o h3, tabs IsoDate.to_datetime todos st h' = (Ok o, h3) →
       o.1.2 = NoHayDatosCargados).
Proof.
  apply (X17_sincronizar_sin_rips read_csv_ejemplo id (λ _ _, true)
           IsoDate.to_datetime todos cache_ejemplo []);
    [reflexivity|exact I].
Defined.

(** The run after the synchronisation of the example completes: the two
    PPL records are shown, and the other two tabs have no data, though
    the RIPS file of the earlier day is still in the cache. *)
Example pestanas_del_ejemplo :
  ∃ counts h3,
    tabs IsoDate.to_datetime todos (mkSession (Some 0%nat) (Some 1%nat) None None)
      [ppl_ejemplo; sin_filas]
    = (Ok (TotalRegistros 2 (General counts), NoHayDatosCargados, NoHayDatosCargados),
       h3).
Proof. eexists _, _. by vm_compute. Qed.

(** When the PPL sheet comes without operator column the tab of the
    legalisations raises, and the run never reaches the RIPS tab. *)
Example pestanas_sin_usuario :
  sincronizar read_csv_sin_usuario id (λ _ _, true) cache_ejemplo []
  = (Ok (mkSession (Some 0%nat) None None None,
         Some (<[path_join PERSISTED_DATA_DIR "df_ppl.parquet" := sin_usuario]>
                 cache_ejemplo)),
     [sin_usuario])
  ∧ (tabs IsoDate.to_datetime todos (mkSession (Some 0%nat) None None None)
       [sin_usuario]).1
    = Raise (KeyError "Usuario").
Proof. split; [reflexivity|by vm_compute]. Qed.
